(** * FormAnalyzer: single-frame weightlifting form analysis

    Shallow embedding of [components/FormAnalyzer.tsx] and the properties
    of its movement evaluators.

    JavaScript numbers are IEEE-754 binary64 values; they are modelled by
    Rocq's primitive floats, whose [+ - * /], [sqrt], [abs] and comparisons
    are the binary64 operations.  A decimal literal denotes the nearest
    binary64 value, as it does in JavaScript source text. *)

From Stdlib Require Import ZArith Floats Bool List Lia.
From stdpp Require Import base option gmap strings pretty.

Set Warnings "-inexact-float".
Local Open Scope float_scope.

(** ** The numeric library used by the analyzer *)

Module Math.

(** [Math.PI], the binary64 value nearest to pi. *)
Definition PI : float := 0x1.921fb54442d18p+1.

Definition abs (v : float) : float := PrimFloat.abs v.

Definition sqrt (v : float) : float := PrimFloat.sqrt v.

(** [Math.pow(v, 2)] and [v ** 2]: the correctly rounded square. *)
Definition pow2 (v : float) : float := v * v.

(** [Math.max(a, b)]: NaN when an argument is NaN, and [+0] is larger
    than [-0]. *)
Definition max (a b : float) : float :=
  if PrimFloat.is_nan a || PrimFloat.is_nan b then nan
  else if a <? b then b
  else if b <? a then a
  else if PrimFloat.get_sign a then b else a.

(** [Math.min(a, b)]: NaN when an argument is NaN, and [-0] is smaller
    than [+0]. *)
Definition min (a b : float) : float :=
  if PrimFloat.is_nan a || PrimFloat.is_nan b then nan
  else if a <? b then a
  else if b <? a then b
  else if PrimFloat.get_sign a then a else b.

(** The state of the engine's pseudo-random generator: the sequence of
    values that [Math.random()] will return, and how many were drawn. *)
Record rng := { draws : nat -> float; cursor : nat }.

(** [Math.random()]: returns the next draw and advances the generator. *)
Definition random (g : rng) : float * rng :=
  (draws g (cursor g), {| draws := draws g; cursor := S (cursor g) |}).

End Math.

(** ** Data model *)

Record KeyPoint := {
  x : float;
  y : float;
  z : option float;
  visibility : option float
}.

(** A pose as [analyze] can receive it at run time: the [keypoints]
    property may be missing. *)
Record PoseData := {
  keypoints : option (gmap string KeyPoint);
  timestamp : float
}.

Record FormFeedback := {
  score : float;
  feedback : list string;
  errors : list string;
  repCompleted : option bool;
  details : option (gmap string float)
}.

(** JavaScript truthiness of a property read: an object is truthy,
    [undefined] is falsy. *)
Definition truthy {A : Type} (v : option A) : bool :=
  match v with Some _ => true | None => false end.

(** The evaluators return [None] where the JavaScript code would throw a
    [TypeError] (a property read on [undefined]). *)

Module FormAnalyzer.

Section Evaluators.

(** [Math.acos] and [Math.atan2] are implementation-approximated
    functions of the host engine. *)
Variable Math_acos : float -> float.
Variable Math_atan2 : float -> float -> float.

Definition calculateAngle (point1 point2 point3 : KeyPoint) : float :=
  let vector1_x := point1.(x) - point2.(x) in
  let vector1_y := point1.(y) - point2.(y) in
  let vector2_x := point3.(x) - point2.(x) in
  let vector2_y := point3.(y) - point2.(y) in
  let dot := vector1_x * vector2_x + vector1_y * vector2_y in
  let mag1 := Math.sqrt (Math.pow2 vector1_x + Math.pow2 vector1_y) in
  let mag2 := Math.sqrt (Math.pow2 vector2_x + Math.pow2 vector2_y) in
  let cos := dot / (mag1 * mag2) in
  Math_acos (Math.max (-1) (Math.min 1 cos)) * 180 / Math.PI.

Definition detectBottomPosition (poseData : PoseData) : option bool :=
  keypoints ← poseData.(keypoints);
  leftHip ← keypoints !! "leftHip";
  rightHip ← keypoints !! "rightHip";
  leftKnee ← keypoints !! "leftKnee";
  rightKnee ← keypoints !! "rightKnee";
  let hipHeight := (leftHip.(y) + rightHip.(y)) / 2 in
  let kneeHeight := (leftKnee.(y) + rightKnee.(y)) / 2 in
  Some (kneeHeight <? hipHeight).

Definition detectPressMovement (poseData : PoseData) (g : Math.rng)
  : bool * Math.rng :=
  let '(r, g') := Math.random g in
  (0.8 <? r, g').

Definition detectDeadliftMovement (poseData : PoseData) : option bool :=
  keypoints ← poseData.(keypoints);
  leftHip ← keypoints !! "leftHip";
  rightHip ← keypoints !! "rightHip";
  let hipCenter_x := (leftHip.(x) + rightHip.(x)) / 2 in
  let hipCenter_y := (leftHip.(y) + rightHip.(y)) / 2 in
  leftShoulder ← keypoints !! "leftShoulder";
  rightShoulder ← keypoints !! "rightShoulder";
  let shoulderCenter_x := (leftShoulder.(x) + rightShoulder.(x)) / 2 in
  let shoulderCenter_y := (leftShoulder.(y) + rightShoulder.(y)) / 2 in
  let torsoAngle := Math.abs (shoulderCenter_x - hipCenter_x) in
  Some (torsoAngle <? 0.05).

Definition analyzeSquat (poseData : PoseData) : option FormFeedback :=
  keypoints ← poseData.(keypoints);
  let errors : list string := [] in
  let feedback : list string := [] in
  let score := 100 in
  let requiredPoints :=
    ["leftHip"; "rightHip"; "leftKnee"; "rightKnee"; "leftAnkle"; "rightAnkle"] in
  let hasRequiredPoints :=
    forallb (fun point => truthy (keypoints !! point)) requiredPoints in
  if negb hasRequiredPoints then
    Some {| score := 0;
            feedback := ["Position yourself so your full body is visible"];
            errors := ["Incomplete pose detection"];
            repCompleted := None;
            details := None |}
  else
  leftHip ← keypoints !! "leftHip";
  rightHip ← keypoints !! "rightHip";
  leftKnee ← keypoints !! "leftKnee";
  rightKnee ← keypoints !! "rightKnee";
  leftAnkle ← keypoints !! "leftAnkle";
  rightAnkle ← keypoints !! "rightAnkle";
  (* 1. Depth Analysis *)
  let hipHeight := (leftHip.(y) + rightHip.(y)) / 2 in
  let kneeHeight := (leftKnee.(y) + rightKnee.(y)) / 2 in
  let depthRatio := (kneeHeight - hipHeight) / (leftAnkle.(y) - hipHeight) in
  let '(errors, feedback, score) :=
    if depthRatio <? 0.1 then
      (errors ++ ["Squat deeper - hips need to go below knee level"],
       feedback, score - 25)
    else if depthRatio <? 0.3 then
      (errors, feedback ++ ["Good depth! Try to go slightly deeper"], score - 5)
    else
      (errors, feedback ++ ["Excellent depth!"], score) in
  (* 2. Knee Valgus (Knee Cave) Detection *)
  let kneeWidth := Math.abs (rightKnee.(x) - leftKnee.(x)) in
  let hipWidth := Math.abs (rightHip.(x) - leftHip.(x)) in
  let kneeCollapseRatio := kneeWidth / hipWidth in
  let '(errors, feedback, score) :=
    if kneeCollapseRatio <? 0.7 then
      (errors ++ ["Knees caving in - push knees out over toes"],
       feedback, score - 30)
    else if kneeCollapseRatio <? 0.85 then
      (errors,
       feedback ++ ["Watch knee alignment - keep them tracking over toes"],
       score - 10)
    else
      (errors, feedback ++ ["Great knee tracking!"], score) in
  (* 3. Forward Lean Analysis *)
  let forwardLean := 0 in
  let '(forwardLean, errors, feedback, score) :=
    match keypoints !! "leftShoulder", keypoints !! "rightShoulder" with
    | Some leftShoulder, Some rightShoulder =>
      let shoulderCenter_x := (leftShoulder.(x) + rightShoulder.(x)) / 2 in
      let shoulderCenter_y := (leftShoulder.(y) + rightShoulder.(y)) / 2 in
      let hipCenter_x := (leftHip.(x) + rightHip.(x)) / 2 in
      let hipCenter_y := (leftHip.(y) + rightHip.(y)) / 2 in
      let forwardLean := Math.abs (shoulderCenter_x - hipCenter_x) in
      if 0.1 <? forwardLean then
        (forwardLean, errors ++ ["Too much forward lean - keep chest up"],
         feedback, score - 20)
      else if 0.05 <? forwardLean then
        (forwardLean, errors,
         feedback ++ ["Slight forward lean - focus on keeping chest up"],
         score - 5)
      else
        (forwardLean, errors, feedback ++ ["Good upright posture!"], score)
    | _, _ => (forwardLean, errors, feedback, score)
    end in
  (* 4. Symmetry Check *)
  let leftLegLength :=
    Math.sqrt (Math.pow2 (leftKnee.(x) - leftHip.(x))
               + Math.pow2 (leftKnee.(y) - leftHip.(y))) in
  let rightLegLength :=
    Math.sqrt (Math.pow2 (rightKnee.(x) - rightHip.(x))
               + Math.pow2 (rightKnee.(y) - rightHip.(y))) in
  let asymmetry :=
    Math.abs (leftLegLength - rightLegLength)
    / Math.max leftLegLength rightLegLength in
  let '(errors, score) :=
    if 0.15 <? asymmetry then
      (errors ++ ["Uneven squat - check your stance and balance"], score - 15)
    else (errors, score) in
  (* Determine if this is a completed rep *)
  repCompleted ←
    (if 0.2 <? depthRatio then detectBottomPosition poseData else Some false);
  Some {| score := Math.max 0 score;
          feedback := feedback;
          errors := errors;
          repCompleted := Some repCompleted;
          details := Some (<["depth" := depthRatio]>
                          (<["kneeTracking" := kneeCollapseRatio]>
                          (<["forwardLean" := forwardLean]>
                          (<["symmetry" := asymmetry]> ∅)))) |}.

Definition analyzeBench (poseData : PoseData) (g : Math.rng)
  : option FormFeedback * Math.rng :=
  match poseData.(keypoints) with
  | None => (None, g)
  | Some keypoints =>
  let errors : list string := [] in
  let feedback : list string := [] in
  let score := 100 in
  let requiredPoints :=
    ["leftShoulder"; "rightShoulder"; "leftElbow"; "rightElbow";
     "leftWrist"; "rightWrist"] in
  let hasRequiredPoints :=
    forallb (fun point => truthy (keypoints !! point)) requiredPoints in
  if negb hasRequiredPoints then
    (Some {| score := 0;
             feedback := ["Position camera to show your upper body clearly"];
             errors := ["Incomplete pose detection"];
             repCompleted := None;
             details := None |}, g)
  else
  match keypoints !! "leftShoulder", keypoints !! "rightShoulder",
        keypoints !! "leftElbow", keypoints !! "rightElbow",
        keypoints !! "leftWrist", keypoints !! "rightWrist" with
  | Some leftShoulder, Some rightShoulder, Some leftElbow, Some rightElbow,
    Some leftWrist, Some rightWrist =>
  (* 1. Elbow Flare Analysis *)
  let leftElbowAngle := calculateAngle leftShoulder leftElbow leftWrist in
  let rightElbowAngle := calculateAngle rightShoulder rightElbow rightWrist in
  let avgElbowAngle := (leftElbowAngle + rightElbowAngle) / 2 in
  let '(errors, feedback, score) :=
    if 100 <? avgElbowAngle then
      (errors ++ ["Elbows too flared - bring them closer to your body"],
       feedback, score - 25)
    else if 85 <? avgElbowAngle then
      (errors,
       feedback ++ ["Slight elbow flare - try to keep elbows at 45-degree angle"],
       score - 10)
    else
      (errors, feedback ++ ["Good elbow position!"], score) in
  (* 2. Bar Path Analysis (approximated by wrist position) *)
  let wristCenter_x := (leftWrist.(x) + rightWrist.(x)) / 2 in
  let wristCenter_y := (leftWrist.(y) + rightWrist.(y)) / 2 in
  let shoulderCenter_x := (leftShoulder.(x) + rightShoulder.(x)) / 2 in
  let shoulderCenter_y := (leftShoulder.(y) + rightShoulder.(y)) / 2 in
  let barDeviation := Math.abs (wristCenter_x - shoulderCenter_x) in
  let '(errors, feedback, score) :=
    if 0.08 <? barDeviation then
      (errors ++ ["Bar drifting - keep it over your shoulders"],
       feedback, score - 20)
    else if 0.04 <? barDeviation then
      (errors,
       feedback ++ ["Minor bar drift - focus on straight up and down"],
       score - 5)
    else
      (errors, feedback ++ ["Great bar path!"], score) in
  (* 3. Symmetry Check *)
  let leftArmExtension :=
    Math.sqrt (Math.pow2 (leftWrist.(x) - leftShoulder.(x))
               + Math.pow2 (leftWrist.(y) - leftShoulder.(y))) in
  let rightArmExtension :=
    Math.sqrt (Math.pow2 (rightWrist.(x) - rightShoulder.(x))
               + Math.pow2 (rightWrist.(y) - rightShoulder.(y))) in
  let asymmetry :=
    Math.abs (leftArmExtension - rightArmExtension)
    / Math.max leftArmExtension rightArmExtension in
  let '(errors, score) :=
    if 0.1 <? asymmetry then
      (errors ++ ["Uneven press - check your grip and shoulder position"],
       score - 15)
    else (errors, score) in
  let '(repCompleted, g) := detectPressMovement poseData g in
  (Some {| score := Math.max 0 score;
           feedback := feedback;
           errors := errors;
           repCompleted := Some repCompleted;
           details := Some (<["elbowAngle" := avgElbowAngle]>
                           (<["barPath" := barDeviation]>
                           (<["symmetry" := asymmetry]> ∅))) |}, g)
  | _, _, _, _, _, _ => (None, g)
  end
  end.

Definition analyzeDeadlift (poseData : PoseData) : option FormFeedback :=
  keypoints ← poseData.(keypoints);
  let errors : list string := [] in
  let feedback : list string := [] in
  let score := 100 in
  let requiredPoints :=
    ["leftShoulder"; "rightShoulder"; "leftHip"; "rightHip";
     "leftKnee"; "rightKnee"] in
  let hasRequiredPoints :=
    forallb (fun point => truthy (keypoints !! point)) requiredPoints in
  if negb hasRequiredPoints then
    Some {| score := 0;
            feedback :=
              ["Position yourself so your full body is visible from the side"];
            errors := ["Incomplete pose detection"];
            repCompleted := None;
            details := None |}
  else
  leftShoulder ← keypoints !! "leftShoulder";
  rightShoulder ← keypoints !! "rightShoulder";
  leftHip ← keypoints !! "leftHip";
  rightHip ← keypoints !! "rightHip";
  leftKnee ← keypoints !! "leftKnee";
  rightKnee ← keypoints !! "rightKnee";
  (* 1. Back Angle Analysis *)
  let shoulderCenter_x := (leftShoulder.(x) + rightShoulder.(x)) / 2 in
  let shoulderCenter_y := (leftShoulder.(y) + rightShoulder.(y)) / 2 in
  let hipCenter_x := (leftHip.(x) + rightHip.(x)) / 2 in
  let hipCenter_y := (leftHip.(y) + rightHip.(y)) / 2 in
  let backAngle :=
    Math_atan2 (shoulderCenter_y - hipCenter_y)
               (shoulderCenter_x - hipCenter_x) * 180 / Math.PI in
  let '(errors, feedback, score) :=
    if 30 <? Math.abs backAngle then
      (errors ++ ["Back rounding detected - keep your back straight"],
       feedback, score - 30)
    else if 15 <? Math.abs backAngle then
      (errors, feedback ++ ["Slight back rounding - focus on neutral spine"],
       score - 10)
    else
      (errors, feedback ++ ["Good back position!"], score) in
  (* 2. Hip Hinge Analysis *)
  let kneeCenter_x := (leftKnee.(x) + rightKnee.(x)) / 2 in
  let kneeCenter_y := (leftKnee.(y) + rightKnee.(y)) / 2 in
  let hipToKneeDistance :=
    Math.sqrt (Math.pow2 (hipCenter_x - kneeCenter_x)
               + Math.pow2 (hipCenter_y - kneeCenter_y)) in
  let '(errors, feedback, score) :=
    if hipToKneeDistance <? 0.1 then
      (errors ++ ["Not enough hip hinge - push your hips back"],
       feedback, score - 25)
    else if hipToKneeDistance <? 0.15 then
      (errors,
       feedback ++ ["Good hip hinge, try to push hips back slightly more"],
       score - 5)
    else
      (errors, feedback ++ ["Excellent hip hinge pattern!"], score) in
  (* 3. Knee Position Check *)
  let '(errors, score) :=
    match keypoints !! "leftAnkle", keypoints !! "rightAnkle" with
    | Some leftAnkle, Some rightAnkle =>
      let ankleCenter_x := (leftAnkle.(x) + rightAnkle.(x)) / 2 in
      let ankleCenter_y := (leftAnkle.(y) + rightAnkle.(y)) / 2 in
      let kneeOverToes := Math.abs (kneeCenter_x - ankleCenter_x) in
      if 0.08 <? kneeOverToes then
        (errors ++ ["Knees too far forward - keep shins more vertical"],
         score - 15)
      else (errors, score)
    | _, _ => (errors, score)
    end in
  repCompleted ← detectDeadliftMovement poseData;
  Some {| score := Math.max 0 score;
          feedback := feedback;
          errors := errors;
          repCompleted := Some repCompleted;
          details := Some (<["backAngle" := Math.abs backAngle]>
                          (<["hipHinge" := hipToKneeDistance]> ∅)) |}.

(** The dispatcher.  [poseData] is [None] for a [null] or [undefined]
    argument. *)
Definition analyze (movement : string) (poseData : option PoseData)
    (g : Math.rng) : option FormFeedback * Math.rng :=
  let empty :=
    {| score := 0; feedback := []; errors := [];
       repCompleted := None; details := None |} in
  match poseData with
  | None => (Some empty, g)
  | Some poseData =>
    if negb (truthy poseData.(keypoints)) then (Some empty, g)
    else if String.eqb movement "squat" then (analyzeSquat poseData, g)
    else if String.eqb movement "bench" then analyzeBench poseData g
    else if String.eqb movement "deadlift" then (analyzeDeadlift poseData, g)
    else (Some empty, g)
  end.

End Evaluators.

End FormAnalyzer.


(** ** Vocabulary of the properties *)

(** The movement identifiers the dispatcher knows. *)
Definition supported : list string := ["squat"; "bench"; "deadlift"].

(** The landmarks each movement requires. *)
Definition requiredLandmarks (movement : string) : list string :=
  if String.eqb movement "squat" then
    ["leftHip"; "rightHip"; "leftKnee"; "rightKnee"; "leftAnkle"; "rightAnkle"]
  else if String.eqb movement "bench" then
    ["leftShoulder"; "rightShoulder"; "leftElbow"; "rightElbow";
     "leftWrist"; "rightWrist"]
  else if String.eqb movement "deadlift" then
    ["leftShoulder"; "rightShoulder"; "leftHip"; "rightHip";
     "leftKnee"; "rightKnee"]
  else [].

(** [hasLandmarks kp names]: every landmark of [names] is observed in the
    frame [kp]. *)
Definition hasLandmarks (kp : gmap string KeyPoint) (names : list string) : bool :=
  forallb (fun name => bool_decide (is_Some (kp !! name))) names.

(** A pose frame as the pose estimator hands it over. *)
Definition frame (kp : gmap string KeyPoint) (ts : float) : PoseData :=
  {| keypoints := Some kp; timestamp := ts |}.

(** The result returned for an unknown movement or a missing pose. *)
Definition emptyResult : FormFeedback :=
  {| score := 0; feedback := []; errors := [];
     repCompleted := None; details := None |}.

(** The result returned when a required landmark is missing. *)
Definition incompleteResult (movement : string) : FormFeedback :=
  {| score := 0;
     feedback :=
       if String.eqb movement "squat" then
         ["Position yourself so your full body is visible"]
       else if String.eqb movement "bench" then
         ["Position camera to show your upper body clearly"]
       else
         ["Position yourself so your full body is visible from the side"];
     errors := ["Incomplete pose detection"];
     repCompleted := None;
     details := None |}.

(** The messages of the penalised rule tiers, each with the amount its
    branch subtracts from the score. *)
Definition penaltyTable : list (string * Z) :=
  [ ("Squat deeper - hips need to go below knee level", 25%Z);
    ("Good depth! Try to go slightly deeper", 5%Z);
    ("Knees caving in - push knees out over toes", 30%Z);
    ("Watch knee alignment - keep them tracking over toes", 10%Z);
    ("Too much forward lean - keep chest up", 20%Z);
    ("Slight forward lean - focus on keeping chest up", 5%Z);
    ("Uneven squat - check your stance and balance", 15%Z);
    ("Elbows too flared - bring them closer to your body", 25%Z);
    ("Slight elbow flare - try to keep elbows at 45-degree angle", 10%Z);
    ("Bar drifting - keep it over your shoulders", 20%Z);
    ("Minor bar drift - focus on straight up and down", 5%Z);
    ("Uneven press - check your grip and shoulder position", 15%Z);
    ("Back rounding detected - keep your back straight", 30%Z);
    ("Slight back rounding - focus on neutral spine", 10%Z);
    ("Not enough hip hinge - push your hips back", 25%Z);
    ("Good hip hinge, try to push hips back slightly more", 5%Z);
    ("Knees too far forward - keep shins more vertical", 15%Z) ].

Definition penaltyOf (message : string) : Z :=
  match find (fun entry => String.eqb (fst entry) message) penaltyTable with
  | Some entry => snd entry
  | None => 0%Z
  end.

(** *** The rule book of the specification

    A two-tier rule compares a metric with a hard and a soft threshold; a
    single-tier rule has one threshold.  [Below] rules fire when the
    metric is under the threshold, [Above] rules when it is over. *)

Inductive direction := Below | Above.

Definition crosses (d : direction) (v threshold : float) : bool :=
  match d with
  | Below => v <? threshold
  | Above => threshold <? v
  end.

Definition tierPenalty (d : direction) (v : float)
    (hard : float) (hardPenalty : Z) (soft : float) (softPenalty : Z) : Z :=
  if crosses d v hard then hardPenalty
  else if crosses d v soft then softPenalty
  else 0%Z.

Definition singleTierPenalty (v threshold : float) (penalty : Z) : Z :=
  if crosses Above v threshold then penalty else 0%Z.

(** The centre of a left/right landmark pair. *)
Definition center_x (l r : KeyPoint) : float := (l.(x) + r.(x)) / 2.
Definition center_y (l r : KeyPoint) : float := (l.(y) + r.(y)) / 2.

(** A reported metric of a result, [r.details[name]]. *)
Definition metric (name : string) (r : FormFeedback) : option float :=
  d ← details r; d !! name.

(** The penalty each rule of a movement applies, by the thresholds of the
    specification on the metrics the result reports.  The knee-over-toe
    distance of the deadlift is not reported and is taken from the
    frame. *)
Definition rulePenalties (movement : string) (kp : gmap string KeyPoint)
    (r : FormFeedback) : option (list Z) :=
  if String.eqb movement "squat" then
    depth ← metric "depth" r;
    kneeTracking ← metric "kneeTracking" r;
    forwardLean ← metric "forwardLean" r;
    symmetry ← metric "symmetry" r;
    Some [ tierPenalty Below depth 0.1 25 0.3 5;
           tierPenalty Below kneeTracking 0.7 30 0.85 10;
           if hasLandmarks kp ["leftShoulder"; "rightShoulder"]
           then tierPenalty Above forwardLean 0.1 20 0.05 5 else 0%Z;
           singleTierPenalty symmetry 0.15 15 ]
  else if String.eqb movement "bench" then
    elbowAngle ← metric "elbowAngle" r;
    barPath ← metric "barPath" r;
    symmetry ← metric "symmetry" r;
    Some [ tierPenalty Above elbowAngle 100 25 85 10;
           tierPenalty Above barPath 0.08 20 0.04 5;
           singleTierPenalty symmetry 0.1 15 ]
  else if String.eqb movement "deadlift" then
    backAngle ← metric "backAngle" r;
    hipHinge ← metric "hipHinge" r;
    Some [ tierPenalty Above backAngle 30 30 15 10;
           tierPenalty Below hipHinge 0.1 25 0.15 5;
           match kp !! "leftKnee", kp !! "rightKnee",
                 kp !! "leftAnkle", kp !! "rightAnkle" with
           | Some leftKnee, Some rightKnee, Some leftAnkle, Some rightAnkle =>
             singleTierPenalty
               (Math.abs (center_x leftKnee rightKnee
                          - center_x leftAnkle rightAnkle)) 0.08 15
           | _, _, _, _ => 0%Z
           end ]
  else None.

(** The penalties of the messages a result carries. *)
Definition messagePenalties (r : FormFeedback) : list Z :=
  map penaltyOf (errors r ++ feedback r).

Definition sumZ (l : list Z) : Z := fold_right Z.add 0%Z l.

(** The JavaScript number of a small non-negative integer. *)
Definition numberOfZ (n : Z) : float := PrimFloat.of_uint63 (Uint63.of_Z n).

(** The result with its rep-completion flag erased. *)
Definition withoutRep (r : FormFeedback) : FormFeedback :=
  {| score := score r; feedback := feedback r; errors := errors r;
     repCompleted := None; details := details r |}.

Definition point (a b : float) : KeyPoint :=
  {| x := a; y := b; z := None; visibility := None |}.

(** Scenario A: a squat with perfect form, no shoulders observed. *)
Definition scenarioA : gmap string KeyPoint :=
  <["leftHip" := point 0.4 0.6]> (<["rightHip" := point 0.6 0.6]>
  (<["leftKnee" := point 0.4 0.8]> (<["rightKnee" := point 0.6 0.8]>
  (<["leftAnkle" := point 0.4 1.0]> (<["rightAnkle" := point 0.6 1.0]> ∅))))).

(** A squat frame whose two ankles are at different heights. *)
Definition unevenAnkles : gmap string KeyPoint :=
  <["leftHip" := point 0.375 0.5]> (<["rightHip" := point 0.625 0.5]>
  (<["leftKnee" := point 0.375 0.625]> (<["rightKnee" := point 0.625 0.625]>
  (<["leftAnkle" := point 0.375 1.0]> (<["rightAnkle" := point 0.625 0.75]> ∅))))).

(** The depth ratio as the specification words it, with both ankles. *)
Definition specDepthRatio (leftHip rightHip leftKnee rightKnee leftAnkle rightAnkle : KeyPoint)
  : float :=
  let hip := (leftHip.(y) + rightHip.(y)) / 2 in
  let knee := (leftKnee.(y) + rightKnee.(y)) / 2 in
  let ankle := (leftAnkle.(y) + rightAnkle.(y)) / 2 in
  (knee - hip) / (ankle - hip).

(** The depth ratio the squat evaluator computes. *)
Definition depthRatioOf (leftHip rightHip leftKnee rightKnee leftAnkle : KeyPoint)
  : float :=
  ((leftKnee.(y) + rightKnee.(y)) / 2 - (leftHip.(y) + rightHip.(y)) / 2)
  / (leftAnkle.(y) - (leftHip.(y) + rightHip.(y)) / 2).

(** The Euclidean length of the segment between two landmarks, as the
    symmetry checks compute it. *)
Definition segmentLength (a b : KeyPoint) : float :=
  Math.sqrt (Math.pow2 (b.(x) - a.(x)) + Math.pow2 (b.(y) - a.(y))).

(** The relative difference of two lengths. *)
Definition asymmetryOf (l r : float) : float :=
  Math.abs (l - r) / Math.max l r.

(** Scenario C: a bench press with the elbows bent at a right angle. *)
Definition scenarioC : gmap string KeyPoint :=
  <["leftShoulder" := point 0.3 0.3]> (<["rightShoulder" := point 0.7 0.3]>
  (<["leftElbow" := point 0.3 0.5]> (<["rightElbow" := point 0.7 0.5]>
  (<["leftWrist" := point 0.5 0.5]> (<["rightWrist" := point 0.5 0.5]> ∅))))).

(** A generator whose first draw is 0.9 and whose later draws are 0.1. *)
Definition twoDraws : Math.rng :=
  {| Math.draws := fun n => match n with O => 0.9 | S _ => 0.1 end;
     Math.cursor := 0 |}.

(** *** Requirements on the host's [Math.acos] and [Math.atan2]

    ECMAScript leaves the accuracy of both functions to the
    implementation and fixes their range and their values at the special
    arguments.  The properties below are the part of that contract the
    analyzer relies on. *)

Record acosConforms (acos : float -> float) : Prop := {
  (** [Math.acos(NaN)] is NaN. *)
  acos_nan : acos nan = nan;
  (** A result that is a number lies between [+0] and [Math.PI]. *)
  acos_range : forall v,
    PrimFloat.is_nan (acos v) = true
    \/ ((0 <=? acos v) && (acos v <=? Math.PI)) = true
}.

Record atan2Conforms (atan2 : float -> float -> float) : Prop := {
  (** [y < 0] and [x = +0]: the result is [-pi/2]. *)
  atan2_down : forall v, (v <? 0) = true -> atan2 v 0 = - (Math.PI / 2);
  (** [y = +0] and [x > 0]: the result is [+0]. *)
  atan2_right : forall u, (0 <? u) = true -> atan2 0 u = 0;
  (** [y = +0] and [x < 0]: the result is [pi]. *)
  atan2_left : forall u, (u <? 0) = true -> atan2 0 u = Math.PI;
  (** [y = +0] and [x = +0]: the result is [+0]. *)
  atan2_origin : atan2 0 0 = 0
}.

(** A three-step [acos]: exact at the arguments -1, 0 and 1 and constant
    around them. *)
Definition acos_steps (v : float) : float :=
  if PrimFloat.is_nan v || (v <? -1) || (1 <? v) then nan
  else if 0.5 <? v then 0
  else if v <? -0.5 then Math.PI
  else Math.PI / 2.

(** An [atan2] that is exact on the coordinate axes and answers with the
    direction of the nearest axis elsewhere. *)
Definition atan2_axes (v u : float) : float :=
  if PrimFloat.is_nan v || PrimFloat.is_nan u then nan
  else if Math.abs u <? Math.abs v then
    (if v <? 0 then - (Math.PI / 2) else Math.PI / 2)
  else if (u <? 0) || PrimFloat.get_sign u then
    (if PrimFloat.get_sign v then - Math.PI else Math.PI)
  else
    (if PrimFloat.get_sign v then -0 else 0).

(** *** Mirroring a pose *)

Fixpoint stripPrefix (p s : string) : option string :=
  match p with
  | EmptyString => Some s
  | String a p' =>
    match s with
    | String b s' => if Ascii.eqb a b then stripPrefix p' s' else None
    | EmptyString => None
    end
  end.

(** The name of the same landmark on the other side of the body. *)
Definition swapSide (name : string) : string :=
  match stripPrefix "left" name with
  | Some rest => String.append "right" rest
  | None =>
    match stripPrefix "right" name with
    | Some rest => String.append "left" rest
    | None => name
    end
  end.

(** The frame with every left landmark exchanged with its right
    counterpart. *)
Definition mirror (kp : gmap string KeyPoint) : gmap string KeyPoint :=
  kmap swapSide kp.

(** The back angle of the deadlift evaluator, in degrees: the direction of
    the vector from the hip centre to the shoulder centre. *)
Definition backAngleOf (atan2 : float -> float -> float)
    (leftShoulder rightShoulder leftHip rightHip : KeyPoint) : float :=
  atan2 (center_y leftShoulder rightShoulder - center_y leftHip rightHip)
        (center_x leftShoulder rightShoulder - center_x leftHip rightHip)
  * 180 / Math.PI.

(** Scenario B: the squat of scenario A with the right ankle unobserved. *)
Definition scenarioB : gmap string KeyPoint := delete "rightAnkle" scenarioA.

(** A squat that breaks every rule at once. *)
Definition worstSquat : gmap string KeyPoint :=
  <["leftHip" := point 0.3 0.5]> (<["rightHip" := point 0.7 0.5]>
  (<["leftKnee" := point 0.5 0.51]> (<["rightKnee" := point 0.56 0.51]>
  (<["leftAnkle" := point 0.3 1.0]> (<["rightAnkle" := point 0.7 1.0]>
  (<["leftShoulder" := point 0.6 0.2]> (<["rightShoulder" := point 0.8 0.2]>
  ∅))))))).

(** A lifter standing upright, shoulders directly above the hips. *)
Definition uprightLifter : gmap string KeyPoint :=
  <["leftShoulder" := point 0.45 0.25]> (<["rightShoulder" := point 0.55 0.25]>
  (<["leftHip" := point 0.45 0.5]> (<["rightHip" := point 0.55 0.5]>
  (<["leftKnee" := point 0.45 0.75]> (<["rightKnee" := point 0.55 0.75]> ∅))))).

(** A lifter bent over with a horizontal torso, seen from the side.  The
    shoulders are at the height of the hips, [offset] to their right. *)
Definition horizontalLifter (offset : float) : gmap string KeyPoint :=
  <["leftShoulder" := point (0.5 + offset) 0.5]>
  (<["rightShoulder" := point (0.5 + offset) 0.5]>
  (<["leftHip" := point 0.5 0.5]> (<["rightHip" := point 0.5 0.5]>
  (<["leftKnee" := point 0.5 0.75]> (<["rightKnee" := point 0.5 0.75]> ∅))))).

(** *** Vocabulary of the arithmetic facts *)

(** A number that is neither zero nor NaN, with sign [s]. *)
Definition SFsigned (s : bool) (v : spec_float) : Prop :=
  match v with
  | S754_finite s' _ _ | S754_infinity s' => s' = s
  | _ => False
  end.

(** A zero of either sign, or NaN: the possible values of [v - v]. *)
Definition zeroOrNaN (v : float) : Prop :=
  match Prim2SF v with
  | S754_zero _ | S754_nan => True
  | _ => False
  end.

(** A number between 0 and 180. *)
Definition inDegrees (v : float) : bool := (0 <=? v) && (v <=? 180).

(** The position of a value between two multiples of the unit in the
    last place, as one integer: four times the truncated mantissa, plus
    two for the round bit, plus one for the sticky bit. *)
Definition code (r : shr_record) : Z :=
  (4 * shr_m r + (if shr_r r then 2 else 0) + (if shr_s r then 1 else 0))%Z.

(** The rank of a non-negative binary64 number: its bit pattern read as
    an integer.  The order of the ranks is the order of the numbers. *)
Definition rank (v : spec_float) : Z :=
  match v with
  | S754_zero _ => 0%Z
  | S754_finite _ m e => ((e + 1075) * 2 ^ 52 + Zpos m)%Z
  | S754_infinity _ => (2 ^ 63)%Z
  | S754_nan => (-1)%Z
  end.

(** *** Vocabulary of the rounding facts *)

Local Open Scope Z_scope.

(** A positive number in canonical form. *)
Definition canonical (m e : Z) : Prop :=
  0 < m < 2 ^ 53 /\ -1074 <= e /\ (Zdigits2 m = 53 \/ e = -1074).

(** The rank of [m * 2^e * 180], rounded. *)
Definition rankTimes180 (m e : Z) : Z :=
  rank (binary_round_aux prec emax false (m * 6333186975989760) (e + -45)
          loc_Exact).

(** The rank of [m * 2^e / Math.PI], rounded. *)
Definition rankOverPI (m e : Z) : Z :=
  rank (let '(q, e', l) :=
          SFdiv_core_binary prec emax m e 7074237752028440 (-51) in
        binary_round_aux prec emax false q e' l).

(** The exponent at which the quotient is bracketed. *)
Definition quotientExponent (m e : Z) : Z :=
  Z.min (fexp prec emax (Zdigits2 m + e - 2)) (e + 51).

(** Zero, a positive number or positive infinity. *)
Definition SFnonneg (v : spec_float) : Prop :=
  match v with
  | S754_zero _ | S754_finite false _ _ | S754_infinity false => True
  | _ => False
  end.

Local Close Scope Z_scope.

(** ** The evaluators, rule by rule

    A second formulation of the three evaluators: every rule contributes
    its own errors and feedback, and the result is assembled from the
    contributions.  It is compared with the code below. *)

(** What a two-tier rule contributes: its errors and its feedback. *)
Definition tierMessages (d : direction) (v hard soft : float)
    (hardMessage softMessage goodMessage : string)
  : list string * list string :=
  if crosses d v hard then ([hardMessage], [])
  else if crosses d v soft then ([], [softMessage])
  else ([], [goodMessage]).

(** What a single-tier rule contributes. *)
Definition singleTierMessages (v threshold : float) (message : string)
  : list string * list string :=
  if crosses Above v threshold then ([message], []) else ([], []).

(** A rule that does not apply to the frame. *)
Definition skipped : list string * list string := ([], []).

(** The result made of the contributions of the rules, in their order.
    The score is 100 minus the penalties of the messages. *)
Definition assemble (rules : list (list string * list string))
    (rep : bool) (measured : gmap string float) : FormFeedback :=
  let errors := concat (map fst rules) in
  let feedback := concat (map snd rules) in
  {| score := numberOfZ (100 - sumZ (map penaltyOf (errors ++ feedback)));
     feedback := feedback;
     errors := errors;
     repCompleted := Some rep;
     details := Some measured |}.

Definition squatByRule (kp : gmap string KeyPoint) : option FormFeedback :=
  match kp !! "leftHip", kp !! "rightHip", kp !! "leftKnee",
        kp !! "rightKnee", kp !! "leftAnkle", kp !! "rightAnkle" with
  | Some leftHip, Some rightHip, Some leftKnee, Some rightKnee,
    Some leftAnkle, Some _ =>
    let depth := depthRatioOf leftHip rightHip leftKnee rightKnee leftAnkle in
    let kneeTracking :=
      Math.abs (rightKnee.(x) - leftKnee.(x))
      / Math.abs (rightHip.(x) - leftHip.(x)) in
    let lean :=
      match kp !! "leftShoulder", kp !! "rightShoulder" with
      | Some leftShoulder, Some rightShoulder =>
        Some (Math.abs (center_x leftShoulder rightShoulder
                        - center_x leftHip rightHip))
      | _, _ => None
      end in
    let symmetry :=
      asymmetryOf (segmentLength leftHip leftKnee)
                  (segmentLength rightHip rightKnee) in
    Some (assemble
      [ tierMessages Below depth 0.1 0.3
          "Squat deeper - hips need to go below knee level"
          "Good depth! Try to go slightly deeper"
          "Excellent depth!";
        tierMessages Below kneeTracking 0.7 0.85
          "Knees caving in - push knees out over toes"
          "Watch knee alignment - keep them tracking over toes"
          "Great knee tracking!";
        match lean with
        | Some forwardLean =>
          tierMessages Above forwardLean 0.1 0.05
            "Too much forward lean - keep chest up"
            "Slight forward lean - focus on keeping chest up"
            "Good upright posture!"
        | None => skipped
        end;
        singleTierMessages symmetry 0.15
          "Uneven squat - check your stance and balance" ]
      ((0.2 <? depth)
       && (center_y leftKnee rightKnee <? center_y leftHip rightHip))
      (<["depth" := depth]>
       (<["kneeTracking" := kneeTracking]>
       (<["forwardLean" := default 0 lean]>
       (<["symmetry" := symmetry]> ∅)))))
  | _, _, _, _, _, _ => Some (incompleteResult "squat")
  end.

Definition benchByRule (acos : float -> float) (kp : gmap string KeyPoint)
    (g : Math.rng) : option FormFeedback * Math.rng :=
  match kp !! "leftShoulder", kp !! "rightShoulder", kp !! "leftElbow",
        kp !! "rightElbow", kp !! "leftWrist", kp !! "rightWrist" with
  | Some leftShoulder, Some rightShoulder, Some leftElbow, Some rightElbow,
    Some leftWrist, Some rightWrist =>
    let elbowAngle :=
      (FormAnalyzer.calculateAngle acos leftShoulder leftElbow leftWrist
       + FormAnalyzer.calculateAngle acos rightShoulder rightElbow rightWrist)
      / 2 in
    let barPath :=
      Math.abs (center_x leftWrist rightWrist
                - center_x leftShoulder rightShoulder) in
    let symmetry :=
      asymmetryOf (segmentLength leftShoulder leftWrist)
                  (segmentLength rightShoulder rightWrist) in
    (Some (assemble
       [ tierMessages Above elbowAngle 100 85
           "Elbows too flared - bring them closer to your body"
           "Slight elbow flare - try to keep elbows at 45-degree angle"
           "Good elbow position!";
         tierMessages Above barPath 0.08 0.04
           "Bar drifting - keep it over your shoulders"
           "Minor bar drift - focus on straight up and down"
           "Great bar path!";
         singleTierMessages symmetry 0.1
           "Uneven press - check your grip and shoulder position" ]
       (0.8 <? fst (Math.random g))
       (<["elbowAngle" := elbowAngle]>
        (<["barPath" := barPath]>
        (<["symmetry" := symmetry]> ∅)))),
     snd (Math.random g))
  | _, _, _, _, _, _ => (Some (incompleteResult "bench"), g)
  end.

Definition deadliftByRule (atan2 : float -> float -> float)
    (kp : gmap string KeyPoint) : option FormFeedback :=
  match kp !! "leftShoulder", kp !! "rightShoulder", kp !! "leftHip",
        kp !! "rightHip", kp !! "leftKnee", kp !! "rightKnee" with
  | Some leftShoulder, Some rightShoulder, Some leftHip, Some rightHip,
    Some leftKnee, Some rightKnee =>
    let backAngle :=
      Math.abs (backAngleOf atan2 leftShoulder rightShoulder
                  leftHip rightHip) in
    let hipHinge :=
      Math.sqrt
        (Math.pow2 (center_x leftHip rightHip - center_x leftKnee rightKnee)
         + Math.pow2 (center_y leftHip rightHip
                      - center_y leftKnee rightKnee)) in
    Some (assemble
      [ tierMessages Above backAngle 30 15
          "Back rounding detected - keep your back straight"
          "Slight back rounding - focus on neutral spine"
          "Good back position!";
        tierMessages Below hipHinge 0.1 0.15
          "Not enough hip hinge - push your hips back"
          "Good hip hinge, try to push hips back slightly more"
          "Excellent hip hinge pattern!";
        match kp !! "leftAnkle", kp !! "rightAnkle" with
        | Some leftAnkle, Some rightAnkle =>
          singleTierMessages
            (Math.abs (center_x leftKnee rightKnee
                       - center_x leftAnkle rightAnkle)) 0.08
            "Knees too far forward - keep shins more vertical"
        | _, _ => skipped
        end ]
      (Math.abs (center_x leftShoulder rightShoulder
                 - center_x leftHip rightHip) <? 0.05)
      (<["backAngle" := backAngle]> (<["hipHinge" := hipHinge]> ∅)))
  | _, _, _, _, _, _ => Some (incompleteResult "deadlift")
  end.

Definition analyzeByRule (acos : float -> float)
    (atan2 : float -> float -> float) (movement : string)
    (kp : gmap string KeyPoint) (g : Math.rng)
  : option FormFeedback * Math.rng :=
  if String.eqb movement "squat" then (squatByRule kp, g)
  else if String.eqb movement "bench" then benchByRule acos kp g
  else if String.eqb movement "deadlift" then (deadliftByRule atan2 kp, g)
  else (Some emptyResult, g).

(** Zero, a negative number or negative infinity. *)
Definition SFnonpos (v : spec_float) : Prop :=
  match v with
  | S754_zero _ | S754_finite true _ _ | S754_infinity true => True
  | _ => False
  end.

(** *** Vocabulary of the further properties *)

(** The landmarks an evaluator looks up: the required ones and the
    optional pair of its conditional rule. *)
Definition landmarksRead (movement : string) : list string :=
  if String.eqb movement "squat" then
    requiredLandmarks "squat" ++ ["leftShoulder"; "rightShoulder"]
  else if String.eqb movement "deadlift" then
    requiredLandmarks "deadlift" ++ ["leftAnkle"; "rightAnkle"]
  else requiredLandmarks movement.

(** The image position of a landmark, without depth and visibility. *)
Definition planar (p : KeyPoint) : float * float := (p.(x), p.(y)).

(** Two frames show the same positions for the landmarks a movement's
    evaluator looks up. *)
Definition sameView (movement : string) (kp1 kp2 : gmap string KeyPoint)
  : Prop :=
  forall name, In name (landmarksRead movement) ->
    planar <$> kp1 !! name = planar <$> kp2 !! name.

(** The score of a frame that breaks every rule of its movement. *)
Definition lowestScore (movement : string) : float :=
  if String.eqb movement "squat" then 10
  else if String.eqb movement "bench" then 40
  else 30.

(** The pair of landmarks of a movement's conditional rule: the
    shoulders for the forward lean of the squat, the ankles for the knee
    position of the deadlift. *)
Definition optionalPair (movement : string) : string * string :=
  if String.eqb movement "squat" then ("leftShoulder", "rightShoulder")
  else ("leftAnkle", "rightAnkle").

(** The squat of scenario A with a depth and a visibility value on every
    landmark, and the nose observed as well. *)
Definition scenarioA_annotated : gmap string KeyPoint :=
  <["nose" := point 0.5 0.1]>
  ((fun p => {| x := p.(x); y := p.(y); z := Some 0.5;
                visibility := Some 0 |}) <$> scenarioA).

(** The squat of scenario A with the left shoulder observed, far in
    front of the hips, and the right shoulder hidden. *)
Definition loneShoulder : gmap string KeyPoint :=
  <["leftShoulder" := point 0.9 0.3]> scenarioA.

(** A squat below parallel: the hips are lower in the image than the
    knees, and the ankles lower than the hips. *)
Definition deepSquat : gmap string KeyPoint :=
  <["leftHip" := point 0.375 0.75]> (<["rightHip" := point 0.625 0.75]>
  (<["leftKnee" := point 0.375 0.625]> (<["rightKnee" := point 0.625 0.625]>
  (<["leftAnkle" := point 0.375 1.0]> (<["rightAnkle" := point 0.625 1.0]>
  ∅))))).

(** A squat seen exactly from the side: both hips at one [x]. *)
Definition sideSquat : gmap string KeyPoint :=
  <["leftHip" := point 0.5 0.5]> (<["rightHip" := point 0.5 0.5]>
  (<["leftKnee" := point 0.5 0.75]> (<["rightKnee" := point 0.5 0.75]>
  (<["leftAnkle" := point 0.5 1.0]> (<["rightAnkle" := point 0.5 1.0]>
  ∅))))).

(** A bench press on which the left elbow is detected at the position of
    the left shoulder. *)
Definition collapsedElbow : gmap string KeyPoint :=
  <["leftElbow" := point 0.3 0.3]> scenarioC.

(** ** The application shell: [App.tsx] *)

Module App.

Record Movement := {
  id : string;
  name : string;
  icon : string;
  description : string
}.

Definition movements : list Movement :=
  [ {| id := "squat"; name := "Squat"; icon := "🏋️";
       description := "Analyze squat depth, knee tracking, and posture" |};
    {| id := "bench"; name := "Bench Press"; icon := "💪";
       description := "Check bar path, elbow position, and symmetry" |};
    {| id := "deadlift"; name := "Deadlift"; icon := "⚡";
       description := "Evaluate hip hinge, back position, and bar path" |} ].

(** [movements.find(m => m.id === selectedMovement) || movements[0]]. *)
Definition getSelectedMovement (selectedMovement : string)
  : option Movement :=
  match find (fun m => String.eqb m.(id) selectedMovement) movements with
  | Some m => Some m
  | None => hd_error movements
  end.

(** The outcome of a recording, as the screen hands it to the shell. *)
Record AnalysisResult := {
  movement : string;
  duration : N;
  videoPath : string;
  score : float;
  feedback : list string
}.

Definition getScoreColor (score : float) : string :=
  if 80 <=? score then "#22c55e"
  else if 60 <=? score then "#f59e0b"
  else "#ef4444".

Definition getScoreLabel (score : float) : string :=
  if 80 <=? score then "Excellent"
  else if 60 <=? score then "Good"
  else "Needs Work".

End App.

(** [Math.floor]: the largest whole number that is at most [v].  A
    binary64 number with a non-negative exponent is whole; of another
    one the mantissa is shifted down to its whole part, and a negative
    number with a fraction goes one further down. *)
Definition Math_floor (v : float) : float :=
  match Prim2SF v with
  | S754_finite s m e =>
    if (0 <=? e)%Z then v
    else
      let whole := Z.shiftr (Zpos m) (- e) in
      let exact := (Z.shiftl whole (- e) =? Zpos m)%Z in
      let magnitude :=
        if s && negb exact then (whole + 1)%Z else whole in
      SF2Prim
        (binary_normalize prec emax
           (if s then (- magnitude)%Z else magnitude) 0 s)
  | _ => v
  end.

(** ** The recording screen: [components/CameraComponent.tsx]

    The recording time is a whole number of seconds, counted up from 0.
    It is modelled by a natural number below [2 ^ 53]: these are the
    whole numbers binary64 holds without a gap, and on them
    [Math.floor (s / 60)] is the quotient (proved below of the binary64
    division), [s % 60] is the remainder and [toString] prints decimal
    digits.  Above that range the binary64 quotient can round up to the
    next whole number, and the model is not the code. *)

Module CameraComponent.

(** The filler of [padStart]: [padString] repeated and truncated to [n]
    characters. *)
Fixpoint repeatTo (n : nat) (padString rest : string) : string :=
  match n with
  | O => EmptyString
  | S n' =>
    match rest with
    | String c rest' => String c (repeatTo n' padString rest')
    | EmptyString =>
      match padString with
      | String c rest' => String c (repeatTo n' padString rest')
      | EmptyString => EmptyString
      end
    end
  end.

(** [String.prototype.padStart]. *)
Definition padStart (targetLength : nat) (padString s : string) : string :=
  if (targetLength <=? String.length s)%nat then s
  else if (String.length padString =? 0)%nat then s
  else
    String.append
      (repeatTo (targetLength - String.length s) padString padString) s.

(** [Number.prototype.toString] on a whole number below [10 ^ 21]: its
    decimal digits. *)
Definition toString (n : N) : string := pretty n.

(** The recording times of the model: the whole numbers of seconds
    below [2 ^ 53]. *)
Definition wholeSeconds (seconds : N) : Prop := (seconds < 2 ^ 53)%N.

(** [formatTime], on [wholeSeconds]. *)
Definition formatTime (seconds : N) : string :=
  let mins := (seconds / 60)%N in
  let secs := (seconds mod 60)%N in
  String.append (padStart 2 "0" (toString mins))
    (String.append ":" (padStart 2 "0" (toString secs))).

(** The two decimal digits of a number below 100. *)
Definition twoDigits (n : N) : string :=
  String (pretty_N_char (n / 10))
    (String (pretty_N_char (n mod 10)) EmptyString).

Definition getCameraGuidance (selectedMovement : string) : string :=
  if String.eqb selectedMovement "squat" then
    "Position camera to show full body from the side. Ensure you can see from head to feet."
  else if String.eqb selectedMovement "bench" then
    "Position camera to show upper body and bar path. Side angle preferred."
  else if String.eqb selectedMovement "deadlift" then
    "Position camera to show full body from the side. Capture entire lift movement."
  else
    "Position camera to capture your full movement range.".

(** The state update of one timer tick of the mock recording: the new
    recording time, and whether [stopMockRecording] is called. *)
Definition tick (prev : N) : N * bool :=
  if (5 <=? prev)%N then (prev, true) else ((prev + 1)%N, false).

(** The recording time after [n] ticks, counted from [start]. *)
Fixpoint afterTicks (n : nat) (start : N) : N :=
  match n with
  | O => start
  | S n' => fst (tick (afterTicks n' start))
  end.

(** The result [stopMockRecording] passes to [onAnalysisComplete]:
    [recordingTime] is the recording time its closure holds. *)
Definition mockAnalysis (selectedMovement : string) (recordingTime : N)
    (g : Math.rng) : App.AnalysisResult * Math.rng :=
  let '(r, g') := Math.random g in
  ({| App.movement := selectedMovement;
      App.duration := recordingTime;
      App.videoPath := "mock://video/path";
      App.score := Math_floor (r * 30) + 70;
      App.feedback :=
        ["Good form detected"; "Consistent movement pattern";
         "Try to maintain tempo"] |}, g').

End CameraComponent.

(** The range ECMAScript gives [Math.atan2]: from [-pi] to [pi]. *)
Definition atan2InRange (atan2 : float -> float -> float) : Prop :=
  forall v u,
    PrimFloat.is_nan (atan2 v u) = true
    \/ ((- Math.PI <=? atan2 v u) && (atan2 v u <=? Math.PI)) = true.

(** The rank of [m * 2^e * 30], rounded. *)
Definition rankTimes30 (m e : Z) : Z :=
  rank (binary_round_aux prec emax false (m * 8444249301319680)%Z
          (e + -48)%Z loc_Exact).

(** The error of the hard tier of the rule that reads a reported
    metric. *)
Definition hardMessage (movement name : string) : string :=
  if String.eqb movement "squat" then
    if String.eqb name "depth" then
      "Squat deeper - hips need to go below knee level"
    else if String.eqb name "kneeTracking" then
      "Knees caving in - push knees out over toes"
    else if String.eqb name "forwardLean" then
      "Too much forward lean - keep chest up"
    else "Uneven squat - check your stance and balance"
  else if String.eqb movement "bench" then
    if String.eqb name "elbowAngle" then
      "Elbows too flared - bring them closer to your body"
    else if String.eqb name "barPath" then
      "Bar drifting - keep it over your shoulders"
    else "Uneven press - check your grip and shoulder position"
  else
    if String.eqb name "backAngle" then
      "Back rounding detected - keep your back straight"
    else "Not enough hip hinge - push your hips back".

(** The positive feedback of that rule; the symmetry rules have none. *)
Definition goodMessage (movement name : string) : list string :=
  if String.eqb movement "squat" then
    if String.eqb name "depth" then ["Excellent depth!"]
    else if String.eqb name "kneeTracking" then ["Great knee tracking!"]
    else if String.eqb name "forwardLean" then ["Good upright posture!"]
    else []
  else if String.eqb movement "bench" then
    if String.eqb name "elbowAngle" then ["Good elbow position!"]
    else if String.eqb name "barPath" then ["Great bar path!"]
    else []
  else
    if String.eqb name "backAngle" then ["Good back position!"]
    else ["Excellent hip hinge pattern!"].

(** NaN, a zero, a positive number or positive infinity. *)
Definition SFnotNegative (v : spec_float) : Prop :=
  match v with
  | S754_finite true _ _ | S754_infinity true => False
  | _ => True
  end.

(** NaN, or a value whose sign bit is clear: [+0], a positive number or
    positive infinity. *)
Definition SFplus (v : spec_float) : Prop :=
  match v with
  | S754_nan | S754_zero false | S754_finite false _ _
  | S754_infinity false => True
  | _ => False
  end.

(** ** The squat rules as the specification words them

    The penalties of the four rules of its section 4.3, evaluated on
    the landmarks of a frame: the depth ratio with the average ankle
    height, the knee span over the hip span, the forward lean when both
    shoulders are observed, and the relative difference of the two leg
    lengths. *)
Definition specSquatPenalties (kp : gmap string KeyPoint)
  : option (list Z) :=
  leftHip ← kp !! "leftHip";
  rightHip ← kp !! "rightHip";
  leftKnee ← kp !! "leftKnee";
  rightKnee ← kp !! "rightKnee";
  leftAnkle ← kp !! "leftAnkle";
  rightAnkle ← kp !! "rightAnkle";
  Some [ tierPenalty Below
           (specDepthRatio leftHip rightHip leftKnee rightKnee
              leftAnkle rightAnkle) 0.1 25 0.3 5;
         tierPenalty Below
           (Math.abs (rightKnee.(x) - leftKnee.(x))
            / Math.abs (rightHip.(x) - leftHip.(x))) 0.7 30 0.85 10;
         match kp !! "leftShoulder", kp !! "rightShoulder" with
         | Some leftShoulder, Some rightShoulder =>
           tierPenalty Above
             (Math.abs (center_x leftShoulder rightShoulder
                        - center_x leftHip rightHip)) 0.1 20 0.05 5
         | _, _ => 0%Z
         end;
         singleTierPenalty
           (asymmetryOf (segmentLength leftHip leftKnee)
                        (segmentLength rightHip rightKnee)) 0.15 15 ].

(** ** The cosine of [calculateAngle]

    The locals [dot], [mag1 * mag2] and [cos] of the function, at the
    vertex [point2]. *)
Definition dotOf (point1 point2 point3 : KeyPoint) : float :=
  (point1.(x) - point2.(x)) * (point3.(x) - point2.(x))
  + (point1.(y) - point2.(y)) * (point3.(y) - point2.(y)).

Definition lengthsOf (point1 point2 point3 : KeyPoint) : float :=
  Math.sqrt (Math.pow2 (point1.(x) - point2.(x))
             + Math.pow2 (point1.(y) - point2.(y)))
  * Math.sqrt (Math.pow2 (point3.(x) - point2.(x))
               + Math.pow2 (point3.(y) - point2.(y))).

Definition cosineOf (point1 point2 point3 : KeyPoint) : float :=
  dotOf point1 point2 point3 / lengthsOf point1 point2 point3.

(** A coordinate of the normalized image space: a number from 0 to 1. *)
Definition inUnit (v : float) : bool := (0 <=? v) && (v <=? 1).

(** A landmark in normalized image coordinates. *)
Definition normalized (p : KeyPoint) : bool := inUnit p.(x) && inUnit p.(y).

(** [Math.acos] of a number from -1 to 1 is a number: ECMAScript gives
    NaN for NaN and for arguments outside that interval only. *)
Definition acosNumeric (acos : float -> float) : Prop :=
  forall v, (-1 <=? v) && (v <=? 1) = true ->
            PrimFloat.is_nan (acos v) = false.

(** A zero, or a finite number whose exponent is at most [K]: a number
    of magnitude below [2 ^ (K + 53)]. *)
Definition SFwithin (K : Z) (v : spec_float) : Prop :=
  match v with
  | S754_zero _ => True
  | S754_finite _ _ e => (e <= K)%Z
  | _ => False
  end.

(** ** Facts about binary64 arithmetic *)

Module Binary64.

Lemma SFcompare_refl (v : spec_float) :
  v <> S754_nan -> SFcompare v v = Some Eq.
Proof.
  destruct v as [[]|[]| |[] m e]; simpl; try congruence; intros _.
  all: rewrite Z.compare_refl, Pos.compare_cont_refl; reflexivity.
Qed.

Lemma SFcompare_antisym (u v : spec_float) :
  SFcompare v u = option_map CompOpp (SFcompare u v).
Proof.
  destruct u as [[]|[]| |[] mu eu], v as [[]|[]| |[] mv ev];
    try reflexivity; simpl.
  all: rewrite (Z.compare_antisym ev eu); destruct (ev ?= eu)%Z; simpl;
    try reflexivity.
  all: rewrite (Pos.compare_cont_antisym mu mv Eq); reflexivity.
Qed.

Lemma SFcompare_Eq (u v : spec_float) :
  SFcompare u v = Some Eq ->
  u = v \/ exists s t, u = S754_zero s /\ v = S754_zero t.
Proof.
  destruct u as [su|su| |su mu eu], v as [sv|sv| |sv mv ev];
    try discriminate; try (right; eauto; fail);
    destruct su, sv; simpl; try discriminate; auto.
  all: destruct (eu ?= ev)%Z eqn:E; try discriminate.
  all: apply Z.compare_eq in E; subst.
  all: destruct (Pos.compare_cont Eq mu mv) eqn:C; try discriminate.
  all: apply Pos.compare_eq in C; subst; auto.
Qed.

Local Open Scope Z_scope.

Lemma digits2_size (p : positive) : digits2_pos p = Pos.size p.
Proof. induction p; simpl; congruence. Qed.

Lemma digits2_bounds (p : positive) :
  2 ^ (Zpos (digits2_pos p) - 1) <= Zpos p < 2 ^ Zpos (digits2_pos p).
Proof.
  rewrite digits2_size. split.
  - pose proof (Pos.size_le p) as H.
    assert (E : Zpos (2 ^ Pos.size p) = 2 ^ Zpos (Pos.size p)) by (rewrite Pos2Z.inj_pow; reflexivity).
    assert (L : (2 ^ Zpos (Pos.size p) <= 2 * Zpos p)) by (rewrite <- E; exact H).
    replace (Zpos (Pos.size p)) with (Z.succ (Zpos (Pos.size p) - 1)) in L by lia.
    rewrite Z.pow_succ_r in L by lia. lia.
  - pose proof (Pos.size_gt p) as H.
    assert (E : Zpos (2 ^ Pos.size p) = 2 ^ Zpos (Pos.size p)) by (rewrite Pos2Z.inj_pow; reflexivity).
    rewrite <- E. exact H.
Qed.

(** Shape of a valid finite binary64 number. *)
Lemma valid_finite (s : bool) (m : positive) (e : Z) :
  valid_binary (S754_finite s m e) = true ->
  -1074 <= e <= 971 /\ Zpos (digits2_pos m) <= 53
  /\ (-1074 < e -> Zpos (digits2_pos m) = 53).
Proof.
  unfold SpecFloat.valid_binary, bounded, canonical_mantissa, fexp, emin, prec, emax.
  rewrite andb_true_iff, Z.eqb_eq, Z.leb_le. lia.
Qed.

Lemma shl_align_fst (m : positive) (e e' : Z) :
  e' <= e -> Zpos (fst (shl_align m e e')) = Zpos m * 2 ^ (e - e').
Proof.
  intros H. unfold shl_align.
  destruct (e' - e) as [|d|d] eqn:E; try lia.
  - replace (e - e') with 0 by lia. simpl. lia.
  - cbn [fst]. change (Pos.iter xO m d) with (shift_pos d m).
    rewrite shift_pos_correct, Z.pow_pos_fold.
    replace (e - e') with (Zpos d) by lia. lia.
Qed.

Lemma shl_align_snd (m : positive) (e e' : Z) :
  snd (shl_align m e e') = Z.min e e'.
Proof.
  unfold shl_align. destruct (e' - e) as [|d|d] eqn:E; cbn [snd]; lia.
Qed.

Lemma iter_pos_iter {A : Type} (f : A -> A) (n : positive) (a : A) :
  SpecFloat.iter_pos f n a = Pos.iter f a n.
Proof.
  revert a. induction n as [n IH|n IH|]; intros a; simpl.
  - rewrite !IH, !Pos.iter_swap. reflexivity.
  - rewrite !IH. reflexivity.
  - reflexivity.
Qed.

Lemma shr_1_m (r : shr_record) :
  0 <= shr_m r -> shr_m (shr_1 r) = Z.div2 (shr_m r).
Proof.
  destruct r as [[|[p|p|]|p] rb sb]; simpl; intros H; try reflexivity; lia.
Qed.

Lemma iter_shr_1_m (n : positive) (r : shr_record) :
  0 <= shr_m r ->
  shr_m (SpecFloat.iter_pos shr_1 n r) = Z.shiftr (shr_m r) (Zpos n).
Proof.
  intros H. rewrite iter_pos_iter.
  induction n as [|n IH] using Pos.peano_ind.
  - simpl. rewrite shr_1_m by exact H. rewrite Z.div2_spec. reflexivity.
  - rewrite Pos.iter_succ, shr_1_m, IH.
    + rewrite Z.div2_spec, Z.shiftr_shiftr by lia. f_equal. lia.
    + rewrite IH. apply Z.shiftr_nonneg. exact H.
Qed.

Lemma shr_record_of_loc_m (m : Z) (l : location) :
  shr_m (shr_record_of_loc m l) = m.
Proof. destruct l as [|[]]; reflexivity. Qed.

(** Shifting a positive mantissa to its canonical exponent leaves it
    positive, provided the exponent is not below [emin]. *)
Lemma shr_fexp_pos (p : positive) (e : Z) (l : location) :
  -1074 <= e ->
  0 < shr_m (fst (shr_fexp prec emax (Zpos p) e l))
  /\ -1074 <= snd (shr_fexp prec emax (Zpos p) e l).
Proof.
  intros He. unfold shr_fexp, shr.
  pose proof (digits2_bounds p) as [Hlo _].
  set (n := fexp prec emax (Zdigits2 (Zpos p) + e) - e).
  assert (Hn : n <= Zpos (digits2_pos p) - 53 \/ n <= 0).
  { subst n. unfold fexp, emin, prec, emax. simpl Zdigits2. lia. }
  assert (Hd : 0 < Zpos (digits2_pos p)) by lia.
  destruct n as [|k|k] eqn:En; cbn [fst snd]; rewrite ?shr_record_of_loc_m;
    try (split; lia).
  rewrite iter_shr_1_m by (rewrite shr_record_of_loc_m; lia).
  rewrite shr_record_of_loc_m, Z.shiftr_div_pow2 by lia.
  split; [|lia].
  apply Z.div_str_pos. split; [apply Z.pow_pos_nonneg; lia|].
  transitivity (2 ^ (Zpos (digits2_pos p) - 1)); [|exact Hlo].
  apply Z.pow_le_mono_r; lia.
Qed.

Lemma round_nearest_even_pos (m : Z) (l : location) :
  0 < m -> 0 < round_nearest_even m l.
Proof.
  unfold round_nearest_even. destruct l as [|[]]; try lia.
  destruct (Z.even m); lia.
Qed.

Lemma binary_round_aux_signed (s : bool) (p : positive) (e : Z) (l : location) :
  -1074 <= e -> SFsigned s (binary_round_aux prec emax s (Zpos p) e l).
Proof.
  intros He. unfold binary_round_aux.
  destruct (shr_fexp_pos p e l He) as [H1 H2].
  destruct (shr_fexp prec emax (Zpos p) e l) as [mrs' e']. cbn [fst snd] in *.
  pose proof (round_nearest_even_pos _ (loc_of_shr_record mrs') H1) as H3.
  destruct (round_nearest_even (shr_m mrs') (loc_of_shr_record mrs')) as [|q|q];
    try lia.
  destruct (shr_fexp_pos q e' loc_Exact H2) as [H4 _].
  destruct (shr_fexp prec emax (Zpos q) e' loc_Exact) as [mrs'' e''].
  cbn [fst] in H4.
  destruct (shr_m mrs''); try lia.
  destruct (Z.leb _ _); reflexivity.
Qed.

Lemma binary_round_signed (s : bool) (p : positive) (e : Z) :
  -1074 <= e -> SFsigned s (binary_round prec emax s p e).
Proof.
  intros He. unfold binary_round.
  pose proof (shl_align_snd p e (fexp prec emax (Zpos (digits2_pos p) + e))) as S.
  destruct (shl_align _ _ _) as [mz ez]. cbn [snd] in S.
  apply binary_round_aux_signed.
  unfold fexp, emin, prec, emax in S. lia.
Qed.

Lemma binary_normalize_signed (m e : Z) :
  -1074 <= e ->
  (m < 0 -> SFsigned true (binary_normalize prec emax m e false))
  /\ (0 < m -> SFsigned false (binary_normalize prec emax m e false)).
Proof.
  intros He. destruct m; simpl; split; try lia; intros _;
    apply binary_round_signed; exact He.
Qed.


(** Magnitudes of two valid finite numbers, aligned to a common exponent,
    compare as their canonical representations do. *)
Lemma aligned_compare (sa sb : bool) (ma mb : positive) (ea eb : Z) :
  valid_binary (S754_finite sa ma ea) = true ->
  valid_binary (S754_finite sb mb eb) = true ->
  let va := Zpos (fst (shl_align ma ea (Z.min ea eb))) in
  let vb := Zpos (fst (shl_align mb eb (Z.min ea eb))) in
  (ea < eb -> va < vb) /\ (eb < ea -> vb < va)
  /\ (ea = eb -> va = Zpos ma /\ vb = Zpos mb).
Proof.
  intros Va Vb va vb.
  apply valid_finite in Va as (Ea & Da & Na), Vb as (Eb & Db & Nb).
  pose proof (digits2_bounds ma) as [La Ua].
  pose proof (digits2_bounds mb) as [Lb Ub].
  subst va vb. rewrite !shl_align_fst by lia.
  assert (P53 : forall d, d <= 53 -> 2 ^ d <= 2 ^ 53)
    by (intros; apply Z.pow_le_mono_r; lia).
  repeat split.
  - intros H. rewrite (Z.min_l ea eb) by lia. rewrite Z.sub_diag, Z.mul_1_r.
    rewrite Nb in Lb by lia.
    assert (2 ^ 1 <= 2 ^ (eb - ea)) by (apply Z.pow_le_mono_r; lia).
    specialize (P53 _ Da). change (2 ^ (53 - 1)) with 4503599627370496 in Lb.
    change (2 ^ 53) with 9007199254740992 in P53. change (2 ^ 1) with 2 in *.
    nia.
  - intros H. rewrite (Z.min_r ea eb) by lia. rewrite Z.sub_diag, Z.mul_1_r.
    rewrite Na in La by lia.
    assert (2 ^ 1 <= 2 ^ (ea - eb)) by (apply Z.pow_le_mono_r; lia).
    specialize (P53 _ Db). change (2 ^ (53 - 1)) with 4503599627370496 in La.
    change (2 ^ 53) with 9007199254740992 in P53. change (2 ^ 1) with 2 in *.
    nia.
  - subst. rewrite Z.min_id, Z.sub_diag. lia.
  - subst. rewrite Z.min_id, Z.sub_diag. lia.
Qed.

(** The sign of a difference is the order of its operands. *)
Lemma SFsub_signed (a b : spec_float) :
  valid_binary a = true -> valid_binary b = true ->
  (SFcompare a b = Some Lt -> SFsigned true (SF64sub a b))
  /\ (SFcompare a b = Some Gt -> SFsigned false (SF64sub a b)).
Proof.
  intros Va Vb.
  destruct a as [sa|sa| |sa ma ea], b as [sb|sb| |sb mb eb];
    try (split; discriminate);
    try (destruct sa, sb; simpl; split; congruence);
    try (destruct sa; simpl; split; congruence);
    try (destruct sb; simpl; split; congruence).
  unfold SF64sub, SFsub.
  pose proof (aligned_compare sa sb ma mb ea eb Va Vb) as (Hlt & Hgt & Heq).
  cbv zeta in Hlt, Hgt, Heq.
  apply valid_finite in Va as (Ea & _), Vb as (Eb & _).
  destruct (binary_normalize_signed
    (cond_Zopp sa (Zpos (fst (shl_align ma ea (Z.min ea eb))))
     - cond_Zopp sb (Zpos (fst (shl_align mb eb (Z.min ea eb)))))
    (Z.min ea eb)) as [Neg Pos]; [lia|].
  cbn [SFcompare].
  destruct sa, sb; cbn [cond_Zopp] in *;
    try (split; [intros _; apply Neg; lia|discriminate]);
    try (split; [discriminate|intros _; apply Pos; lia]).
  all: change (Pos.compare_cont Eq ma mb) with (Pos.compare ma mb).
  all: destruct (Z.compare_spec ea eb) as [E|E|E];
    [destruct (Heq E) as [Ha Hb]; rewrite Ha, Hb in Neg, Pos |- *;
     destruct (Pos.compare_spec ma mb) as [C|C|C]; cbn [CompOpp]
    |specialize (Hlt E)|specialize (Hgt E)].
  all: split; try discriminate; intros _.
  all: first [apply Neg; lia|apply Pos; lia].
Qed.


Local Close Scope Z_scope.

Lemma is_nan_spec (v : float) :
  PrimFloat.is_nan v = true <-> Prim2SF v = S754_nan.
Proof.
  unfold PrimFloat.is_nan. rewrite FloatAxioms.eqb_spec. unfold SFeqb.
  destruct (Prim2SF v) as [[]|[]| |[] m e] eqn:E; simpl; split;
    try congruence; try discriminate.
  all: rewrite Z.compare_refl, Pos.compare_cont_refl; simpl; discriminate.
Qed.

Lemma is_nan_false (v : float) :
  PrimFloat.is_nan v = false <-> Prim2SF v <> S754_nan.
Proof.
  rewrite <- is_nan_spec. destruct (PrimFloat.is_nan v); split; congruence.
Qed.

Lemma is_nan_nan (v : float) : PrimFloat.is_nan v = true -> v = nan.
Proof.
  intros H. apply is_nan_spec in H. apply Prim2SF_inj. rewrite H. reflexivity.
Qed.

Lemma ltb_asym (a b : float) : (a <? b) = true -> (b <? a) = false.
Proof.
  rewrite !ltb_spec. unfold SFltb.
  rewrite (SFcompare_antisym (Prim2SF a) (Prim2SF b)).
  destruct (SFcompare _ _) as [[]|]; simpl; congruence.
Qed.

Lemma ltb_not_nan (a b : float) :
  (a <? b) = true -> PrimFloat.is_nan a = false /\ PrimFloat.is_nan b = false.
Proof.
  rewrite ltb_spec, !is_nan_false. unfold SFltb.
  destruct (Prim2SF a), (Prim2SF b); simpl; try discriminate;
    split; discriminate.
Qed.

Lemma get_sign_zero (v : float) (s : bool) :
  Prim2SF v = S754_zero s -> PrimFloat.get_sign v = s.
Proof.
  intros E. unfold PrimFloat.get_sign, PrimFloat.is_zero.
  rewrite FloatAxioms.eqb_spec, E.
  change (Prim2SF zero) with (S754_zero false).
  change (SFeqb (S754_zero s) (S754_zero false)) with true. cbv iota.
  rewrite ltb_spec, div_spec, E.
  change (Prim2SF zero) with (S754_zero false).
  change (Prim2SF one) with (S754_finite false 4503599627370496 (-52)).
  destruct s; reflexivity.
Qed.

(** The magnitude of a result does not depend on the sign it is rounded
    with. *)
Lemma SFabs_binary_round_aux s1 s2 m e l :
  SFabs (binary_round_aux prec emax s1 m e l)
  = SFabs (binary_round_aux prec emax s2 m e l).
Proof.
  unfold binary_round_aux.
  destruct (shr_fexp prec emax m e l) as [mrs' e'].
  destruct (shr_fexp prec emax _ e' loc_Exact) as [mrs'' e''].
  destruct (shr_m mrs''); try reflexivity.
  destruct (Z.leb _ _); reflexivity.
Qed.

Lemma SFabs_binary_normalize_opp m e :
  SFabs (binary_normalize prec emax (- m) e false)
  = SFabs (binary_normalize prec emax m e false).
Proof.
  destruct m; simpl; try reflexivity; unfold binary_round;
  destruct (shl_align _ _ _); apply SFabs_binary_round_aux.
Qed.

(** [|a - b| = |b - a|], exactly. *)
Lemma abs_sub_comm (a b : float) : Math.abs (a - b) = Math.abs (b - a).
Proof.
  unfold Math.abs. apply Prim2SF_inj. rewrite !abs_spec, !sub_spec.
  destruct (Prim2SF a) as [[]|[]| |sa ma ea],
           (Prim2SF b) as [[]|[]| |sb mb eb]; try reflexivity.
  unfold SF64sub, SFsub. rewrite (Z.min_comm eb ea).
  rewrite <- SFabs_binary_normalize_opp. f_equal. f_equal. lia.
Qed.

Lemma max_comm (a b : float) : Math.max a b = Math.max b a.
Proof.
  unfold Math.max. rewrite (orb_comm (PrimFloat.is_nan b)).
  destruct (PrimFloat.is_nan a || PrimFloat.is_nan b) eqn:N; [reflexivity|].
  apply orb_false_elim in N as [Na Nb].
  destruct (a <? b) eqn:L1.
  { rewrite (ltb_asym _ _ L1). reflexivity. }
  destruct (b <? a) eqn:L2; [reflexivity|].
  assert (C : SFcompare (Prim2SF a) (Prim2SF b) = Some Eq).
  { rewrite ltb_spec in L1, L2. unfold SFltb in L1, L2.
    rewrite (SFcompare_antisym (Prim2SF a) (Prim2SF b)) in L2.
    apply is_nan_false in Na, Nb.
    destruct (SFcompare (Prim2SF a) (Prim2SF b)) as [[]|] eqn:C;
      simpl in *; try congruence.
    exfalso.
    destruct (Prim2SF a), (Prim2SF b); simpl in C; congruence. }
  apply SFcompare_Eq in C as [C|(s & t & Ea & Eb)].
  - apply Prim2SF_inj in C. subst. destruct (PrimFloat.get_sign b); reflexivity.
  - rewrite (get_sign_zero _ _ Ea), (get_sign_zero _ _ Eb).
    destruct s, t; try reflexivity; apply Prim2SF_inj; congruence.
Qed.

Lemma asymmetryOf_comm (l r : float) : asymmetryOf l r = asymmetryOf r l.
Proof.
  unfold asymmetryOf. rewrite abs_sub_comm, max_comm. reflexivity.
Qed.

Lemma SFsigned_ltb (v : float) :
  SFsigned true (Prim2SF v) -> (v <? 0) = true.
Proof.
  rewrite ltb_spec. change (Prim2SF 0) with (S754_zero false).
  destruct (Prim2SF v) as [| | |]; simpl; intros H; try contradiction;
    subst; reflexivity.
Qed.

Lemma SFsigned_gtb (v : float) :
  SFsigned false (Prim2SF v) -> (0 <? v) = true.
Proof.
  rewrite ltb_spec. change (Prim2SF 0) with (S754_zero false).
  destruct (Prim2SF v) as [| | |]; simpl; intros H; try contradiction;
    subst; reflexivity.
Qed.

(** [a < b] makes [a - b] negative and [b - a] positive: a difference of
    distinct numbers never rounds to zero. *)
Lemma sub_neg (a b : float) : (a <? b) = true -> (a - b <? 0) = true.
Proof.
  rewrite ltb_spec. unfold SFltb. intros H.
  apply SFsigned_ltb. rewrite sub_spec.
  apply SFsub_signed; try apply Prim2SF_valid.
  destruct (SFcompare _ _) as [[]|]; congruence.
Qed.

Lemma sub_pos (a b : float) : (a <? b) = true -> (0 <? b - a) = true.
Proof.
  rewrite ltb_spec. unfold SFltb. intros H.
  apply SFsigned_gtb. rewrite sub_spec.
  apply SFsub_signed; try apply Prim2SF_valid.
  rewrite (SFcompare_antisym (Prim2SF a) (Prim2SF b)).
  destruct (SFcompare _ _) as [[]|]; simpl; congruence.
Qed.

Lemma is_finite_spec (v : float) :
  PrimFloat.is_finite v = true ->
  (exists s, Prim2SF v = S754_zero s)
  \/ (exists s m e, Prim2SF v = S754_finite s m e).
Proof.
  unfold PrimFloat.is_finite, PrimFloat.is_infinity.
  rewrite negb_true_iff, orb_false_iff. intros [N I].
  apply is_nan_false in N.
  rewrite FloatAxioms.eqb_spec, abs_spec in I.
  change (Prim2SF infinity) with (S754_infinity false) in I.
  destruct (Prim2SF v) as [s|s| |s m e]; eauto; [discriminate I|congruence].
Qed.

(** A finite number minus itself is [+0]. *)
Lemma sub_diag (v : float) : PrimFloat.is_finite v = true -> v - v = 0.
Proof.
  intros F. apply Prim2SF_inj. rewrite sub_spec.
  change (Prim2SF 0) with (S754_zero false).
  destruct (is_finite_spec v F) as [[s ->]|(s & m & e & ->)].
  - destruct s; reflexivity.
  - unfold SF64sub, SFsub. rewrite Z.sub_diag. reflexivity.
Qed.

(** *** Zeros and NaN through the arithmetic of [calculateAngle] *)

Lemma sub_self_zeroOrNaN (v : float) : zeroOrNaN (v - v).
Proof.
  unfold zeroOrNaN. rewrite sub_spec.
  destruct (Prim2SF v) as [[]|[]| |s m e]; try exact I.
  unfold SF64sub, SFsub. rewrite Z.sub_diag. exact I.
Qed.

Lemma mul_zeroOrNaN_l (a b : float) : zeroOrNaN a -> zeroOrNaN (a * b).
Proof.
  unfold zeroOrNaN. rewrite mul_spec.
  destruct (Prim2SF a) as [sa|sa| |sa ma ea]; try contradiction; intros _;
    destruct (Prim2SF b) as [sb|sb| |sb mb eb]; exact I.
Qed.

Lemma mul_zeroOrNaN_r (a b : float) : zeroOrNaN b -> zeroOrNaN (a * b).
Proof.
  unfold zeroOrNaN. rewrite mul_spec.
  destruct (Prim2SF b) as [sb|sb| |sb mb eb]; try contradiction; intros _;
    destruct (Prim2SF a) as [sa|sa| |sa ma ea]; exact I.
Qed.

Lemma add_zeroOrNaN (a b : float) :
  zeroOrNaN a -> zeroOrNaN b -> zeroOrNaN (a + b).
Proof.
  unfold zeroOrNaN. rewrite add_spec.
  destruct (Prim2SF a) as [[]|sa| |sa ma ea]; try contradiction; intros _;
    destruct (Prim2SF b) as [[]|sb| |sb mb eb]; try contradiction; exact (fun H => H).
Qed.

Lemma sqrt_zeroOrNaN (a : float) : zeroOrNaN a -> zeroOrNaN (Math.sqrt a).
Proof.
  unfold zeroOrNaN, Math.sqrt. rewrite sqrt_spec.
  destruct (Prim2SF a) as [sa|sa| |sa ma ea]; try contradiction; exact (fun H => H).
Qed.

Lemma div_zeroOrNaN (a b : float) : zeroOrNaN a -> zeroOrNaN b -> a / b = nan.
Proof.
  unfold zeroOrNaN. intros Ha Hb. apply Prim2SF_inj. rewrite div_spec.
  change (Prim2SF nan) with S754_nan.
  destruct (Prim2SF a) as [sa|sa| |sa ma ea]; try contradiction;
    destruct (Prim2SF b) as [sb|sb| |sb mb eb]; try contradiction; reflexivity.
Qed.

(** The length of a vector whose components are zero or NaN. *)
Lemma magnitude_zeroOrNaN (u v : float) :
  zeroOrNaN u -> zeroOrNaN v ->
  zeroOrNaN (Math.sqrt (Math.pow2 u + Math.pow2 v)).
Proof.
  intros Hu Hv. apply sqrt_zeroOrNaN, add_zeroOrNaN;
    unfold Math.pow2; apply mul_zeroOrNaN_l; assumption.
Qed.

(** *** Comparisons with zero *)

Lemma abs_ltb_zero (u : float) : (Math.abs u <? Math.abs 0) = false.
Proof.
  unfold Math.abs. rewrite ltb_spec, !abs_spec.
  change (Prim2SF 0) with (S754_zero false).
  destruct (Prim2SF u) as [s|s| |s m e]; reflexivity.
Qed.

Lemma ltb_zero_abs (v : float) :
  (v <? 0) = true -> (Math.abs 0 <? Math.abs v) = true.
Proof.
  unfold Math.abs. rewrite !ltb_spec, !abs_spec.
  change (Prim2SF 0) with (S754_zero false).
  destruct (Prim2SF v) as [s|[]| |[] m e]; cbv; congruence.
Qed.

Lemma gtb_zero_get_sign (u : float) :
  (0 <? u) = true -> PrimFloat.get_sign u = false.
Proof.
  intros H. unfold PrimFloat.get_sign, PrimFloat.is_zero.
  assert (E : (u =? 0) = false).
  { rewrite FloatAxioms.eqb_spec. rewrite ltb_spec in H.
    change (Prim2SF 0) with (S754_zero false) in *.
    destruct (Prim2SF u) as [s|[]| |[] m e]; cbv in *; congruence. }
  change zero with 0. rewrite E. apply ltb_asym. exact H.
Qed.

Local Open Scope Z_scope.

(** *** Rounding is monotone *)

Lemma shr_1_spec (r : shr_record) :
  0 <= shr_m r ->
  shr_1 r = {| shr_m := Z.div2 (shr_m r); shr_r := Z.odd (shr_m r);
               shr_s := shr_r r || shr_s r |}.
Proof.
  destruct r as [[|[p|p|]|p] rb sb]; simpl; intros H; try reflexivity; lia.
Qed.

Lemma code_shr_1 (r : shr_record) :
  0 <= shr_m r ->
  code (shr_1 r) = 2 * shr_m r + (if shr_r r || shr_s r then 1 else 0).
Proof.
  intros H. rewrite shr_1_spec by exact H. unfold code. cbn [shr_m shr_r shr_s].
  rewrite (Z.div2_odd (shr_m r)) at 3.
  destruct (Z.odd (shr_m r)); simpl Z.b2z; lia.
Qed.

Lemma code_nonneg (r : shr_record) : 0 <= code r <-> 0 <= shr_m r.
Proof. unfold code. destruct (shr_r r), (shr_s r); lia. Qed.

Lemma shr_1_mono (r1 r2 : shr_record) :
  0 <= shr_m r1 -> code r1 <= code r2 -> code (shr_1 r1) <= code (shr_1 r2).
Proof.
  intros H1 H.
  assert (H2 : 0 <= shr_m r2) by (apply code_nonneg; apply code_nonneg in H1; lia).
  rewrite !code_shr_1 by assumption. unfold code in H.
  destruct (shr_r r1), (shr_s r1), (shr_r r2), (shr_s r2); simpl; lia.
Qed.

Lemma shr_1_nonneg (r : shr_record) : 0 <= shr_m r -> 0 <= shr_m (shr_1 r).
Proof.
  intros H. rewrite shr_1_spec by exact H. cbn [shr_m].
  apply Z.div2_nonneg. exact H.
Qed.

Lemma iter_shr_1_mono (n : positive) (r1 r2 : shr_record) :
  0 <= shr_m r1 -> code r1 <= code r2 ->
  code (SpecFloat.iter_pos shr_1 n r1) <= code (SpecFloat.iter_pos shr_1 n r2).
Proof.
  intros H1 H. rewrite !iter_pos_iter.
  induction n as [|n IH] using Pos.peano_ind.
  - simpl. apply shr_1_mono; assumption.
  - rewrite !Pos.iter_succ. apply shr_1_mono; [|exact IH].
    clear IH H. induction n as [|n IH] using Pos.peano_ind.
    + simpl. apply shr_1_nonneg, H1.
    + rewrite Pos.iter_succ. apply shr_1_nonneg, IH.
Qed.

Lemma round_nearest_even_bounds (m : Z) (l : location) :
  m <= round_nearest_even m l <= m + 1.
Proof.
  unfold round_nearest_even. destruct l as [|[]]; try lia.
  destruct (Z.even m); lia.
Qed.

Lemma round_nearest_even_mono (r1 r2 : shr_record) :
  code r1 <= code r2 ->
  round_nearest_even (shr_m r1) (loc_of_shr_record r1)
  <= round_nearest_even (shr_m r2) (loc_of_shr_record r2).
Proof.
  destruct r1 as [m1 b1 s1], r2 as [m2 b2 s2]. unfold code. cbn [shr_m shr_r shr_s].
  intros H.
  destruct (Z.eq_dec m1 m2) as [->|N].
  - destruct b1, s1, b2, s2; simpl in *; try lia; destruct (Z.even m2); lia.
  - pose proof (round_nearest_even_bounds m1 (loc_of_shr_record (Build_shr_record m1 b1 s1))).
    pose proof (round_nearest_even_bounds m2 (loc_of_shr_record (Build_shr_record m2 b2 s2))).
    destruct b1, s1, b2, s2; simpl in *; lia.
Qed.

Lemma code_of_loc (m : Z) (l : location) :
  code (shr_record_of_loc m l)
  = 4 * m + match l with
            | loc_Exact => 0
            | loc_Inexact Lt => 1
            | loc_Inexact Eq => 2
            | loc_Inexact Gt => 3
            end.
Proof. destruct l as [|[]]; unfold code; simpl; lia. Qed.

Lemma Zdigits2_bounds (m : Z) :
  0 <= m -> 0 <= Zdigits2 m /\ m < 2 ^ Zdigits2 m
  /\ (0 < m -> 2 ^ (Zdigits2 m - 1) <= m).
Proof.
  destruct m as [|p|p]; simpl; try lia.
  intros _. pose proof (digits2_bounds p). lia.
Qed.

Lemma Zdigits2_mono (m1 m2 : Z) :
  0 <= m1 <= m2 -> Zdigits2 m1 <= Zdigits2 m2.
Proof.
  intros [H1 H].
  destruct (Zdigits2_bounds m1 H1) as (D1 & _ & L1).
  destruct (Zdigits2_bounds m2 ltac:(lia)) as (D2 & U2 & _).
  destruct (Z.eq_dec m1 0) as [->|N]; [simpl; lia|].
  specialize (L1 ltac:(lia)).
  destruct (Z.le_gt_cases (Zdigits2 m1) (Zdigits2 m2)) as [?|G]; [assumption|].
  exfalso.
  assert (2 ^ Zdigits2 m2 <= 2 ^ (Zdigits2 m1 - 1))
    by (apply Z.pow_le_mono_r; lia).
  lia.
Qed.

Lemma Zdigits2_le_53 (m : Z) : 0 <= m < 2 ^ 53 -> Zdigits2 m <= 53.
Proof.
  intros [H0 H].
  destruct (Zdigits2_bounds m H0) as (D & _ & L).
  destruct (Z.eq_dec m 0) as [->|N]; [simpl; lia|].
  specialize (L ltac:(lia)).
  destruct (Z.le_gt_cases (Zdigits2 m) 53) as [?|G]; [assumption|].
  exfalso.
  assert (2 ^ 53 <= 2 ^ (Zdigits2 m - 1)) by (apply Z.pow_le_mono_r; lia).
  lia.
Qed.

(** The target exponent of a mantissa [m] at exponent [e]. *)
Lemma fexp_spec (k : Z) : fexp prec emax k = Z.max (k - 53) (-1074).
Proof. reflexivity. Qed.

Lemma shr_fexp_spec (m e : Z) (l : location) :
  let T := fexp prec emax (Zdigits2 m + e) in
  shr_fexp prec emax m e l
  = if e <? T
    then (SpecFloat.iter_pos shr_1 (Z.to_pos (T - e)) (shr_record_of_loc m l), T)
    else (shr_record_of_loc m l, e).
Proof.
  intros T. unfold shr_fexp, shr. fold T.
  destruct (Z.ltb_spec e T) as [H|H].
  - destruct (T - e) as [|p|p] eqn:E; try lia.
    simpl Z.to_pos. f_equal. lia.
  - destruct (T - e) as [|p|p] eqn:E; try lia; reflexivity.
Qed.

(** After the shift to the target exponent the mantissa has at most 53
    bits, and exactly 53 when the target is above [emin]. *)
Lemma shr_fexp_bounds (m e : Z) (l : location) :
  0 <= m ->
  let T := fexp prec emax (Zdigits2 m + e) in
  let r1 := fst (shr_fexp prec emax m e l) in
  let e1 := snd (shr_fexp prec emax m e l) in
  0 <= shr_m r1 < 2 ^ 53 /\ e1 = Z.max e T /\ -1074 <= T
  /\ (e < T -> -1074 < T -> 2 ^ 52 <= shr_m r1).
Proof.
  intros H0 T r1 e1. subst r1 e1. rewrite shr_fexp_spec. fold T.
  destruct (Zdigits2_bounds m H0) as (D & U & L).
  assert (HT : T = Z.max (Zdigits2 m + e - 53) (-1074)) by reflexivity.
  destruct (Z.ltb_spec e T) as [H|H]; cbn [fst snd].
  - rewrite iter_shr_1_m by (rewrite shr_record_of_loc_m; exact H0).
    rewrite shr_record_of_loc_m, Z2Pos.id, Z.shiftr_div_pow2 by lia.
    assert (P : 0 < 2 ^ (T - e)) by (apply Z.pow_pos_nonneg; lia).
    repeat split; try lia.
    + apply Z.div_pos; lia.
    + apply Z.div_lt_upper_bound; [exact P|].
      rewrite <- Z.pow_add_r by lia.
      apply Z.lt_le_trans with (1 := U). apply Z.pow_le_mono_r; lia.
    + intros _ HT'.
      assert (Hm : 0 < m).
      { destruct (Z.eq_dec m 0) as [->|]; [simpl in HT; lia|lia]. }
      apply Z.div_le_lower_bound; [exact P|].
      rewrite <- Z.pow_add_r by lia.
      apply Z.le_trans with (2 := L Hm). apply Z.pow_le_mono_r; lia.
  - rewrite shr_record_of_loc_m. repeat split; try lia.
    apply Z.lt_le_trans with (1 := U). apply Z.pow_le_mono_r; lia.
Qed.

(** The rank of a rounded result. *)
Lemma final_rank (s : bool) (m' e1 : Z) :
  0 <= m' <= 2 ^ 53 -> -1074 <= e1 <= 970 ->
  rank (let '(mrs'', e'') := shr_fexp prec emax m' e1 loc_Exact in
        match shr_m mrs'' with
        | Z0 => S754_zero s
        | Zpos m => if e'' <=? emax - prec then S754_finite s m e''
                    else S754_infinity s
        | Zneg _ => S754_nan
        end)
  = if m' =? 0 then 0 else (e1 + 1075) * 2 ^ 52 + m'.
Proof.
  intros Hm He.
  destruct (Z.eq_dec m' (2 ^ 53)) as [->|N].
  - rewrite shr_fexp_spec. cbv zeta.
    change (Zdigits2 (2 ^ 53)) with 54. rewrite fexp_spec.
    destruct (Z.ltb_spec e1 (Z.max (54 + e1 - 53) (-1074))) as [H|H]; [|lia].
    replace (Z.max (54 + e1 - 53) (-1074) - e1) with 1 by lia.
    replace (Z.max (54 + e1 - 53) (-1074)) with (e1 + 1) by lia.
    change (shr_m (SpecFloat.iter_pos shr_1 (Z.to_pos 1)
                     (shr_record_of_loc (2 ^ 53) loc_Exact)))
      with (Zpos 4503599627370496).
    cbv iota beta.
    destruct (Z.leb_spec (e1 + 1) (emax - prec)) as [L|L];
      [|unfold emax, prec in L; lia].
    change (2 ^ 53 =? 0) with false. cbv iota. unfold rank.
    change (2 ^ 52) with 4503599627370496.
    change (2 ^ 53) with 9007199254740992. lia.
  - assert (D : Zdigits2 m' <= 53) by (apply Zdigits2_le_53; lia).
    rewrite shr_fexp_spec. cbv zeta. rewrite fexp_spec.
    destruct (Z.ltb_spec e1 (Z.max (Zdigits2 m' + e1 - 53) (-1074))) as [H|H];
      [lia|].
    rewrite shr_record_of_loc_m.
    destruct m' as [|p|p]; [reflexivity| |lia].
    destruct (Z.leb_spec e1 (emax - prec)) as [L|L];
      [|unfold emax, prec in L; lia].
    reflexivity.
Qed.

Lemma binary_round_aux_rank (s : bool) (m e : Z) (l : location) :
  0 <= m -> Zdigits2 m + e <= 1000 -> e <= 970 ->
  let r1 := fst (shr_fexp prec emax m e l) in
  let e1 := snd (shr_fexp prec emax m e l) in
  let m' := round_nearest_even (shr_m r1) (loc_of_shr_record r1) in
  rank (binary_round_aux prec emax s m e l)
  = if m' =? 0 then 0 else (e1 + 1075) * 2 ^ 52 + m'.
Proof.
  intros H0 Hd He r1 e1 m'.
  destruct (shr_fexp_bounds m e l H0) as (B & E1 & T1 & _).
  fold r1 e1 in B, E1.
  pose proof (round_nearest_even_bounds (shr_m r1) (loc_of_shr_record r1)) as R.
  fold m' in R.
  unfold binary_round_aux.
  subst r1 e1 m'. destruct (shr_fexp prec emax m e l) as [r1 e1].
  cbn [fst snd] in *.
  apply final_rank.
  - change (2 ^ 53) with 9007199254740992 in *. lia.
  - rewrite fexp_spec in *. lia.
Qed.

(** Rounding is monotone: of two values bracketed at one exponent, the
    one with the smaller code rounds to the number of smaller rank. *)
Theorem binary_round_aux_mono (m1 m2 e : Z) (l1 l2 : location) :
  0 <= m1 ->
  code (shr_record_of_loc m1 l1) <= code (shr_record_of_loc m2 l2) ->
  Zdigits2 m2 + e <= 1000 -> e <= 970 ->
  rank (binary_round_aux prec emax false m1 e l1)
  <= rank (binary_round_aux prec emax false m2 e l2).
Proof.
  intros H1 C Hd He.
  assert (H12 : m1 <= m2).
  { rewrite !code_of_loc in C. destruct l1 as [|[]], l2 as [|[]]; lia. }
  assert (H2 : 0 <= m2) by lia.
  pose proof (Zdigits2_mono m1 m2 (conj H1 H12)) as D.
  rewrite !binary_round_aux_rank by lia. cbv zeta.
  destruct (shr_fexp_bounds m1 e l1 H1) as (B1 & E1 & T1 & _).
  destruct (shr_fexp_bounds m2 e l2 H2) as (B2 & E2 & T2 & N2).
  pose proof (round_nearest_even_bounds
    (shr_m (fst (shr_fexp prec emax m1 e l1)))
    (loc_of_shr_record (fst (shr_fexp prec emax m1 e l1)))) as R1.
  pose proof (round_nearest_even_bounds
    (shr_m (fst (shr_fexp prec emax m2 e l2)))
    (loc_of_shr_record (fst (shr_fexp prec emax m2 e l2)))) as R2.
  assert (M : fexp prec emax (Zdigits2 m1 + e) = fexp prec emax (Zdigits2 m2 + e)
              \/ fexp prec emax (Zdigits2 m2 + e) <= e
              -> round_nearest_even
                   (shr_m (fst (shr_fexp prec emax m1 e l1)))
                   (loc_of_shr_record (fst (shr_fexp prec emax m1 e l1)))
                 <= round_nearest_even
                      (shr_m (fst (shr_fexp prec emax m2 e l2)))
                      (loc_of_shr_record (fst (shr_fexp prec emax m2 e l2)))).
  { intros ET. apply round_nearest_even_mono.
    rewrite !shr_fexp_spec. cbv zeta.
    destruct ET as [ET|ET].
    - rewrite <- ET.
      destruct (e <? _); cbn [fst]; [|exact C].
      apply iter_shr_1_mono; [rewrite shr_record_of_loc_m; exact H1|exact C].
    - rewrite !fexp_spec in *.
      destruct (Z.ltb_spec e (Z.max (Zdigits2 m1 + e - 53) (-1074))); [lia|].
      destruct (Z.ltb_spec e (Z.max (Zdigits2 m2 + e - 53) (-1074))); [lia|].
      exact C. }
  rewrite !fexp_spec in *.
  change (2 ^ 53) with 9007199254740992 in *.
  change (2 ^ 52) with 4503599627370496 in *.
  set (T1v := Z.max (Zdigits2 m1 + e - 53) (-1074)) in *.
  set (T2v := Z.max (Zdigits2 m2 + e - 53) (-1074)) in *.
  assert (T12 : T1v <= T2v) by (subst T1v T2v; lia).
  assert (T1v = T2v \/ T2v <= e \/ (T1v < T2v /\ e < T2v)) as [ET|[ET|[NT S]]]
    by lia.
  - specialize (M (or_introl ET)).
    repeat match goal with
    | |- context [?a =? 0] => destruct (Z.eqb_spec a 0)
    end; lia.
  - specialize (M (or_intror ET)).
    repeat match goal with
    | |- context [?a =? 0] => destruct (Z.eqb_spec a 0)
    end; lia.
  - clear M. specialize (N2 S ltac:(lia)).
    repeat match goal with
    | |- context [?a =? 0] => destruct (Z.eqb_spec a 0)
    end; lia.
Qed.

(** Doubling an exact mantissa and lowering its exponent by one does not
    change the rounded result, when the value is to be shifted at all. *)
Lemma binary_round_aux_double (s : bool) (p : positive) (e : Z) :
  e < fexp prec emax (Zdigits2 (Zpos p~0) + e) ->
  binary_round_aux prec emax s (Zpos p~0) e loc_Exact
  = binary_round_aux prec emax s (Zpos p) (e + 1) loc_Exact.
Proof.
  intros H. unfold binary_round_aux.
  assert (E : shr_fexp prec emax (Zpos p~0) e loc_Exact
              = shr_fexp prec emax (Zpos p) (e + 1) loc_Exact).
  { rewrite !shr_fexp_spec. cbv zeta.
    assert (D : Zdigits2 (Zpos p) + (e + 1) = Zdigits2 (Zpos p~0) + e)
      by (simpl; lia).
    rewrite D.
    set (T := fexp prec emax (Zdigits2 (Zpos p~0) + e)) in *.
    destruct (Z.ltb_spec e T) as [_|]; [|lia].
    destruct (Z.ltb_spec (e + 1) T) as [L|L].
    - f_equal. rewrite !iter_pos_iter.
      replace (Z.to_pos (T - e)) with (Pos.succ (Z.to_pos (T - (e + 1))))
        by lia.
      rewrite Pos.iter_succ_r. reflexivity.
    - replace T with (e + 1) by lia.
      replace (e + 1 - e) with 1 by lia. reflexivity. }
  rewrite E. reflexivity.
Qed.

(** *** Monotonicity along the binary64 numbers *)

Lemma canonical_top (e : Z) : -1074 <= e -> canonical (2 ^ 53 - 1) e.
Proof. intros H. repeat split; try lia. left. reflexivity. Qed.

Lemma canonical_bottom (e : Z) : -1074 <= e -> canonical (2 ^ 52) e.
Proof. intros H. repeat split; try lia. left. reflexivity. Qed.

Lemma canonical_normal (m e : Z) :
  canonical m e -> -1074 < e -> 2 ^ 52 <= m.
Proof.
  intros ([H0 _] & _ & [D|E]) He; [|lia].
  destruct (Zdigits2_bounds m ltac:(lia)) as (_ & _ & L).
  rewrite D in L. apply L. exact H0.
Qed.

Section Chain.

Variable R : Z -> Z -> Z.
Variable hi : Z.

Hypothesis mono_same : forall m m' e,
  canonical m e -> canonical m' e -> m <= m' -> e <= hi -> R m e <= R m' e.
Hypothesis top_step : forall e,
  -1074 <= e < hi -> R (2 ^ 53 - 1) e <= R (2 ^ 52) (e + 1).

Lemma chain_mono (m1 e1 m2 e2 : Z) :
  canonical m1 e1 -> canonical m2 e2 -> e2 <= hi ->
  e1 < e2 \/ (e1 = e2 /\ m1 <= m2) ->
  R m1 e1 <= R m2 e2.
Proof.
  intros C1 C2 H2 L.
  remember (Z.to_nat (e2 - e1)) as n eqn:En.
  revert m1 e1 C1 L En. induction n as [|n IH]; intros m1 e1 C1 L En.
  - destruct L as [L|[-> L]]; [lia|]. apply mono_same; assumption.
  - destruct L as [L|[-> L]]; [|lia].
    assert (B1 : -1074 <= e1) by (destruct C1 as (_ & ? & _); assumption).
    transitivity (R (2 ^ 53 - 1) e1).
    { apply mono_same; [exact C1|apply canonical_top; exact B1| |lia].
      destruct C1 as ([_ ?] & _). lia. }
    transitivity (R (2 ^ 52) (e1 + 1)); [apply top_step; lia|].
    apply IH; [apply canonical_bottom; lia| |lia].
    destruct (Z.eq_dec (e1 + 1) e2) as [<-|N]; [right|left; lia].
    split; [reflexivity|]. eapply canonical_normal; [exact C2|lia].
Qed.

End Chain.

Lemma Zdigits2_le (k m : Z) : 0 <= k -> 0 <= m < 2 ^ k -> Zdigits2 m <= k.
Proof.
  intros Hk [H0 H].
  destruct (Zdigits2_bounds m H0) as (D & _ & L).
  destruct (Z.eq_dec m 0) as [->|N]; [simpl; lia|].
  specialize (L ltac:(lia)).
  destruct (Z.le_gt_cases (Zdigits2 m) k) as [?|G]; [assumption|].
  exfalso.
  assert (2 ^ k <= 2 ^ (Zdigits2 m - 1)) by (apply Z.pow_le_mono_r; lia).
  lia.
Qed.

(** *** Multiplication by 180 *)

Lemma rankTimes180_same (m m' e : Z) :
  canonical m e -> canonical m' e -> m <= m' -> e <= -51 ->
  rankTimes180 m e <= rankTimes180 m' e.
Proof.
  intros ([H0 _] & _) ([_ H1] & _) L He. unfold rankTimes180.
  apply binary_round_aux_mono; try lia.
  - rewrite !code_of_loc. lia.
  - assert (Zdigits2 (m' * 6333186975989760) <= 106); [|lia].
    apply Zdigits2_le; [lia|].
    change (2 ^ 53) with 9007199254740992 in H1.
    change (2 ^ 106) with (9007199254740992 * 9007199254740992). nia.
Qed.

Lemma rankTimes180_step (e : Z) :
  -1074 <= e < -51 ->
  rankTimes180 (2 ^ 53 - 1) e <= rankTimes180 (2 ^ 52) (e + 1).
Proof.
  intros He. unfold rankTimes180.
  transitivity (rank (binary_round_aux prec emax false
                        (2 ^ 53 * 6333186975989760) (e + -45) loc_Exact)).
  - apply binary_round_aux_mono; try lia.
    + rewrite !code_of_loc. lia.
    + change (Zdigits2 (2 ^ 53 * 6333186975989760)) with 106. lia.
  - apply Z.eq_le_incl. f_equal.
    replace (e + 1 + -45) with (e + -45 + 1) by lia.
    apply (binary_round_aux_double false
             (Z.to_pos (2 ^ 52 * 6333186975989760)) (e + -45)).
    change (Zdigits2 _) with 106. rewrite fexp_spec. lia.
Qed.

Lemma rankTimes180_mono (m1 e1 m2 e2 : Z) :
  canonical m1 e1 -> canonical m2 e2 -> e2 <= -51 ->
  e1 < e2 \/ (e1 = e2 /\ m1 <= m2) ->
  rankTimes180 m1 e1 <= rankTimes180 m2 e2.
Proof.
  apply chain_mono.
  - exact rankTimes180_same.
  - exact rankTimes180_step.
Qed.

(** *** Division by [Math.PI] *)

Lemma loc_of_shr_record_of_loc (m : Z) (l : location) :
  loc_of_shr_record (shr_record_of_loc m l) = l.
Proof. destruct l as [|[]]; reflexivity. Qed.

Lemma SFdiv_core_binary_PI (m e : Z) :
  0 < m ->
  let e' := quotientExponent m e in
  let N := m * 2 ^ (e + 51 - e') in
  SFdiv_core_binary prec emax m e 7074237752028440 (-51)
  = (N / 7074237752028440, e',
     new_location_even 7074237752028440 (N mod 7074237752028440)).
Proof.
  intros H0 e' N. unfold SFdiv_core_binary.
  change (Zdigits2 7074237752028440) with 53.
  replace (Zdigits2 m + e - (53 + -51)) with (Zdigits2 m + e - 2) by lia.
  replace (e - -51) with (e + 51) by lia.
  fold (quotientExponent m e). fold e'.
  assert (S : 0 <= e + 51 - e') by (subst e'; unfold quotientExponent; lia).
  assert (EN : match e + 51 - e' with
               | Z0 => m
               | Zpos _ => Z.shiftl m (e + 51 - e')
               | Zneg _ => 0
               end = N).
  { subst N. destruct (e + 51 - e') as [|p|p] eqn:E; try lia.
    rewrite Z.shiftl_mul_pow2 by lia. reflexivity. }
  rewrite EN. unfold Z.div, Z.modulo.
  destruct (Z.div_eucl N 7074237752028440) as [q r]. reflexivity.
Qed.

Lemma quotient_code_mono (N1 N2 : Z) :
  0 <= N1 <= N2 ->
  code (shr_record_of_loc (N1 / 7074237752028440)
          (new_location_even 7074237752028440 (N1 mod 7074237752028440)))
  <= code (shr_record_of_loc (N2 / 7074237752028440)
             (new_location_even 7074237752028440 (N2 mod 7074237752028440))).
Proof.
  intros H. rewrite !code_of_loc. unfold new_location_even.
  pose proof (Z.div_mod N1 7074237752028440 ltac:(lia)) as E1.
  pose proof (Z.div_mod N2 7074237752028440 ltac:(lia)) as E2.
  pose proof (Z.mod_pos_bound N1 7074237752028440 ltac:(lia)) as B1.
  pose proof (Z.mod_pos_bound N2 7074237752028440 ltac:(lia)) as B2.
  set (q1 := N1 / 7074237752028440) in *.
  set (q2 := N2 / 7074237752028440) in *.
  set (r1 := N1 mod 7074237752028440) in *.
  set (r2 := N2 mod 7074237752028440) in *.
  destruct (Z.eqb_spec r1 0), (Z.eqb_spec r2 0);
    try destruct (Z.compare_spec (2 * r1) 7074237752028440);
    try destruct (Z.compare_spec (2 * r2) 7074237752028440); lia.
Qed.

Lemma rankOverPI_bracket (m e : Z) :
  0 < m ->
  rankOverPI m e
  = rank (binary_round_aux prec emax false
            (m * 2 ^ (e + 51 - quotientExponent m e) / 7074237752028440)
            (quotientExponent m e)
            (new_location_even 7074237752028440
               (m * 2 ^ (e + 51 - quotientExponent m e)
                mod 7074237752028440))).
Proof.
  intros H. unfold rankOverPI. rewrite SFdiv_core_binary_PI by exact H.
  reflexivity.
Qed.

Lemma quotientExponent_canonical (m e : Z) :
  canonical m e -> quotientExponent m e = Z.max (e - 2) (-1074).
Proof.
  intros ([H0 H1] & He & D). unfold quotientExponent. rewrite fexp_spec.
  pose proof (Zdigits2_le_53 m ltac:(lia)).
  destruct (Zdigits2_bounds m ltac:(lia)) as (? & _).
  lia.
Qed.

Lemma quotient_digits (N e' k : Z) :
  0 <= k -> 0 <= N < 2 ^ k ->
  Zdigits2 (N / 7074237752028440) <= k.
Proof.
  intros Hk [H0 H]. apply Zdigits2_le; [exact Hk|]. split.
  - apply Z.div_pos; lia.
  - apply Z.le_lt_trans with (2 := H).
    apply Z.div_le_upper_bound; lia.
Qed.

Lemma rankOverPI_same (m m' e : Z) :
  canonical m e -> canonical m' e -> m <= m' -> e <= -43 ->
  rankOverPI m e <= rankOverPI m' e.
Proof.
  intros C C' L He.
  pose proof (quotientExponent_canonical _ _ C) as Q.
  pose proof (quotientExponent_canonical _ _ C') as Q'.
  destruct C as ([H0 _] & Hlo & _), C' as ([_ H1] & _).
  rewrite !rankOverPI_bracket by lia. rewrite Q, Q'.
  set (e' := Z.max (e - 2) (-1074)).
  assert (S : 0 <= e + 51 - e') by (subst e'; lia).
  assert (P : 0 < 2 ^ (e + 51 - e')) by (apply Z.pow_pos_nonneg; lia).
  apply binary_round_aux_mono.
  - apply Z.div_pos; nia.
  - apply quotient_code_mono. nia.
  - assert (Zdigits2 (m' * 2 ^ (e + 51 - e') / 7074237752028440)
            <= 53 + (e + 51 - e')); [|lia].
    apply (quotient_digits _ e'); [lia|].
    rewrite Z.pow_add_r by lia. nia.
  - subst e'. lia.
Qed.

Lemma rank_unshifted (q e' : Z) (l : location) :
  0 < q -> Zdigits2 q = 53 -> -1074 <= e' <= 900 ->
  rank (binary_round_aux prec emax false q e' l)
  = (e' + 1075) * 2 ^ 52 + round_nearest_even q l.
Proof.
  intros H0 D He.
  rewrite binary_round_aux_rank by lia. cbv zeta.
  rewrite shr_fexp_spec. cbv zeta. rewrite fexp_spec, D.
  destruct (Z.ltb_spec e' (Z.max (53 + e' - 53) (-1074))) as [H|H]; [lia|].
  cbn [fst snd]. rewrite shr_record_of_loc_m, loc_of_shr_record_of_loc.
  pose proof (round_nearest_even_bounds q l).
  destruct (Z.eqb_spec (round_nearest_even q l) 0); lia.
Qed.

Lemma rank_shifted_once (q e' : Z) (l : location) :
  0 < q -> Zdigits2 q = 54 -> -1075 <= e' <= 900 ->
  let r1 := shr_1 (shr_record_of_loc q l) in
  rank (binary_round_aux prec emax false q e' l)
  = (e' + 1 + 1075) * 2 ^ 52
    + round_nearest_even (shr_m r1) (loc_of_shr_record r1).
Proof.
  intros H0 D He r1.
  rewrite binary_round_aux_rank by lia. cbv zeta.
  rewrite shr_fexp_spec. cbv zeta. rewrite fexp_spec, D.
  destruct (Z.ltb_spec e' (Z.max (54 + e' - 53) (-1074))) as [H|H]; [|lia].
  replace (Z.max (54 + e' - 53) (-1074) - e') with 1 by lia.
  replace (Z.max (54 + e' - 53) (-1074)) with (e' + 1) by lia.
  cbn [fst snd Z.to_pos SpecFloat.iter_pos]. fold r1.
  assert (P : 0 < shr_m r1).
  { subst r1. rewrite shr_1_spec by (rewrite shr_record_of_loc_m; lia).
    cbn [shr_m]. rewrite shr_record_of_loc_m.
    destruct (Zdigits2_bounds q ltac:(lia)) as (_ & _ & L).
    rewrite D in L. specialize (L H0).
    change (2 ^ (54 - 1)) with 9007199254740992 in L.
    rewrite Z.div2_div. apply Z.div_str_pos. lia. }
  pose proof (round_nearest_even_bounds (shr_m r1) (loc_of_shr_record r1)).
  destruct (Z.eqb_spec (round_nearest_even (shr_m r1) (loc_of_shr_record r1)) 0);
    lia.
Qed.

Lemma rankOverPI_step (e : Z) :
  -1074 <= e < -43 ->
  rankOverPI (2 ^ 53 - 1) e <= rankOverPI (2 ^ 52) (e + 1).
Proof.
  intros He.
  rewrite !rankOverPI_bracket by lia.
  rewrite (quotientExponent_canonical _ _ (canonical_top e ltac:(lia))).
  rewrite (quotientExponent_canonical _ _ (canonical_bottom (e + 1) ltac:(lia))).
  assert (e <= -1073 \/ -1072 <= e) as [Lo|Hi] by lia.
  - (* both quotients are bracketed at the least exponent *)
    replace (Z.max (e - 2) (-1074)) with (-1074) by lia.
    replace (Z.max (e + 1 - 2) (-1074)) with (-1074) by lia.
    replace (e + 1 + 51 - -1074) with (Z.succ (e + 51 - -1074)) by lia.
    rewrite Z.pow_succ_r by lia.
    set (P := 2 ^ (e + 51 - -1074)).
    assert (HP : 0 < P) by (apply Z.pow_pos_nonneg; lia).
    apply binary_round_aux_mono.
    + apply Z.div_pos; nia.
    + apply quotient_code_mono.
      change (2 ^ 53) with 9007199254740992.
      change (2 ^ 52) with 4503599627370496. nia.
    + assert (Zdigits2 (2 ^ 52 * (2 * P) / 7074237752028440)
              <= 54 + (e + 51 - -1074)); [|lia].
      apply (quotient_digits _ 0); [lia|].
      rewrite Z.pow_add_r by lia. fold P.
      change (2 ^ 54) with 18014398509481984.
      change (2 ^ 52) with 4503599627370496. nia.
    + lia.
  - replace (Z.max (e - 2) (-1074)) with (e - 2) by lia.
    replace (Z.max (e + 1 - 2) (-1074)) with (e - 1) by lia.
    replace (e + 51 - (e - 2)) with 53 by lia.
    replace (e + 1 + 51 - (e - 1)) with 53 by lia.
    rewrite rank_shifted_once; [|reflexivity|reflexivity|lia].
    rewrite rank_unshifted; [|reflexivity|reflexivity|lia].
    cbv zeta.
    match goal with
    | |- _ + ?a <= _ + ?b =>
      let va := eval vm_compute in a in
      let vb := eval vm_compute in b in
      change a with va; change b with vb
    end.
    change (2 ^ 52) with 4503599627370496. lia.
Qed.

Lemma rankOverPI_mono (m1 e1 m2 e2 : Z) :
  canonical m1 e1 -> canonical m2 e2 -> e2 <= -43 ->
  e1 < e2 \/ (e1 = e2 /\ m1 <= m2) ->
  rankOverPI m1 e1 <= rankOverPI m2 e2.
Proof.
  apply chain_mono.
  - exact rankOverPI_same.
  - exact rankOverPI_step.
Qed.

(** *** From ranks back to comparisons *)

Lemma valid_canonical (s : bool) (m : positive) (e : Z) :
  valid_binary (S754_finite s m e) = true -> canonical (Zpos m) e.
Proof.
  intros V. apply valid_finite in V as (E & D & N).
  pose proof (digits2_bounds m) as [_ U].
  assert (2 ^ Zpos (digits2_pos m) <= 2 ^ 53) by (apply Z.pow_le_mono_r; lia).
  repeat split; try lia.
  simpl Zdigits2. lia.
Qed.

Lemma rank_lex (m e m2 e2 : Z) :
  canonical m e -> canonical m2 e2 ->
  (e + 1075) * 2 ^ 52 + m <= (e2 + 1075) * 2 ^ 52 + m2 ->
  e < e2 \/ (e = e2 /\ m <= m2).
Proof.
  intros C C2 H.
  destruct (Z.lt_trichotomy e e2) as [L|[E|G]]; [left; exact L|right; lia|].
  exfalso.
  pose proof (canonical_normal _ _ C) as N.
  destruct C as (_ & _ & _), C2 as ([_ U2] & E2 & _).
  specialize (N ltac:(lia)).
  change (2 ^ 52) with 4503599627370496 in *.
  change (2 ^ 53) with 9007199254740992 in *. nia.
Qed.

Lemma rank_leb (v w : spec_float) :
  valid_binary v = true -> valid_binary w = true ->
  SFnonneg v -> SFnonneg w -> rank v <= rank w -> SFleb v w = true.
Proof.
  intros Vv Vw Nv Nw H.
  destruct v as [sv|[]| |[] mv ev]; try contradiction;
    destruct w as [sw|[]| |[] mw ew]; try contradiction;
    try reflexivity; unfold rank in H;
    change (2 ^ 63) with 9223372036854775808 in *;
    try (exfalso; lia).
  - (* infinity, finite *)
    exfalso.
    pose proof (valid_finite _ _ _ Vw) as (E & _).
    apply valid_canonical in Vw as ([_ ?] & _).
    change (2 ^ 53) with 9007199254740992 in *.
    change (2 ^ 52) with 4503599627370496 in *. lia.
  - (* finite, zero *)
    exfalso.
    apply valid_canonical in Vv as ([? _] & ? & _).
    change (2 ^ 52) with 4503599627370496 in *. lia.
  - (* finite, finite *)
    apply valid_canonical in Vv, Vw.
    destruct (rank_lex _ _ _ _ Vv Vw H) as [L|[-> L]];
      unfold SFleb, SFcompare.
    + apply Z.compare_lt_iff in L. rewrite L. reflexivity.
    + rewrite Z.compare_refl.
      change (Pos.compare_cont Eq mv mw) with (Pos.compare mv mw).
      destruct (Pos.compare_spec mv mw); try reflexivity. lia.
Qed.

Lemma binary_round_aux_nonneg (m e : Z) (l : location) :
  0 <= m -> SFnonneg (binary_round_aux prec emax false m e l).
Proof.
  intros H0. unfold binary_round_aux.
  destruct (shr_fexp_bounds m e l H0) as ([B _] & _).
  destruct (shr_fexp prec emax m e l) as [r1 e1]. cbn [fst] in B.
  pose proof (round_nearest_even_bounds (shr_m r1) (loc_of_shr_record r1)) as R.
  destruct (shr_fexp_bounds (round_nearest_even (shr_m r1) (loc_of_shr_record r1))
              e1 loc_Exact ltac:(lia)) as ([B2 _] & _).
  destruct (shr_fexp prec emax _ e1 loc_Exact) as [r2 e2]. cbn [fst] in B2.
  destruct (shr_m r2); try lia; try exact I.
  destruct (_ <=? _); exact I.
Qed.

Lemma SFleb_zero_nonneg (v : spec_float) :
  SFnonneg v -> SFleb (S754_zero false) v = true.
Proof. destruct v as [s|[]| |[] m e]; try contradiction; reflexivity. Qed.

Local Close Scope Z_scope.

Lemma Prim2SF_zero : Prim2SF 0 = S754_zero false.
Proof. reflexivity. Qed.

Lemma Prim2SF_PI :
  Prim2SF Math.PI = S754_finite false 7074237752028440 (-51).
Proof. vm_compute. reflexivity. Qed.

Lemma Prim2SF_180 : Prim2SF 180 = S754_finite false 6333186975989760 (-45).
Proof. vm_compute. reflexivity. Qed.

Lemma valid_PI :
  valid_binary (S754_finite false 7074237752028440 (-51)) = true.
Proof. vm_compute. reflexivity. Qed.

Lemma valid_PI_times_180 :
  valid_binary (S754_finite false 4974073419394997 (-43)) = true.
Proof. vm_compute. reflexivity. Qed.

Lemma valid_180 :
  valid_binary (S754_finite false 6333186975989760 (-45)) = true.
Proof. vm_compute. reflexivity. Qed.

Lemma rankTimes180_PI :
  rankTimes180 7074237752028440 (-51)
  = rank (S754_finite false 4974073419394997 (-43)).
Proof. vm_compute. reflexivity. Qed.

Lemma rankOverPI_PI_times_180 :
  rankOverPI 4974073419394997 (-43)
  = rank (S754_finite false 6333186975989760 (-45)).
Proof. vm_compute. reflexivity. Qed.

Lemma rank_times_180 (m : positive) (e : Z) :
  rank (SF64mul (S754_finite false m e)
          (S754_finite false 6333186975989760 (-45)))
  = rankTimes180 (Zpos m) e.
Proof. reflexivity. Qed.

Lemma rank_over_PI (m : positive) (e : Z) :
  rank (SF64div (S754_finite false m e)
          (S754_finite false 7074237752028440 (-51)))
  = rankOverPI (Zpos m) e.
Proof.
  unfold SF64div, SFdiv, rankOverPI.
  destruct (SFdiv_core_binary _ _ _ _ _ _) as [[q e'] l]. reflexivity.
Qed.

Lemma SFleb_finite_inv (m c : positive) (e d : Z) :
  SFleb (S754_finite false m e) (S754_finite false c d) = true ->
  (e < d \/ (e = d /\ Zpos m <= Zpos c))%Z.
Proof.
  unfold SFleb, SFcompare. intros H.
  destruct (Z.compare_spec e d) as [E|L|G]; try discriminate H; [|left; exact L].
  right. split; [exact E|].
  rewrite Pos.compare_cont_spec in H. unfold Pos.switch_Eq in H.
  destruct (Pos.compare_spec m c) as [C|C|C];
    [rewrite C; apply Z.le_refl|apply Z.lt_le_incl; exact C|discriminate H].
Qed.

(** A number between [+0] and [Math.PI]: a zero, or a canonical positive
    number at most [Math.PI]. *)
Lemma between_zero_and_PI (a : float) :
  (0 <=? a) = true -> (a <=? Math.PI) = true ->
  (exists s, Prim2SF a = S754_zero s)
  \/ (exists m e, Prim2SF a = S754_finite false m e
        /\ (e < -51 \/ (e = -51 /\ Zpos m <= 7074237752028440))%Z).
Proof.
  rewrite !leb_spec, Prim2SF_zero, Prim2SF_PI.
  destruct (Prim2SF a) as [s|[]| |[] m e]; try discriminate; intros _.
  - left. eauto.
  - intros H. right. exists m, e. split; [reflexivity|].
    apply SFleb_finite_inv. exact H.
Qed.

(** The conversion to degrees maps the interval from [+0] to [Math.PI]
    into the interval from 0 to 180. *)
Theorem degrees_range (a : float) :
  (0 <=? a) = true -> (a <=? Math.PI) = true ->
  inDegrees (a * 180 / Math.PI) = true.
Proof.
  intros H0 H1. unfold inDegrees.
  pose proof (Prim2SF_valid a) as Va.
  pose proof (Prim2SF_valid (a * 180)) as Vt.
  pose proof (Prim2SF_valid (a * 180 / Math.PI)) as Vu.
  rewrite div_spec in Vu. rewrite mul_spec in Vt, Vu.
  rewrite !leb_spec, div_spec, mul_spec.
  rewrite Prim2SF_PI in *. rewrite Prim2SF_180 in *. rewrite Prim2SF_zero.
  destruct (between_zero_and_PI a H0 H1) as [[s E]|(m & e & E & L)];
    rewrite E in *.
  { destruct s; reflexivity. }
  (* the product *)
  assert (Ca : canonical (Zpos m) e) by (apply valid_canonical in Va; exact Va).
  pose proof (rankTimes180_mono (Zpos m) e 7074237752028440 (-51) Ca
                (valid_canonical _ _ _ valid_PI) ltac:(lia) L) as RT.
  rewrite <- rank_times_180, rankTimes180_PI in RT.
  assert (NT : SFnonneg (SF64mul (S754_finite false m e)
                           (S754_finite false 6333186975989760 (-45)))).
  { apply binary_round_aux_nonneg. lia. }
  destruct (SF64mul (S754_finite false m e)
              (S754_finite false 6333186975989760 (-45)))
    as [st|[]| |[] mt et]; try contradiction.
  { destruct st; reflexivity. }
  (* the quotient *)
  assert (Ct : canonical (Zpos mt) et)
    by (apply valid_canonical in Vt; exact Vt).
  pose proof (rank_lex _ _ _ _ Ct (valid_canonical _ _ _ valid_PI_times_180) RT)
    as Lt.
  pose proof (rankOverPI_mono (Zpos mt) et 4974073419394997 (-43) Ct
                (valid_canonical _ _ _ valid_PI_times_180) ltac:(lia) Lt) as RU.
  rewrite <- rank_over_PI, rankOverPI_PI_times_180 in RU.
  assert (NU : SFnonneg (SF64div (S754_finite false mt et)
                           (S754_finite false 7074237752028440 (-51)))).
  { unfold SF64div, SFdiv.
    rewrite SFdiv_core_binary_PI by lia. cbv zeta.
    apply binary_round_aux_nonneg.
    apply Z.div_pos; [|lia].
    apply Z.mul_nonneg_nonneg; [lia|]. apply Z.pow_nonneg. lia. }
  rewrite (SFleb_zero_nonneg _ NU).
  rewrite (rank_leb _ _ Vu valid_180 NU I RU). reflexivity.
Qed.

End Binary64.

(** ** The evaluators on a validated frame *)

Lemma hasLandmarks_truthy (kp : gmap string KeyPoint) (names : list string) :
  forallb (fun point => truthy (kp !! point)) names = hasLandmarks kp names.
Proof.
  unfold hasLandmarks. induction names as [|n names IH]; [reflexivity|].
  simpl. rewrite IH. f_equal. destruct (kp !! n); reflexivity.
Qed.

Lemma hasLandmarks_lookup (kp : gmap string KeyPoint) names name :
  hasLandmarks kp names = true -> In name names ->
  exists p, kp !! name = Some p.
Proof.
  unfold hasLandmarks. rewrite forallb_forall. intros H I.
  specialize (H _ I). apply bool_decide_eq_true_1 in H. destruct H. eauto.
Qed.

Lemma hasLandmarks_missing (kp : gmap string KeyPoint) names :
  hasLandmarks kp names = false <-> exists name, In name names /\ kp !! name = None.
Proof.
  unfold hasLandmarks. induction names as [|n names IH]; simpl.
  - split; [discriminate|]. intros (? & [] & _).
  - rewrite andb_false_iff, IH. split.
    + intros [H|(m & I & E)]; [|eauto].
      exists n. split; [auto|].
      apply bool_decide_eq_false_1 in H. destruct (kp !! n); [destruct H|]; eauto.
    + intros (m & [<-|I] & E); [left|right; eauto].
      rewrite E. reflexivity.
Qed.

Ltac landmark H name v Hv :=
  destruct (hasLandmarks_lookup _ _ name H) as [v Hv]; [simpl; tauto|].

Ltac split_branches :=
  repeat match goal with
  | |- context [if ?c then _ else _] => destruct c
  end.

(** The same, remembering which way each comparison went. *)
Ltac split_branches_eqn :=
  repeat match goal with
  | |- context [if ?c then _ else _] => destruct c eqn:?
  end.

Ltac replay_branches :=
  repeat match goal with
  | E : ?c = ?b |- context [if ?c then _ else _] => rewrite E
  end.

Section Evaluation.

Variable Math_acos : float -> float.
Variable Math_atan2 : float -> float -> float.

Lemma squat_details (d k f s : float) :
  let m : gmap string float :=
    <["depth" := d]> (<["kneeTracking" := k]> (<["forwardLean" := f]>
    (<["symmetry" := s]> ∅))) in
  m !! "depth" = Some d /\ m !! "kneeTracking" = Some k
  /\ m !! "forwardLean" = Some f /\ m !! "symmetry" = Some s.
Proof. vm_compute. auto. Qed.

Lemma bench_details (a b s : float) :
  let m : gmap string float :=
    <["elbowAngle" := a]> (<["barPath" := b]> (<["symmetry" := s]> ∅)) in
  m !! "elbowAngle" = Some a /\ m !! "barPath" = Some b
  /\ m !! "symmetry" = Some s.
Proof. vm_compute. auto. Qed.

Lemma deadlift_details (a h : float) :
  let m : gmap string float :=
    <["backAngle" := a]> (<["hipHinge" := h]> ∅) in
  m !! "backAngle" = Some a /\ m !! "hipHinge" = Some h.
Proof. vm_compute. auto. Qed.

Lemma analyzeSquat_complete kp ts lh rh lk rk la ra :
  kp !! "leftHip" = Some lh -> kp !! "rightHip" = Some rh ->
  kp !! "leftKnee" = Some lk -> kp !! "rightKnee" = Some rk ->
  kp !! "leftAnkle" = Some la -> kp !! "rightAnkle" = Some ra ->
  exists r penalties,
    FormAnalyzer.analyzeSquat (frame kp ts) = Some r
    /\ rulePenalties "squat" kp r = Some penalties
    /\ score r = numberOfZ (Z.max 0 (100 - sumZ penalties))
    /\ sumZ penalties = sumZ (messagePenalties r)
    /\ (0 <=? score r) = true /\ (score r <=? 100) = true
    /\ metric "depth" r = Some (depthRatioOf lh rh lk rk la)
    /\ metric "symmetry" r
       = Some (asymmetryOf (segmentLength lh lk) (segmentLength rh rk)).
Proof.
  intros Hlh Hrh Hlk Hrk Hla Hra.
  unfold FormAnalyzer.analyzeSquat, FormAnalyzer.detectBottomPosition, frame.
  cbn [keypoints mbind option_bind forallb].
  rewrite Hlh, Hrh, Hlk, Hrk, Hla, Hra.
  cbn [truthy andb negb mbind option_bind].
  destruct (kp !! "leftShoulder") as [ls|] eqn:Els,
           (kp !! "rightShoulder") as [rs|] eqn:Ers.
  all: cbv zeta; split_branches_eqn; cbn [mbind option_bind].
  all: eexists; eexists; split; [reflexivity|].
  all: unfold rulePenalties, hasLandmarks, metric;
    cbn [String.eqb Ascii.eqb Bool.eqb forallb details mbind option_bind
         score feedback errors].
  all: rewrite Els, Ers.
  all: match goal with
       | |- context [<["depth" := ?d]> (<["kneeTracking" := ?k]>
                      (<["forwardLean" := ?f]> (<["symmetry" := ?s]> ∅)))] =>
         destruct (squat_details d k f s) as (-> & -> & -> & ->)
       end.
  all: cbn [mbind option_bind];
    unfold tierPenalty, singleTierPenalty, crosses; replay_branches.
  all: split; [reflexivity|]; repeat split;
    first [reflexivity|vm_compute; reflexivity].
Qed.

Lemma analyzeBench_complete kp ts g ls rs el er lw rw :
  kp !! "leftShoulder" = Some ls -> kp !! "rightShoulder" = Some rs ->
  kp !! "leftElbow" = Some el -> kp !! "rightElbow" = Some er ->
  kp !! "leftWrist" = Some lw -> kp !! "rightWrist" = Some rw ->
  exists r penalties,
    FormAnalyzer.analyzeBench Math_acos (frame kp ts) g
      = (Some r, snd (Math.random g))
    /\ rulePenalties "bench" kp r = Some penalties
    /\ score r = numberOfZ (Z.max 0 (100 - sumZ penalties))
    /\ sumZ penalties = sumZ (messagePenalties r)
    /\ (0 <=? score r) = true /\ (score r <=? 100) = true
    /\ repCompleted r = Some (0.8 <? fst (Math.random g))
    /\ metric "symmetry" r
       = Some (asymmetryOf (segmentLength ls lw) (segmentLength rs rw)).
Proof.
  intros Hls Hrs Hel Her Hlw Hrw.
  unfold FormAnalyzer.analyzeBench, FormAnalyzer.detectPressMovement, frame.
  cbn [keypoints forallb].
  rewrite Hls, Hrs, Hel, Her, Hlw, Hrw.
  cbn [truthy andb negb Math.random fst snd].
  cbv zeta; split_branches_eqn.
  all: eexists; eexists; split; [reflexivity|].
  all: unfold rulePenalties, metric;
    cbn [String.eqb Ascii.eqb Bool.eqb details mbind option_bind
         score feedback errors repCompleted].
  all: match goal with
       | |- context [<["elbowAngle" := ?a]> (<["barPath" := ?b]>
                      (<["symmetry" := ?s]> ∅))] =>
         destruct (bench_details a b s) as (-> & -> & ->)
       end.
  all: cbn [mbind option_bind];
    unfold tierPenalty, singleTierPenalty, crosses; replay_branches.
  all: split; [reflexivity|]; repeat split;
    first [reflexivity|vm_compute; reflexivity].
Qed.

(** Two runs of the bench evaluator on one frame differ at most in the
    rep-completion flag. *)
Lemma analyzeBench_two_runs (p : PoseData) (g1 g2 : Math.rng) :
  withoutRep <$> fst (FormAnalyzer.analyzeBench Math_acos p g1)
  = withoutRep <$> fst (FormAnalyzer.analyzeBench Math_acos p g2)
  /\ (Math.draws g1 (Math.cursor g1) = Math.draws g2 (Math.cursor g2) ->
      fst (FormAnalyzer.analyzeBench Math_acos p g1)
      = fst (FormAnalyzer.analyzeBench Math_acos p g2)).
Proof.
  unfold FormAnalyzer.analyzeBench, FormAnalyzer.detectPressMovement.
  destruct (keypoints p) as [kp|]; [|split; reflexivity].
  cbv zeta.
  destruct (negb _); [split; reflexivity|].
  destruct (kp !! "leftShoulder"), (kp !! "rightShoulder"),
    (kp !! "leftElbow"), (kp !! "rightElbow"),
    (kp !! "leftWrist"), (kp !! "rightWrist"); try (split; reflexivity).
  cbn [Math.random]. split_branches.
  all: split; [reflexivity|]; cbn [fst]; intros ->; reflexivity.
Qed.

Lemma analyzeDeadlift_complete kp ts ls rs lh rh lk rk :
  kp !! "leftShoulder" = Some ls -> kp !! "rightShoulder" = Some rs ->
  kp !! "leftHip" = Some lh -> kp !! "rightHip" = Some rh ->
  kp !! "leftKnee" = Some lk -> kp !! "rightKnee" = Some rk ->
  let back := Math.abs (backAngleOf Math_atan2 ls rs lh rh) in
  exists r penalties,
    FormAnalyzer.analyzeDeadlift Math_atan2 (frame kp ts) = Some r
    /\ rulePenalties "deadlift" kp r = Some penalties
    /\ score r = numberOfZ (Z.max 0 (100 - sumZ penalties))
    /\ sumZ penalties = sumZ (messagePenalties r)
    /\ (0 <=? score r) = true /\ (score r <=? 100) = true
    /\ repCompleted r
       = Some (Math.abs (center_x ls rs - center_x lh rh) <? 0.05)
    /\ metric "backAngle" r = Some back
    /\ ((30 <? back) = true ->
        In "Back rounding detected - keep your back straight" (errors r)
        /\ ~ In "Good back position!" (feedback r)
        /\ (score r <=? 70) = true)
    /\ ((30 <? back) = false -> (15 <? back) = false ->
        In "Good back position!" (feedback r)
        /\ ~ In "Back rounding detected - keep your back straight" (errors r)
        /\ ~ In "Slight back rounding - focus on neutral spine" (feedback r)).
Proof using Math_atan2.
  clear Math_acos. intros Hls Hrs Hlh Hrh Hlk Hrk.
  unfold FormAnalyzer.analyzeDeadlift, FormAnalyzer.detectDeadliftMovement,
    frame, backAngleOf, center_x, center_y.
  cbn [keypoints mbind option_bind forallb].
  rewrite Hls, Hrs, Hlh, Hrh, Hlk, Hrk.
  cbn [truthy andb negb mbind option_bind].
  destruct (kp !! "leftAnkle") as [la|] eqn:Ela,
           (kp !! "rightAnkle") as [ra|] eqn:Era.
  all: cbv zeta; split_branches_eqn; cbn [mbind option_bind].
  all: eexists; eexists; split; [reflexivity|].
  all: unfold rulePenalties, metric, center_x;
    cbn [String.eqb Ascii.eqb Bool.eqb details mbind option_bind
         score feedback errors repCompleted].
  all: rewrite ?Hlk, ?Hrk, ?Ela, ?Era.
  all: match goal with
       | |- context [<["backAngle" := ?a]> (<["hipHinge" := ?h]> ∅)] =>
         destruct (deadlift_details a h) as (-> & ->)
       end.
  all: cbn [mbind option_bind];
    unfold tierPenalty, singleTierPenalty, crosses; replay_branches.
  all: split; [reflexivity|]; repeat split;
    try first [reflexivity|vm_compute; reflexivity].
  all: vm_compute; intuition (discriminate || auto).
Qed.

End Evaluation.

(** ** Mirrored frames *)

Lemma stripPrefix_Some (p s rest : string) :
  stripPrefix p s = Some rest -> s = String.append p rest.
Proof.
  revert s. induction p as [|a p IH]; intros s; simpl.
  - intros [= ->]. reflexivity.
  - destruct s as [|b s]; [discriminate|].
    destruct (Ascii.eqb_spec a b) as [->|_]; [|discriminate].
    intros H. rewrite (IH _ H). reflexivity.
Qed.

Lemma swapSide_involutive (name : string) : swapSide (swapSide name) = name.
Proof.
  unfold swapSide at 2.
  destruct (stripPrefix "left" name) as [rest|] eqn:L.
  - apply stripPrefix_Some in L. subst. reflexivity.
  - destruct (stripPrefix "right" name) as [rest|] eqn:R.
    + apply stripPrefix_Some in R. subst. reflexivity.
    + unfold swapSide. rewrite L, R. reflexivity.
Qed.

#[local] Instance swapSide_inj : Inj (=) (=) swapSide.
Proof.
  intros a b H. rewrite <- (swapSide_involutive a), H.
  apply swapSide_involutive.
Qed.

Lemma mirror_lookup (kp : gmap string KeyPoint) (name : string) :
  mirror kp !! name = kp !! swapSide name.
Proof.
  unfold mirror. rewrite <- (swapSide_involutive name) at 1.
  apply lookup_kmap. apply _.
Qed.

(** ** The example host functions meet the requirements *)

Lemma acos_steps_conforms : acosConforms acos_steps.
Proof.
  split; [reflexivity|].
  intros v. unfold acos_steps.
  destruct (_ || _ || _); [left; reflexivity|].
  destruct (0.5 <? v); [right; reflexivity|].
  destruct (v <? -0.5); right; reflexivity.
Qed.

Lemma atan2_axes_conforms : atan2Conforms atan2_axes.
Proof.
  split.
  - intros v H. unfold atan2_axes.
    destruct (Binary64.ltb_not_nan _ _ H) as [-> _].
    change (PrimFloat.is_nan 0) with false. cbn [orb].
    rewrite (Binary64.ltb_zero_abs _ H), H. reflexivity.
  - intros u H. unfold atan2_axes.
    destruct (Binary64.ltb_not_nan _ _ H) as [_ ->].
    change (PrimFloat.is_nan 0) with false. cbn [orb].
    rewrite Binary64.abs_ltb_zero, (Binary64.ltb_asym _ _ H),
      (Binary64.gtb_zero_get_sign _ H).
    reflexivity.
  - intros u H. unfold atan2_axes.
    destruct (Binary64.ltb_not_nan _ _ H) as [-> _].
    change (PrimFloat.is_nan 0) with false. cbn [orb].
    rewrite Binary64.abs_ltb_zero, H. reflexivity.
  - reflexivity.
Qed.

(** ** Properties of the dispatcher and of the evaluators *)

Section Claims.

Variable Math_acos : float -> float.
Variable Math_atan2 : float -> float -> float.

(** C2: when a required landmark is missing the evaluator answers with
    the fixed incomplete-pose result of the movement: score 0, one
    feedback string, one error string, no details.  The answer does not
    depend on any coordinate of the frame, and the random generator is
    left untouched. *)
Theorem analyze_incomplete
    (movement : string) (kp : gmap string KeyPoint) (ts : float)
    (g : Math.rng) :
  In movement supported ->
  hasLandmarks kp (requiredLandmarks movement) = false ->
  FormAnalyzer.analyze Math_acos Math_atan2 movement (Some (frame kp ts)) g
    = (Some (incompleteResult movement), g)
  /\ score (incompleteResult movement) = 0
  /\ length (feedback (incompleteResult movement)) = 1%nat
  /\ errors (incompleteResult movement) = ["Incomplete pose detection"]
  /\ details (incompleteResult movement) = None.
Proof.
  intros S H. split.
  - destruct S as [<-|[<-|[<-|[]]]]; unfold FormAnalyzer.analyze, frame;
      cbn [keypoints truthy negb String.eqb Ascii.eqb Bool.eqb].
    + unfold FormAnalyzer.analyzeSquat. cbn [keypoints mbind option_bind].
      rewrite hasLandmarks_truthy.
      change (hasLandmarks kp _)
        with (hasLandmarks kp (requiredLandmarks "squat")).
      rewrite H. reflexivity.
    + unfold FormAnalyzer.analyzeBench. cbn [keypoints mbind option_bind].
      rewrite hasLandmarks_truthy.
      change (hasLandmarks kp _)
        with (hasLandmarks kp (requiredLandmarks "bench")).
      rewrite H. reflexivity.
    + unfold FormAnalyzer.analyzeDeadlift. cbn [keypoints mbind option_bind].
      rewrite hasLandmarks_truthy.
      change (hasLandmarks kp _)
        with (hasLandmarks kp (requiredLandmarks "deadlift")).
      rewrite H. reflexivity.
  - destruct S as [<-|[<-|[<-|[]]]]; repeat split; reflexivity.
Qed.

(** C6: an unknown movement identifier, a null pose and a pose without a
    keypoints mapping all yield the empty zero-score result, and no
    [TypeError] is raised. *)
Theorem analyze_unknown_or_missing
    (movement : string) (poseData : option PoseData) (g : Math.rng) :
  ~ In movement supported \/ poseData = None
    \/ (exists p, poseData = Some p /\ keypoints p = None) ->
  FormAnalyzer.analyze Math_acos Math_atan2 movement poseData g
    = (Some emptyResult, g)
  /\ score emptyResult = 0 /\ feedback emptyResult = []
  /\ errors emptyResult = [].
Proof.
  intros H. split; [|repeat split; reflexivity].
  destruct H as [H|[->|(p & -> & K)]]; [|reflexivity|].
  - unfold FormAnalyzer.analyze. destruct poseData as [p|]; [|reflexivity].
    destruct (negb (truthy (keypoints p))); [reflexivity|].
    destruct (String.eqb_spec movement "squat") as [->|_];
      [destruct H; simpl; auto|].
    destruct (String.eqb_spec movement "bench") as [->|_];
      [destruct H; simpl; auto|].
    destruct (String.eqb_spec movement "deadlift") as [->|_];
      [destruct H; simpl; auto|].
    reflexivity.
  - unfold FormAnalyzer.analyze. rewrite K. reflexivity.
Qed.

(** C9: on a deadlift frame with every required landmark, the
    rep-completed flag is true exactly when the horizontal distance
    between the shoulder centre and the hip centre is below 0.05. *)
Theorem deadlift_rep_completed
    (kp : gmap string KeyPoint) (ts : float) (g : Math.rng)
    (ls rs lh rh : KeyPoint) :
  hasLandmarks kp (requiredLandmarks "deadlift") = true ->
  kp !! "leftShoulder" = Some ls -> kp !! "rightShoulder" = Some rs ->
  kp !! "leftHip" = Some lh -> kp !! "rightHip" = Some rh ->
  exists r,
    FormAnalyzer.analyze Math_acos Math_atan2 "deadlift" (Some (frame kp ts)) g
      = (Some r, g)
    /\ repCompleted r
       = Some (Math.abs (center_x ls rs - center_x lh rh) <? 0.05).
Proof.
  intros H Hls Hrs Hlh Hrh.
  landmark H "leftKnee" lk Hlk. landmark H "rightKnee" rk Hrk.
  destruct (analyzeDeadlift_complete Math_atan2 kp ts _ _ _ _ _ _
              Hls Hrs Hlh Hrh Hlk Hrk)
    as (r & _ & E & _ & _ & _ & _ & _ & R & _).
  exists r. split; [|exact R].
  unfold FormAnalyzer.analyze, frame.
  cbn [keypoints truthy negb String.eqb Ascii.eqb Bool.eqb].
  fold (frame kp ts). rewrite E. reflexivity.
Qed.

(** At most the rep-completion flag of a result depends on the random
    generator; it does so for the bench press only, through the value
    [Math.random()] returns. *)
Theorem analyze_deterministic_up_to_random
    (movement : string) (poseData : option PoseData) (g1 g2 : Math.rng) :
  withoutRep
    <$> fst (FormAnalyzer.analyze Math_acos Math_atan2 movement poseData g1)
  = withoutRep
      <$> fst (FormAnalyzer.analyze Math_acos Math_atan2 movement poseData g2)
  /\ (movement <> "bench" ->
      fst (FormAnalyzer.analyze Math_acos Math_atan2 movement poseData g1)
      = fst (FormAnalyzer.analyze Math_acos Math_atan2 movement poseData g2))
  /\ (Math.draws g1 (Math.cursor g1) = Math.draws g2 (Math.cursor g2) ->
      fst (FormAnalyzer.analyze Math_acos Math_atan2 movement poseData g1)
      = fst (FormAnalyzer.analyze Math_acos Math_atan2 movement poseData g2)).
Proof.
  unfold FormAnalyzer.analyze.
  destruct poseData as [p|]; [|repeat split; reflexivity].
  destruct (negb (truthy (keypoints p))); [repeat split; reflexivity|].
  destruct (String.eqb movement "squat"); [repeat split; reflexivity|].
  destruct (String.eqb_spec movement "bench") as [->|N].
  - destruct (analyzeBench_two_runs Math_acos p g1 g2) as [A B].
    repeat split; [exact A|congruence|exact B].
  - destruct (String.eqb movement "deadlift"); repeat split; reflexivity.
Qed.

Lemma mirror_side
    (kp : gmap string KeyPoint) (name other : string) (p : KeyPoint) :
  swapSide name = other -> kp !! other = Some p -> mirror kp !! name = Some p.
Proof.
  intros <- H. rewrite mirror_lookup. exact H.
Qed.

(** C8: exchanging every left landmark with its right counterpart leaves
    the reported symmetry metric unchanged, for the squat (leg lengths)
    and for the bench press (arm extensions). *)
Theorem symmetry_invariant_under_mirroring
    (movement : string) (kp : gmap string KeyPoint) (ts : float)
    (g : Math.rng) :
  In movement ["squat"; "bench"] ->
  hasLandmarks kp (requiredLandmarks movement) = true ->
  exists r r' g1 g2 v,
    FormAnalyzer.analyze Math_acos Math_atan2 movement (Some (frame kp ts)) g
      = (Some r, g1)
    /\ FormAnalyzer.analyze Math_acos Math_atan2 movement
         (Some (frame (mirror kp) ts)) g
       = (Some r', g2)
    /\ metric "symmetry" r = Some v
    /\ metric "symmetry" r' = Some v.
Proof.
  intros S H.
  destruct S as [<-|[<-|[]]]; unfold FormAnalyzer.analyze, frame;
    cbn [keypoints truthy negb String.eqb Ascii.eqb Bool.eqb];
    fold (frame kp ts); fold (frame (mirror kp) ts).
  - landmark H "leftHip" lh Hlh. landmark H "rightHip" rh Hrh.
    landmark H "leftKnee" lk Hlk. landmark H "rightKnee" rk Hrk.
    landmark H "leftAnkle" la Hla. landmark H "rightAnkle" ra Hra.
    destruct (analyzeSquat_complete kp ts _ _ _ _ _ _ Hlh Hrh Hlk Hrk Hla Hra)
      as (r & _ & -> & _ & _ & _ & _ & _ & _ & V).
    destruct (analyzeSquat_complete (mirror kp) ts rh lh rk lk ra la)
      as (r' & _ & -> & _ & _ & _ & _ & _ & _ & V');
      try (eapply mirror_side; [reflexivity|eassumption]).
    exists r, r', g, g. eexists. repeat split; [exact V|].
    rewrite V'. f_equal. apply Binary64.asymmetryOf_comm.
  - landmark H "leftShoulder" ls Hls. landmark H "rightShoulder" rs Hrs.
    landmark H "leftElbow" el Hel. landmark H "rightElbow" er Her.
    landmark H "leftWrist" lw Hlw. landmark H "rightWrist" rw Hrw.
    destruct (analyzeBench_complete Math_acos kp ts g _ _ _ _ _ _
                Hls Hrs Hel Her Hlw Hrw)
      as (r & _ & -> & _ & _ & _ & _ & _ & _ & V).
    destruct (analyzeBench_complete Math_acos (mirror kp) ts g
                rs ls er el rw lw)
      as (r' & _ & -> & _ & _ & _ & _ & _ & _ & V');
      try (eapply mirror_side; [reflexivity|eassumption]).
    exists r, r'. do 2 eexists. eexists. repeat split; [exact V|].
    rewrite V'. f_equal. apply Binary64.asymmetryOf_comm.
Qed.

(** An angle measured at a vertex that coincides with one of the two
    other points is NaN: the cosine is [0 / 0]. *)
Lemma calculateAngle_degenerate (point1 point2 point3 : KeyPoint) :
  acosConforms Math_acos ->
  (x point1 = x point2 /\ y point1 = y point2)
  \/ (x point3 = x point2 /\ y point3 = y point2) ->
  FormAnalyzer.calculateAngle Math_acos point1 point2 point3 = nan.
Proof.
  intros [Hnan _] H. unfold FormAnalyzer.calculateAngle. cbv zeta.
  match goal with |- context [Math.min 1 ?c] => assert (C : c = nan) end.
  { destruct H as [[-> ->]|[-> ->]].
    - apply Binary64.div_zeroOrNaN.
      + apply Binary64.add_zeroOrNaN; apply Binary64.mul_zeroOrNaN_l;
          apply Binary64.sub_self_zeroOrNaN.
      + apply Binary64.mul_zeroOrNaN_l, Binary64.magnitude_zeroOrNaN;
          apply Binary64.sub_self_zeroOrNaN.
    - apply Binary64.div_zeroOrNaN.
      + apply Binary64.add_zeroOrNaN; apply Binary64.mul_zeroOrNaN_r;
          apply Binary64.sub_self_zeroOrNaN.
      + apply Binary64.mul_zeroOrNaN_r, Binary64.magnitude_zeroOrNaN;
          apply Binary64.sub_self_zeroOrNaN. }
  rewrite C. change (Math.max (-1) (Math.min 1 nan)) with nan.
  rewrite Hnan. reflexivity.
Qed.

(** C10: the back angle of the deadlift evaluator on an upright and on a
    horizontal torso.  With the shoulder centre directly above the hip
    centre the angle is 90 degrees and the back-rounding error is raised
    with its penalty.  With the two centres at one height the angle is 0
    when the shoulders are not left of the hips, which earns the positive
    feedback, and 180 when they are, which raises the error again. *)
Theorem deadlift_back_angle_on_the_axes
    (kp : gmap string KeyPoint) (ts : float) (g : Math.rng)
    (ls rs lh rh : KeyPoint) :
  atan2Conforms Math_atan2 ->
  hasLandmarks kp (requiredLandmarks "deadlift") = true ->
  kp !! "leftShoulder" = Some ls -> kp !! "rightShoulder" = Some rs ->
  kp !! "leftHip" = Some lh -> kp !! "rightHip" = Some rh ->
  exists r,
    FormAnalyzer.analyze Math_acos Math_atan2 "deadlift" (Some (frame kp ts)) g
      = (Some r, g)
    /\ (center_x ls rs = center_x lh rh ->
        PrimFloat.is_finite (center_x ls rs) = true ->
        (center_y ls rs <? center_y lh rh) = true ->
        metric "backAngle" r = Some 90
        /\ In "Back rounding detected - keep your back straight" (errors r)
        /\ ~ In "Good back position!" (feedback r)
        /\ (score r <=? 70) = true)
    /\ (center_y ls rs = center_y lh rh ->
        PrimFloat.is_finite (center_y ls rs) = true ->
        (center_x lh rh <? center_x ls rs) = true
        \/ (center_x ls rs = center_x lh rh
            /\ PrimFloat.is_finite (center_x ls rs) = true) ->
        metric "backAngle" r = Some 0
        /\ In "Good back position!" (feedback r)
        /\ ~ In "Back rounding detected - keep your back straight" (errors r)
        /\ ~ In "Slight back rounding - focus on neutral spine" (feedback r))
    /\ (center_y ls rs = center_y lh rh ->
        PrimFloat.is_finite (center_y ls rs) = true ->
        (center_x ls rs <? center_x lh rh) = true ->
        metric "backAngle" r = Some 180
        /\ In "Back rounding detected - keep your back straight" (errors r)
        /\ ~ In "Good back position!" (feedback r)
        /\ (score r <=? 70) = true).
Proof.
  intros [Down Right Left Origin] H Hls Hrs Hlh Hrh.
  landmark H "leftKnee" lk Hlk. landmark H "rightKnee" rk Hrk.
  destruct (analyzeDeadlift_complete Math_atan2 kp ts _ _ _ _ _ _
              Hls Hrs Hlh Hrh Hlk Hrk)
    as (r & _ & E & _ & _ & _ & _ & _ & _ & B & Hard & Good).
  cbv zeta in B, Hard, Good.
  exists r. split.
  { unfold FormAnalyzer.analyze, frame.
    cbn [keypoints truthy negb String.eqb Ascii.eqb Bool.eqb].
    fold (frame kp ts). rewrite E. reflexivity. }
  unfold backAngleOf in B, Hard, Good.
  split; [|split].
  - intros Ex Fx Ly.
    rewrite <- Ex, (Binary64.sub_diag _ Fx) in B, Hard.
    rewrite (Down _ (Binary64.sub_neg _ _ Ly)) in B, Hard.
    split; [exact B|]. apply Hard. reflexivity.
  - intros Ey Fy Hx.
    rewrite <- Ey, (Binary64.sub_diag _ Fy) in B, Good.
    assert (A : Math_atan2 0 (center_x ls rs - center_x lh rh) = 0).
    { destruct Hx as [Hx|[Ex Fx]].
      - apply Right, Binary64.sub_pos, Hx.
      - rewrite <- Ex, (Binary64.sub_diag _ Fx). exact Origin. }
    rewrite A in B, Good.
    split; [exact B|]. apply Good; reflexivity.
  - intros Ey Fy Lx.
    rewrite <- Ey, (Binary64.sub_diag _ Fy) in B, Hard.
    rewrite (Left _ (Binary64.sub_neg _ _ Lx)) in B, Hard.
    split; [exact B|]. apply Hard. reflexivity.
Qed.

End Claims.

(** ** The scenarios *)

(** C7: scenario A evaluates as the specification expects, except that the
    depth ratio is the binary64 quotient of [0.8 - 0.6] by [1.0 - 0.6],
    one unit in the last place above one half. *)
Theorem scenarioA_result (ts : float) :
  exists r, FormAnalyzer.analyzeSquat (frame scenarioA ts) = Some r
    /\ score r = 100
    /\ errors r = []
    /\ feedback r = ["Excellent depth!"; "Great knee tracking!"]
    /\ metric "depth" r = Some 0x1.0000000000001p-1
    /\ Math.abs (0x1.0000000000001p-1 - 0.5) = 0x1p-53
    /\ metric "kneeTracking" r = Some 1
    /\ metric "forwardLean" r = Some 0
    /\ metric "symmetry" r = Some 0
    /\ repCompleted r = Some false.
Proof.
  eexists. split; [vm_compute; reflexivity|].
  repeat split; vm_compute; reflexivity.
Qed.

(** C7, as stated, fails: the reported depth of scenario A is not the
    number 0.5. *)
Lemma scenarioA_depth_is_not_one_half :
  ~ (exists r, FormAnalyzer.analyzeSquat (frame scenarioA 0) = Some r
       /\ score r = 100
       /\ errors r = []
       /\ In "Excellent depth!" (feedback r)
       /\ In "Great knee tracking!" (feedback r)
       /\ metric "depth" r = Some 0.5
       /\ metric "kneeTracking" r = Some 1
       /\ metric "symmetry" r = Some 0
       /\ repCompleted r = Some false).
Proof.
  intros (r & E & _ & _ & _ & _ & D & _).
  apply (f_equal (fun o => r' ← o; metric "depth" r')) in E.
  cbn [mbind option_bind] in E. rewrite D in E.
  apply (f_equal (fun o => match o with Some v => v =? 0.5 | None => false end))
    in E.
  vm_compute in E. discriminate E.
Qed.

(** Scenario B: one landmark missing. *)
Example scenarioB_result (ts : float) :
  FormAnalyzer.analyzeSquat (frame scenarioB ts)
  = Some {| score := 0;
            feedback := ["Position yourself so your full body is visible"];
            errors := ["Incomplete pose detection"];
            repCompleted := None;
            details := None |}.
Proof. vm_compute. reflexivity. Qed.

(** Scenario C with the three-step arc cosine: a right angle at both
    elbows costs the soft elbow penalty only. *)
Example scenarioC_result :
  exists r g, FormAnalyzer.analyzeBench acos_steps (frame scenarioC 0) twoDraws
              = (Some r, g)
    /\ score r = 90 /\ errors r = []
    /\ metric "elbowAngle" r = Some 90.
Proof. do 2 eexists. split; [vm_compute; reflexivity|]. repeat split. Qed.

(** A squat that triggers the hardest tier of every rule keeps 10 points. *)
Example worstSquat_result :
  exists r, FormAnalyzer.analyzeSquat (frame worstSquat 0) = Some r
    /\ score r = 10 /\ feedback r = [] /\ length (errors r) = 4%nat.
Proof. eexists. split; [vm_compute; reflexivity|]. repeat split. Qed.

(** C4: the depth ratio divides by the height of the left ankle alone.
    On a frame whose ankles are at different heights it is 0.25, which
    costs the soft depth penalty, where the ratio taken over both ankles
    is one third and costs nothing. *)
Theorem squat_depth_ignores_right_ankle :
  exists r, FormAnalyzer.analyzeSquat (frame unevenAnkles 0) = Some r
    /\ metric "depth" r = Some 0.25
    /\ specDepthRatio (point 0.375 0.5) (point 0.625 0.5)
         (point 0.375 0.625) (point 0.625 0.625)
         (point 0.375 1.0) (point 0.625 0.75) = 0x1.5555555555555p-2
    /\ (0x1.5555555555555p-2 <? 0.3) = false
    /\ feedback r
       = ["Good depth! Try to go slightly deeper"; "Great knee tracking!"]
    /\ score r = 95.
Proof.
  eexists. split; [vm_compute; reflexivity|].
  repeat split; vm_compute; reflexivity.
Qed.


(** C5: two consecutive invocations on the bench frame of scenario C
    agree on the score, the feedback, the errors and the details and
    disagree on the rep-completion flag, which is the outcome of
    [Math.random() > 0.8]: true for the draw 0.9, false for the draw 0.1. *)
Theorem bench_rep_flag_follows_the_draw :
  exists r1 g1 r2 g2,
    FormAnalyzer.analyze acos_steps atan2_axes "bench"
      (Some (frame scenarioC 0)) twoDraws = (Some r1, g1)
    /\ FormAnalyzer.analyze acos_steps atan2_axes "bench"
         (Some (frame scenarioC 0)) g1 = (Some r2, g2)
    /\ repCompleted r1 = Some true
    /\ repCompleted r2 = Some false
    /\ withoutRep r1 = withoutRep r2
    /\ r1 <> r2.
Proof.
  do 4 eexists.
  split; [vm_compute; reflexivity|].
  split; [vm_compute; reflexivity|].
  repeat split. intros E.
  apply (f_equal repCompleted) in E. discriminate E.
Qed.

(** ** Instances *)

Lemma analyze_incomplete_witness :
  In "squat" supported
  /\ hasLandmarks scenarioB (requiredLandmarks "squat") = false
  /\ FormAnalyzer.analyze acos_steps atan2_axes "squat"
       (Some (frame scenarioB 0)) twoDraws
     = (Some (incompleteResult "squat"), twoDraws).
Proof.
  split; [simpl; auto|]. split; [reflexivity|].
  apply (analyze_incomplete acos_steps atan2_axes "squat" scenarioB 0 twoDraws);
    [simpl; auto|reflexivity].
Defined.

Lemma analyze_unknown_or_missing_witness :
  ~ In "lunge" supported
  /\ FormAnalyzer.analyze acos_steps atan2_axes "lunge"
       (Some (frame scenarioA 0)) twoDraws = (Some emptyResult, twoDraws).
Proof.
  assert (N : ~ In "lunge" supported)
    by (simpl; intros [H|[H|[H|[]]]]; discriminate H).
  split; [exact N|].
  apply (analyze_unknown_or_missing acos_steps atan2_axes "lunge"
           (Some (frame scenarioA 0)) twoDraws).
  left. exact N.
Defined.

Lemma deadlift_rep_completed_witness :
  exists r,
    FormAnalyzer.analyze acos_steps atan2_axes "deadlift"
      (Some (frame uprightLifter 0)) twoDraws = (Some r, twoDraws)
    /\ repCompleted r
       = Some (Math.abs (center_x (point 0.45 0.25) (point 0.55 0.25)
                         - center_x (point 0.45 0.5) (point 0.55 0.5)) <? 0.05).
Proof.
  apply (deadlift_rep_completed acos_steps atan2_axes uprightLifter 0 twoDraws);
    reflexivity.
Defined.

Lemma symmetry_invariant_under_mirroring_witness :
  exists r r' g1 g2 v,
    FormAnalyzer.analyze acos_steps atan2_axes "bench"
      (Some (frame scenarioC 0)) twoDraws = (Some r, g1)
    /\ FormAnalyzer.analyze acos_steps atan2_axes "bench"
         (Some (frame (mirror scenarioC) 0)) twoDraws = (Some r', g2)
    /\ metric "symmetry" r = Some v
    /\ metric "symmetry" r' = Some v.
Proof.
  apply (symmetry_invariant_under_mirroring acos_steps atan2_axes
           "bench" scenarioC 0 twoDraws); [simpl; auto|reflexivity].
Defined.

(** C10, as stated, fails in its second half: a horizontal torso whose
    shoulders are left of the hips gets the back-rounding error, not the
    positive feedback. *)
Lemma horizontal_torso_can_raise_the_error :
  ~ (forall (acos : float -> float) (atan2 : float -> float -> float)
            (kp : gmap string KeyPoint) (ts : float) (g : Math.rng)
            (ls rs lh rh : KeyPoint),
       atan2Conforms atan2 ->
       hasLandmarks kp (requiredLandmarks "deadlift") = true ->
       kp !! "leftShoulder" = Some ls -> kp !! "rightShoulder" = Some rs ->
       kp !! "leftHip" = Some lh -> kp !! "rightHip" = Some rh ->
       center_y ls rs = center_y lh rh ->
       exists r,
         FormAnalyzer.analyze acos atan2 "deadlift" (Some (frame kp ts)) g
           = (Some r, g)
         /\ In "Good back position!" (feedback r)
         /\ ~ In "Back rounding detected - keep your back straight" (errors r)).
Proof.
  intros H.
  destruct (H acos_steps atan2_axes (horizontalLifter (-0.2)) 0 twoDraws
              (point (0.5 + -0.2) 0.5) (point (0.5 + -0.2) 0.5)
              (point 0.5 0.5) (point 0.5 0.5)
              atan2_axes_conforms eq_refl eq_refl eq_refl eq_refl eq_refl
              eq_refl) as (r & E & _ & N).
  apply N.
  apply (f_equal (fun o => r' ← fst o; Some (errors r'))) in E.
  cbn [fst mbind option_bind] in E.
  match type of E with
  | ?l = _ => let v := eval vm_compute in l in change l with v in E
  end.
  injection E as <-. left. reflexivity.
Qed.

Lemma deadlift_back_angle_on_the_axes_witness :
  exists r,
    FormAnalyzer.analyze acos_steps atan2_axes "deadlift"
      (Some (frame uprightLifter 0)) twoDraws = (Some r, twoDraws)
    /\ metric "backAngle" r = Some 90
    /\ In "Back rounding detected - keep your back straight" (errors r)
    /\ ~ In "Good back position!" (feedback r)
    /\ (score r <=? 70) = true.
Proof.
  destruct (deadlift_back_angle_on_the_axes acos_steps atan2_axes
              uprightLifter 0 twoDraws
              (point 0.45 0.25) (point 0.55 0.25)
              (point 0.45 0.5) (point 0.55 0.5)
              atan2_axes_conforms eq_refl eq_refl eq_refl eq_refl eq_refl)
    as (r & E & Up & _).
  exists r. split; [exact E|].
  apply Up; reflexivity.
Defined.



(** ** Further facts of binary64 arithmetic *)

Module Binary64Ops.

Lemma float_add_comm (a b : float) : a + b = b + a.
Proof.
  apply Prim2SF_inj. rewrite !add_spec.
  destruct (Prim2SF a) as [[]|[]| |sa ma ea],
           (Prim2SF b) as [[]|[]| |sb mb eb]; try reflexivity.
  unfold SF64add, SFadd. rewrite (Z.min_comm eb ea), Z.add_comm. reflexivity.
Qed.

Lemma float_mul_comm (a b : float) : a * b = b * a.
Proof.
  apply Prim2SF_inj. rewrite !mul_spec.
  destruct (Prim2SF a) as [[]|[]| |[] ma ea],
           (Prim2SF b) as [[]|[]| |[] mb eb]; try reflexivity.
  all: unfold SF64mul, SFmul; cbn [xorb];
    rewrite (Pos.mul_comm mb ma), (Z.add_comm eb ea); reflexivity.
Qed.

Lemma binary_round_aux_nonpos (m e : Z) (l : location) :
  (0 <= m)%Z -> SFnonpos (binary_round_aux prec emax true m e l).
Proof.
  intros H. pose proof (Binary64.binary_round_aux_nonneg m e l H) as N.
  unfold binary_round_aux in *.
  destruct (shr_fexp prec emax m e l) as [r1 e1].
  destruct (shr_fexp prec emax _ e1 loc_Exact) as [r2 e2].
  destruct (shr_m r2); [exact I| |contradiction].
  destruct (Z.leb _ _); exact I.
Qed.

Lemma SFdiv_core_binary_nonneg (m1 m2 : positive) (e1 e2 : Z) :
  (0 <= fst (fst (SFdiv_core_binary prec emax (Zpos m1) e1 (Zpos m2) e2)))%Z.
Proof.
  unfold SFdiv_core_binary.
  set (s := (e1 - e2 - _)%Z).
  set (m' := match s with Zpos _ => _ | Z0 => _ | Zneg _ => _ end).
  assert (0 <= m')%Z.
  { subst m'. destruct s; try lia. apply Z.shiftl_nonneg. lia. }
  pose proof (Z.div_eucl_eq m' (Zpos m2) ltac:(lia)) as E.
  pose proof (Z.mod_pos_bound m' (Zpos m2) ltac:(lia)) as B.
  unfold Z.modulo in B.
  destruct (Z.div_eucl m' (Zpos m2)) as [q r]. cbn [fst]. nia.
Qed.

(** A negative number over a positive one is not above a positive
    threshold: the quotient is negative, a zero, or NaN. *)
Lemma div_neg_pos (n d c : float) :
  (n <? 0) = true -> (0 <? d) = true -> (0 <? c) = true ->
  (c <? n / d) = false.
Proof.
  rewrite !ltb_spec, div_spec. change (Prim2SF 0) with (S754_zero false).
  intros Hn Hd Hc.
  assert (Q : SFnonpos (SF64div (Prim2SF n) (Prim2SF d))
              \/ SF64div (Prim2SF n) (Prim2SF d) = S754_nan).
  { destruct (Prim2SF n) as [[]|[]| |[] mn en]; try discriminate Hn;
      destruct (Prim2SF d) as [[]|[]| |[] md ed]; try discriminate Hd;
      try (left; exact I); try (right; reflexivity).
    left. unfold SF64div, SFdiv.
    pose proof (SFdiv_core_binary_nonneg mn md en ed) as N.
    destruct (SFdiv_core_binary prec emax (Zpos mn) en (Zpos md) ed)
      as [[q e'] l]. cbn [fst] in N. cbn [xorb].
    apply binary_round_aux_nonpos. exact N. }
  destruct Q as [Q| ->].
  - destruct (SF64div _ _) as [s|[]| |[] m e]; try contradiction;
      destruct (Prim2SF c) as [[]|[]| |[] mc ec]; try discriminate Hc;
      reflexivity.
  - destruct (Prim2SF c) as [[]|[]| |[] mc ec]; reflexivity.
Qed.

(** ... and is below every positive threshold unless it is NaN, which
    needs an infinite numerator with an infinite denominator. *)
Lemma div_neg_pos_finite (n d c : float) :
  (n <? 0) = true -> (0 <? d) = true -> PrimFloat.is_finite d = true ->
  (0 <? c) = true -> (n / d <? c) = true.
Proof.
  intros Hn Hd Fd Hc.
  destruct (Binary64.is_finite_spec d Fd) as [(s & Ed)|(s & m & e & Ed)];
    rewrite !ltb_spec in *; rewrite div_spec;
    change (Prim2SF 0) with (S754_zero false) in *; rewrite Ed in *.
  { destruct s; discriminate Hd. }
  destruct s; [discriminate Hd|].
  assert (Q : SFnonpos (SF64div (Prim2SF n) (S754_finite false m e))).
  { destruct (Prim2SF n) as [[]|[]| |[] mn en]; try discriminate Hn;
      try exact I.
    unfold SF64div, SFdiv.
    pose proof (SFdiv_core_binary_nonneg mn m en e) as N.
    destruct (SFdiv_core_binary prec emax (Zpos mn) en (Zpos m) e)
      as [[q e'] l]. cbn [fst] in N. cbn [xorb].
    apply binary_round_aux_nonpos. exact N. }
  destruct (SF64div _ _) as [t|[]| |[] mq eq]; try contradiction;
    destruct (Prim2SF c) as [[]|[]| |[] mc ec]; try discriminate Hc;
    reflexivity.
Qed.

(** A magnitude over zero is [+Infinity] or NaN, so it is below no
    threshold. *)
Lemma abs_div_zero (v c : float) : (Math.abs v / Math.abs 0 <? c) = false.
Proof.
  unfold Math.abs. rewrite ltb_spec, div_spec, !abs_spec.
  change (Prim2SF 0) with (S754_zero false).
  destruct (Prim2SF v) as [[]|[]| |[] m e]; cbn;
    destruct (Prim2SF c) as [[]|[]| |[] mc ec]; reflexivity.
Qed.

Lemma add_nan_l (v : float) : nan + v = nan.
Proof.
  apply Prim2SF_inj. rewrite add_spec. reflexivity.
Qed.

Lemma add_nan_r (v : float) : v + nan = nan.
Proof.
  rewrite float_add_comm. apply add_nan_l.
Qed.

(** Of two numbers, one is at most the other or the other is below it. *)
Lemma leb_false_ltb (a b : float) :
  (a <=? b) = false -> PrimFloat.is_nan a = false ->
  PrimFloat.is_nan b = false -> (b <? a) = true.
Proof.
  rewrite leb_spec, ltb_spec. unfold SFleb, SFltb. intros L Na Nb.
  apply Binary64.is_nan_false in Na, Nb.
  rewrite (Binary64.SFcompare_antisym (Prim2SF a) (Prim2SF b)).
  destruct (SFcompare (Prim2SF a) (Prim2SF b)) as [[]|] eqn:C;
    try discriminate L; try reflexivity.
  exfalso. destruct (Prim2SF a), (Prim2SF b); simpl in C; congruence.
Qed.

Lemma leb_not_nan (a b : float) :
  (a <=? b) = true -> PrimFloat.is_nan a = false /\ PrimFloat.is_nan b = false.
Proof.
  rewrite leb_spec. unfold SFleb. intros L.
  split; apply Binary64.is_nan_false; intros E; rewrite E in L;
    destruct (Prim2SF a), (Prim2SF b); simpl in L; discriminate.
Qed.

Lemma SFcompare_opp (u v : spec_float) :
  SFcompare (SFopp u) (SFopp v) = SFcompare v u.
Proof.
  destruct u as [[]|[]| |[] mu eu], v as [[]|[]| |[] mv ev];
    try reflexivity; cbn [SFopp negb SFcompare];
    change (Pos.compare_cont Eq mv mu) with (Pos.compare mv mu);
    change (Pos.compare_cont Eq mu mv) with (Pos.compare mu mv);
    rewrite (Z.compare_antisym eu ev), (Pos.compare_antisym mu mv);
    destruct (Z.compare eu ev), (Pos.compare mu mv); reflexivity.
Qed.

Lemma SFopp_involutive (v : spec_float) : SFopp (SFopp v) = v.
Proof.
  destruct v as [[]|[]| |[] m e]; reflexivity.
Qed.

Lemma opp_involutive (a : float) : - - a = a.
Proof.
  apply Prim2SF_inj. rewrite !opp_spec. apply SFopp_involutive.
Qed.

Lemma leb_opp (a c : float) : (- c <=? a) = (- a <=? c).
Proof.
  rewrite !leb_spec, !opp_spec. unfold SFleb.
  rewrite <- (SFopp_involutive (Prim2SF a)) at 1.
  rewrite SFcompare_opp. reflexivity.
Qed.

Lemma binary_round_aux_opp (s : bool) (m e : Z) (l : location) :
  SFopp (binary_round_aux prec emax s m e l)
  = binary_round_aux prec emax (negb s) m e l.
Proof.
  unfold binary_round_aux.
  destruct (shr_fexp prec emax m e l) as [r1 e1].
  destruct (shr_fexp prec emax _ e1 loc_Exact) as [r2 e2].
  destruct (shr_m r2); try reflexivity.
  destruct (Z.leb _ _); reflexivity.
Qed.

Lemma mul_opp_l (a c : float) : - a * c = - (a * c).
Proof.
  apply Prim2SF_inj. rewrite opp_spec, !mul_spec, opp_spec.
  destruct (Prim2SF a) as [[]|[]| |[] ma ea],
           (Prim2SF c) as [[]|[]| |[] mc ec]; try reflexivity;
    unfold SF64mul, SFmul; cbn [SFopp negb xorb];
    rewrite binary_round_aux_opp; reflexivity.
Qed.

Lemma div_opp_l (a c : float) : - a / c = - (a / c).
Proof.
  apply Prim2SF_inj. rewrite opp_spec, !div_spec, opp_spec.
  destruct (Prim2SF a) as [[]|[]| |[] ma ea],
           (Prim2SF c) as [[]|[]| |[] mc ec]; try reflexivity;
    unfold SF64div, SFdiv; cbn [SFopp negb xorb];
    destruct (SFdiv_core_binary _ _ _ _ _ _) as [[q e'] l];
    rewrite binary_round_aux_opp; reflexivity.
Qed.

Lemma abs_opp (a : float) : Math.abs (- a) = Math.abs a.
Proof.
  unfold Math.abs. apply Prim2SF_inj. rewrite !abs_spec, opp_spec.
  destruct (Prim2SF a) as [[]|[]| |[] m e]; reflexivity.
Qed.

Lemma abs_inDegrees (v : float) :
  inDegrees v = true -> inDegrees (Math.abs v) = true.
Proof.
  unfold inDegrees, Math.abs. rewrite !leb_spec, abs_spec.
  change (Prim2SF 0) with (S754_zero false).
  destruct (Prim2SF v) as [[]|[]| |[] m e]; cbn; intros H;
    try discriminate H; exact H.
Qed.

(** An angle between [-pi] and [pi] is between 0 and 180 degrees in
    absolute value. *)
Lemma abs_degrees_range (a : float) :
  (- Math.PI <=? a) = true -> (a <=? Math.PI) = true ->
  inDegrees (Math.abs (a * 180 / Math.PI)) = true.
Proof.
  intros Lo Hi.
  destruct (0 <=? a) eqn:S.
  - apply abs_inDegrees, Binary64.degrees_range; assumption.
  - rewrite <- (opp_involutive a), mul_opp_l, div_opp_l, abs_opp.
    apply abs_inDegrees, Binary64.degrees_range.
    + assert (N : (a <? 0) = true).
      { apply leb_false_ltb; [exact S|reflexivity|].
        apply (leb_not_nan _ _ Hi). }
      rewrite ltb_spec in N. rewrite leb_spec, opp_spec.
      change (Prim2SF 0) with (S754_zero false) in *.
      destruct (Prim2SF a) as [[]|[]| |[] m e]; try discriminate N;
        reflexivity.
    + rewrite <- leb_opp. exact Lo.
Qed.

End Binary64Ops.

(** ** The evaluators agree with their rule-by-rule formulation *)

Section ByRule.

Variable Math_acos : float -> float.
Variable Math_atan2 : float -> float -> float.

Lemma analyzeSquat_by_rule (kp : gmap string KeyPoint) (ts : float) :
  FormAnalyzer.analyzeSquat (frame kp ts) = squatByRule kp.
Proof.
  unfold FormAnalyzer.analyzeSquat, FormAnalyzer.detectBottomPosition,
    squatByRule, frame.
  cbn [keypoints mbind option_bind forallb].
  destruct (kp !! "leftHip") as [lh|]; [|reflexivity].
  destruct (kp !! "rightHip") as [rh|]; [|reflexivity].
  destruct (kp !! "leftKnee") as [lk|]; [|reflexivity].
  destruct (kp !! "rightKnee") as [rk|]; [|reflexivity].
  destruct (kp !! "leftAnkle") as [la|]; [|reflexivity].
  destruct (kp !! "rightAnkle") as [ra|]; [|reflexivity].
  cbn [forallb truthy negb andb mbind option_bind option_ret mret].
  cbv zeta.
  unfold tierMessages, singleTierMessages, crosses, depthRatioOf, center_y,
    center_x, asymmetryOf, segmentLength.
  destruct (kp !! "leftShoulder") as [ls|], (kp !! "rightShoulder") as [rs|].
  all: split_branches.
  all: reflexivity.
Qed.

Lemma analyzeBench_by_rule (kp : gmap string KeyPoint) (ts : float)
    (g : Math.rng) :
  FormAnalyzer.analyzeBench Math_acos (frame kp ts) g
  = benchByRule Math_acos kp g.
Proof.
  unfold FormAnalyzer.analyzeBench, FormAnalyzer.detectPressMovement,
    benchByRule, frame.
  cbn [keypoints forallb].
  destruct (kp !! "leftShoulder") as [ls|]; [|reflexivity].
  destruct (kp !! "rightShoulder") as [rs|]; [|reflexivity].
  destruct (kp !! "leftElbow") as [el|]; [|reflexivity].
  destruct (kp !! "rightElbow") as [er|]; [|reflexivity].
  destruct (kp !! "leftWrist") as [lw|]; [|reflexivity].
  destruct (kp !! "rightWrist") as [rw|]; [|reflexivity].
  cbn [truthy negb andb Math.random fst snd].
  cbv zeta.
  unfold tierMessages, singleTierMessages, crosses, center_y, center_x,
    asymmetryOf, segmentLength.
  split_branches; reflexivity.
Qed.

Lemma analyzeDeadlift_by_rule (kp : gmap string KeyPoint) (ts : float) :
  FormAnalyzer.analyzeDeadlift Math_atan2 (frame kp ts)
  = deadliftByRule Math_atan2 kp.
Proof.
  unfold FormAnalyzer.analyzeDeadlift, FormAnalyzer.detectDeadliftMovement,
    deadliftByRule, frame.
  cbn [keypoints mbind option_bind forallb].
  destruct (kp !! "leftShoulder") as [ls|]; [|reflexivity].
  destruct (kp !! "rightShoulder") as [rs|]; [|reflexivity].
  destruct (kp !! "leftHip") as [lh|]; [|reflexivity].
  destruct (kp !! "rightHip") as [rh|]; [|reflexivity].
  destruct (kp !! "leftKnee") as [lk|]; [|reflexivity].
  destruct (kp !! "rightKnee") as [rk|]; [|reflexivity].
  cbn [truthy negb andb mbind option_bind option_ret mret].
  cbv zeta.
  unfold tierMessages, singleTierMessages, crosses, backAngleOf, center_y,
    center_x.
  destruct (kp !! "leftAnkle") as [la|], (kp !! "rightAnkle") as [ra|].
  all: split_branches; reflexivity.
Qed.

Lemma analyze_by_rule (movement : string) (kp : gmap string KeyPoint)
    (ts : float) (g : Math.rng) :
  FormAnalyzer.analyze Math_acos Math_atan2 movement (Some (frame kp ts)) g
  = analyzeByRule Math_acos Math_atan2 movement kp g.
Proof.
  unfold FormAnalyzer.analyze, analyzeByRule.
  change (negb (truthy (keypoints (frame kp ts)))) with false. cbv iota.
  rewrite analyzeSquat_by_rule, analyzeBench_by_rule, analyzeDeadlift_by_rule.
  reflexivity.
Qed.

End ByRule.

(** ** Further properties of the analyzer *)

(** Finds the fifth of a score that is a closed term. *)
Ltac whole_fifth :=
  match goal with
  | |- exists k, _ /\ numberOfZ ?z = _ =>
    exists (z / 5)%Z; split; [split; vm_compute; discriminate|reflexivity]
  end.

Section Scores.

Variable Math_acos : float -> float.
Variable Math_atan2 : float -> float -> float.

(** The scores of a frame with every required landmark: never below the
    score of the frame that breaks every rule, at least 80 without an
    error and at most 85 with one. *)
Lemma complete_frame_scores
    (movement : string) (kp : gmap string KeyPoint) (ts : float)
    (g : Math.rng) :
  In movement supported ->
  hasLandmarks kp (requiredLandmarks movement) = true ->
  exists r g',
    FormAnalyzer.analyze Math_acos Math_atan2 movement (Some (frame kp ts)) g
      = (Some r, g')
    /\ (lowestScore movement <=? score r) = true
    /\ (0 <? score r) = true
    /\ (exists k, (1 <= k <= 20)%Z /\ score r = numberOfZ (5 * k))
    /\ (errors r = [] -> (80 <=? score r) = true)
    /\ (errors r <> [] -> (score r <=? 85) = true).
Proof.
  intros S H. rewrite analyze_by_rule. unfold analyzeByRule.
  destruct S as [<-|[<-|[<-|[]]]]; cbn [String.eqb Ascii.eqb Bool.eqb].
  - landmark H "leftHip" lh Hlh. landmark H "rightHip" rh Hrh.
    landmark H "leftKnee" lk Hlk. landmark H "rightKnee" rk Hrk.
    landmark H "leftAnkle" la Hla. landmark H "rightAnkle" ra Hra.
    unfold squatByRule. rewrite Hlh, Hrh, Hlk, Hrk, Hla, Hra.
    do 2 eexists. split; [reflexivity|].
    unfold assemble, tierMessages, singleTierMessages, skipped.
    cbn [score errors].
    destruct (kp !! "leftShoulder"), (kp !! "rightShoulder");
      split_branches;
      (split; [vm_compute; reflexivity|]);
      (split; [vm_compute; reflexivity|]);
      (split; [whole_fifth|]);
      (split; intros E; first [discriminate E | vm_compute; reflexivity
                              | exfalso; apply E; reflexivity]).
  - landmark H "leftShoulder" ls Hls. landmark H "rightShoulder" rs Hrs.
    landmark H "leftElbow" el Hel. landmark H "rightElbow" er Her.
    landmark H "leftWrist" lw Hlw. landmark H "rightWrist" rw Hrw.
    unfold benchByRule. rewrite Hls, Hrs, Hel, Her, Hlw, Hrw.
    do 2 eexists. split; [reflexivity|].
    unfold assemble, tierMessages, singleTierMessages, skipped.
    cbn [score errors].
    split_branches;
      (split; [vm_compute; reflexivity|]);
      (split; [vm_compute; reflexivity|]);
      (split; [whole_fifth|]);
      (split; intros E; first [discriminate E | vm_compute; reflexivity
                              | exfalso; apply E; reflexivity]).
  - landmark H "leftShoulder" ls Hls. landmark H "rightShoulder" rs Hrs.
    landmark H "leftHip" lh Hlh. landmark H "rightHip" rh Hrh.
    landmark H "leftKnee" lk Hlk. landmark H "rightKnee" rk Hrk.
    unfold deadliftByRule. rewrite Hls, Hrs, Hlh, Hrh, Hlk, Hrk.
    do 2 eexists. split; [reflexivity|].
    unfold assemble, tierMessages, singleTierMessages, skipped.
    cbn [score errors].
    destruct (kp !! "leftAnkle"), (kp !! "rightAnkle");
      split_branches;
      (split; [vm_compute; reflexivity|]);
      (split; [vm_compute; reflexivity|]);
      (split; [whole_fifth|]);
      (split; intros E; first [discriminate E | vm_compute; reflexivity
                              | exfalso; apply E; reflexivity]).
Qed.

(** The rule-by-rule evaluators on a frame that lacks a required
    landmark. *)
Lemma incomplete_by_rule
    (movement : string) (kp : gmap string KeyPoint) (g : Math.rng) :
  In movement supported ->
  hasLandmarks kp (requiredLandmarks movement) = false ->
  analyzeByRule Math_acos Math_atan2 movement kp g
  = (Some (incompleteResult movement), g).
Proof.
  intros S H. unfold analyzeByRule.
  destruct S as [<-|[<-|[<-|[]]]]; cbn [String.eqb Ascii.eqb Bool.eqb];
    unfold hasLandmarks in H; cbn [requiredLandmarks String.eqb Ascii.eqb
                                    Bool.eqb forallb] in H.
  - unfold squatByRule.
    destruct (kp !! "leftHip"); [|reflexivity].
    destruct (kp !! "rightHip"); [|reflexivity].
    destruct (kp !! "leftKnee"); [|reflexivity].
    destruct (kp !! "rightKnee"); [|reflexivity].
    destruct (kp !! "leftAnkle"); [|reflexivity].
    destruct (kp !! "rightAnkle"); [|reflexivity].
    discriminate H.
  - unfold benchByRule.
    destruct (kp !! "leftShoulder"); [|reflexivity].
    destruct (kp !! "rightShoulder"); [|reflexivity].
    destruct (kp !! "leftElbow"); [|reflexivity].
    destruct (kp !! "rightElbow"); [|reflexivity].
    destruct (kp !! "leftWrist"); [|reflexivity].
    destruct (kp !! "rightWrist"); [|reflexivity].
    discriminate H.
  - unfold deadliftByRule.
    destruct (kp !! "leftShoulder"); [|reflexivity].
    destruct (kp !! "rightShoulder"); [|reflexivity].
    destruct (kp !! "leftHip"); [|reflexivity].
    destruct (kp !! "rightHip"); [|reflexivity].
    destruct (kp !! "leftKnee"); [|reflexivity].
    destruct (kp !! "rightKnee"); [|reflexivity].
    discriminate H.
Qed.

Lemma unsupported_by_rule
    (movement : string) (kp : gmap string KeyPoint) (g : Math.rng) :
  ~ In movement supported ->
  analyzeByRule Math_acos Math_atan2 movement kp g = (Some emptyResult, g).
Proof.
  intros N. unfold analyzeByRule.
  destruct (String.eqb_spec movement "squat") as [->|_];
    [destruct N; simpl; auto|].
  destruct (String.eqb_spec movement "bench") as [->|_];
    [destruct N; simpl; auto|].
  destruct (String.eqb_spec movement "deadlift") as [->|_];
    [destruct N; simpl; auto|].
  reflexivity.
Qed.


(** X2: the score of a frame is positive exactly when the movement is
    supported and the frame has every landmark the movement requires;
    it is then at least the score of a frame that breaks every rule (10
    for the squat, 40 for the bench press, 30 for the deadlift).  A score
    of 0 always means that nothing was evaluated. *)
Theorem score_is_positive_iff_evaluated
    (movement : string) (kp : gmap string KeyPoint) (ts : float)
    (g : Math.rng) :
  exists r g',
    FormAnalyzer.analyze Math_acos Math_atan2 movement (Some (frame kp ts)) g
      = (Some r, g')
    /\ ((0 <? score r) = true
        <-> In movement supported
            /\ hasLandmarks kp (requiredLandmarks movement) = true)
    /\ ((0 <? score r) = true ->
        (lowestScore movement <=? score r) = true)
    /\ ((0 <? score r) = false -> score r = 0).
Proof.
  destruct (in_dec String.string_dec movement supported) as [S|N].
  - destruct (hasLandmarks kp (requiredLandmarks movement)) eqn:H.
    + destruct (complete_frame_scores movement kp ts g S H)
        as (r & g' & E & L & P & _ & _).
      exists r, g'. split; [exact E|]. rewrite P.
      repeat split; auto; discriminate.
    + rewrite analyze_by_rule, (incomplete_by_rule movement kp g S H).
      do 2 eexists. split; [reflexivity|].
      change (0 <? score (incompleteResult movement)) with false.
      repeat split; try discriminate; intros [_ F]; discriminate F.
  - rewrite analyze_by_rule, (unsupported_by_rule movement kp g N).
    do 2 eexists. split; [reflexivity|].
    change (0 <? score emptyResult) with false.
    repeat split; try discriminate; intros [F _]; contradiction.
Qed.

(** X3: on a frame with every required landmark the errors bound the
    score from both sides: at least 80 without an error, at most 85 with
    one. *)
Theorem errors_bound_the_score
    (movement : string) (kp : gmap string KeyPoint) (ts : float)
    (g : Math.rng) :
  In movement supported ->
  hasLandmarks kp (requiredLandmarks movement) = true ->
  exists r g',
    FormAnalyzer.analyze Math_acos Math_atan2 movement (Some (frame kp ts)) g
      = (Some r, g')
    /\ (errors r = [] -> (80 <=? score r) = true)
    /\ (errors r <> [] -> (score r <=? 85) = true).
Proof.
  intros S H.
  destruct (complete_frame_scores movement kp ts g S H)
    as (r & g' & E & _ & _ & _ & B).
  exists r, g'. split; [exact E|exact B].
Qed.

(** X22: every score is a whole multiple of 5 from 0 to 100, whatever
    the movement identifier and the pose argument. *)
Theorem scores_are_multiples_of_five
    (movement : string) (poseData : option PoseData) (g : Math.rng) :
  exists r k,
    fst (FormAnalyzer.analyze Math_acos Math_atan2 movement poseData g)
    = Some r
    /\ (0 <= k <= 20)%Z
    /\ score r = numberOfZ (5 * k).
Proof.
  destruct poseData as [[[kp|] ts]|];
    try (exists emptyResult, 0%Z; repeat split; discriminate).
  change {| keypoints := Some kp; timestamp := ts |} with (frame kp ts).
  destruct (in_dec String.string_dec movement supported) as [S|N].
  - destruct (hasLandmarks kp (requiredLandmarks movement)) eqn:H.
    + destruct (complete_frame_scores movement kp ts g S H)
        as (r & g' & -> & _ & _ & (k & B & E) & _).
      exists r, k. repeat split; [lia|lia|exact E].
    + rewrite analyze_by_rule, (incomplete_by_rule movement kp g S H).
      exists (incompleteResult movement), 0%Z. repeat split; discriminate.
  - rewrite analyze_by_rule, (unsupported_by_rule movement kp g N).
    exists emptyResult, 0%Z. repeat split; discriminate.
Qed.

End Scores.

(** Closes a goal about the messages, the score or the flag of an
    assembled result once every rule is decided. *)
Ltac settle_result :=
  cbn [errors feedback score repCompleted assemble];
  repeat split;
  first [ reflexivity
        | vm_compute; reflexivity
        | simpl; intuition (discriminate || auto) ].

Section Squat.

Variable Math_acos : float -> float.
Variable Math_atan2 : float -> float -> float.

(** With the left ankle lower in the image than the hip centre, the
    depth ratio of a frame whose hips are lower than its knees is not
    above any positive threshold. *)
Lemma depth_below_parallel (lh rh lk rk la : KeyPoint) (c : float) :
  (center_y lk rk <? center_y lh rh) = true ->
  (center_y lh rh <? y la) = true ->
  (0 <? c) = true ->
  (c <? depthRatioOf lh rh lk rk la) = false.
Proof.
  intros Bottom Below C. unfold depthRatioOf.
  apply Binary64Ops.div_neg_pos;
    [apply Binary64.sub_neg; exact Bottom
    |apply Binary64.sub_pos; exact Below|exact C].
Qed.

(** X4: with the left ankle lower in the image than the hip centre, as
    it is for a lifter on their feet, a squat frame never counts as a
    completed rep, whatever the depth. *)
Theorem squat_rep_needs_ankle_above_hip
    (kp : gmap string KeyPoint) (ts : float) (g : Math.rng)
    (lh rh la : KeyPoint) :
  hasLandmarks kp (requiredLandmarks "squat") = true ->
  kp !! "leftHip" = Some lh -> kp !! "rightHip" = Some rh ->
  kp !! "leftAnkle" = Some la ->
  (center_y lh rh <? y la) = true ->
  exists r,
    FormAnalyzer.analyze Math_acos Math_atan2 "squat" (Some (frame kp ts)) g
      = (Some r, g)
    /\ repCompleted r = Some false.
Proof.
  intros H Hlh Hrh Hla Below.
  landmark H "leftKnee" lk Hlk. landmark H "rightKnee" rk Hrk.
  landmark H "rightAnkle" ra Hra.
  rewrite analyze_by_rule. unfold analyzeByRule, squatByRule.
  cbn [String.eqb Ascii.eqb Bool.eqb].
  rewrite Hlh, Hrh, Hlk, Hrk, Hla, Hra.
  eexists. split; [reflexivity|].
  cbn [repCompleted assemble]. f_equal.
  destruct (center_y lk rk <? center_y lh rh) eqn:Bottom;
    [|apply andb_false_r].
  rewrite andb_true_r.
  apply depth_below_parallel; [exact Bottom|exact Below|reflexivity].
Qed.

(** X5: a squat below parallel (hips lower in the image than the knees,
    ankles lower than the hips) has a depth ratio below every threshold:
    the evaluator raises the error that asks for more depth, takes its
    25 points and counts no rep. *)
Theorem squat_below_parallel_reads_as_shallow
    (kp : gmap string KeyPoint) (ts : float) (g : Math.rng)
    (lh rh lk rk la : KeyPoint) :
  hasLandmarks kp (requiredLandmarks "squat") = true ->
  kp !! "leftHip" = Some lh -> kp !! "rightHip" = Some rh ->
  kp !! "leftKnee" = Some lk -> kp !! "rightKnee" = Some rk ->
  kp !! "leftAnkle" = Some la ->
  (center_y lk rk <? center_y lh rh) = true ->
  (center_y lh rh <? y la) = true ->
  PrimFloat.is_finite (y la - center_y lh rh) = true ->
  exists r,
    FormAnalyzer.analyze Math_acos Math_atan2 "squat" (Some (frame kp ts)) g
      = (Some r, g)
    /\ In "Squat deeper - hips need to go below knee level" (errors r)
    /\ ~ In "Excellent depth!" (feedback r)
    /\ ~ In "Good depth! Try to go slightly deeper" (feedback r)
    /\ (score r <=? 75) = true
    /\ repCompleted r = Some false.
Proof.
  intros H Hlh Hrh Hlk Hrk Hla Bottom Below Finite.
  landmark H "rightAnkle" ra Hra.
  rewrite analyze_by_rule. unfold analyzeByRule, squatByRule.
  cbn [String.eqb Ascii.eqb Bool.eqb].
  rewrite Hlh, Hrh, Hlk, Hrk, Hla, Hra.
  eexists. split; [reflexivity|].
  assert (D : (depthRatioOf lh rh lk rk la <? 0.1) = true).
  { unfold depthRatioOf.
    apply Binary64Ops.div_neg_pos_finite;
      [apply Binary64.sub_neg; exact Bottom
      |apply Binary64.sub_pos; exact Below|exact Finite|reflexivity]. }
  rewrite (depth_below_parallel lh rh lk rk la 0.2 Bottom Below eq_refl).
  unfold tierMessages, singleTierMessages, skipped, crosses.
  rewrite D.
  destruct (kp !! "leftShoulder"), (kp !! "rightShoulder");
    split_branches; settle_result.
Qed.

(** X6: when both hips are detected at one [x], the knee-tracking ratio
    divides by zero: it is [Infinity] or NaN, below no threshold, and
    the frame earns the positive knee feedback however the knees
    stand. *)
Theorem level_hips_pass_knee_tracking
    (kp : gmap string KeyPoint) (ts : float) (g : Math.rng)
    (lh rh : KeyPoint) :
  hasLandmarks kp (requiredLandmarks "squat") = true ->
  kp !! "leftHip" = Some lh -> kp !! "rightHip" = Some rh ->
  x lh = x rh -> PrimFloat.is_finite (x lh) = true ->
  exists r v,
    FormAnalyzer.analyze Math_acos Math_atan2 "squat" (Some (frame kp ts)) g
      = (Some r, g)
    /\ metric "kneeTracking" r = Some v
    /\ (forall c, (v <? c) = false)
    /\ In "Great knee tracking!" (feedback r)
    /\ ~ In "Knees caving in - push knees out over toes" (errors r)
    /\ ~ In "Watch knee alignment - keep them tracking over toes"
           (feedback r).
Proof.
  intros H Hlh Hrh Ex Fx.
  landmark H "leftKnee" lk Hlk. landmark H "rightKnee" rk Hrk.
  landmark H "leftAnkle" la Hla. landmark H "rightAnkle" ra Hra.
  rewrite analyze_by_rule. unfold analyzeByRule, squatByRule.
  cbn [String.eqb Ascii.eqb Bool.eqb].
  rewrite Hlh, Hrh, Hlk, Hrk, Hla, Hra.
  rewrite <- Ex, (Binary64.sub_diag _ Fx).
  do 2 eexists. split; [reflexivity|].
  split; [unfold metric, assemble; cbn [details mbind option_bind];
          apply squat_details|].
  split; [intros c; apply Binary64Ops.abs_div_zero|].
  unfold tierMessages, singleTierMessages, skipped, crosses.
  rewrite !Binary64Ops.abs_div_zero.
  destruct (kp !! "leftShoulder"), (kp !! "rightShoulder");
    split_branches; settle_result.
Qed.

End Squat.

(** Two frames with the same view agree at a landmark: it is missing in
    both, or observed in both at one position. *)
Lemma sameView_at (movement : string) (kp1 kp2 : gmap string KeyPoint)
    (name : string) :
  sameView movement kp1 kp2 -> In name (landmarksRead movement) ->
  (kp1 !! name = None /\ kp2 !! name = None)
  \/ (exists p q, kp1 !! name = Some p /\ kp2 !! name = Some q
         /\ x p = x q /\ y p = y q).
Proof.
  intros V I. specialize (V name I).
  destruct (kp1 !! name) as [p|], (kp2 !! name) as [q|];
    cbn in V; try discriminate V; [right|left; split; reflexivity].
  exists p, q. unfold planar in V.
  repeat split; congruence.
Qed.

(** Looks a landmark up in both frames of a view. *)
Ltac same_at V name p q :=
  let E1 := fresh "E" in
  let E2 := fresh "E" in
  let Ex := fresh "Ex" in
  let Ey := fresh "Ey" in
  destruct (sameView_at _ _ _ name V ltac:(simpl; tauto))
    as [[E1 E2]|(p & q & E1 & E2 & Ex & Ey)];
  rewrite E1, E2; clear E1 E2;
  [|destruct p, q; cbn [x y] in Ex, Ey; subst].

Section General.

Variable Math_acos : float -> float.
Variable Math_atan2 : float -> float -> float.

(** X10: the angle at a vertex does not depend on the order in which its
    two rays are given. *)
Theorem calculateAngle_sym (point1 point2 point3 : KeyPoint) :
  FormAnalyzer.calculateAngle Math_acos point1 point2 point3
  = FormAnalyzer.calculateAngle Math_acos point3 point2 point1.
Proof.
  unfold FormAnalyzer.calculateAngle. cbv zeta.
  rewrite (Binary64Ops.float_mul_comm (x point1 - x point2)
             (x point3 - x point2)).
  rewrite (Binary64Ops.float_mul_comm (y point1 - y point2)
             (y point3 - y point2)).
  rewrite (Binary64Ops.float_mul_comm
             (Math.sqrt (Math.pow2 (x point1 - x point2)
                         + Math.pow2 (y point1 - y point2)))).
  reflexivity.
Qed.

(** X9: the bench and the deadlift evaluators treat the two sides of the
    body alike.  Exchanging every left landmark with its right
    counterpart changes nothing in the result, on complete and on
    incomplete frames. *)
Theorem bench_and_deadlift_ignore_side_labels
    (movement : string) (kp : gmap string KeyPoint) (ts : float)
    (g : Math.rng) :
  In movement ["bench"; "deadlift"] ->
  FormAnalyzer.analyze Math_acos Math_atan2 movement
    (Some (frame (mirror kp) ts)) g
  = FormAnalyzer.analyze Math_acos Math_atan2 movement
      (Some (frame kp ts)) g.
Proof.
  intros M. rewrite !analyze_by_rule. unfold analyzeByRule.
  destruct M as [<-|[<-|[]]]; cbn [String.eqb Ascii.eqb Bool.eqb].
  - unfold benchByRule. rewrite !mirror_lookup.
    change (swapSide "leftShoulder") with "rightShoulder".
    change (swapSide "rightShoulder") with "leftShoulder".
    change (swapSide "leftElbow") with "rightElbow".
    change (swapSide "rightElbow") with "leftElbow".
    change (swapSide "leftWrist") with "rightWrist".
    change (swapSide "rightWrist") with "leftWrist".
    destruct (kp !! "leftShoulder") as [ls|], (kp !! "rightShoulder") as [rs|],
      (kp !! "leftElbow") as [el|], (kp !! "rightElbow") as [er|],
      (kp !! "leftWrist") as [lw|], (kp !! "rightWrist") as [rw|];
      try reflexivity.
    unfold center_x.
    rewrite (Binary64Ops.float_add_comm (x rw) (x lw)).
    rewrite (Binary64Ops.float_add_comm (x rs) (x ls)).
    rewrite (Binary64Ops.float_add_comm
               (FormAnalyzer.calculateAngle Math_acos rs er rw)).
    rewrite (Binary64.asymmetryOf_comm (segmentLength rs rw)).
    reflexivity.
  - unfold deadliftByRule. rewrite !mirror_lookup.
    change (swapSide "leftShoulder") with "rightShoulder".
    change (swapSide "rightShoulder") with "leftShoulder".
    change (swapSide "leftHip") with "rightHip".
    change (swapSide "rightHip") with "leftHip".
    change (swapSide "leftKnee") with "rightKnee".
    change (swapSide "rightKnee") with "leftKnee".
    change (swapSide "leftAnkle") with "rightAnkle".
    change (swapSide "rightAnkle") with "leftAnkle".
    destruct (kp !! "leftShoulder") as [ls|], (kp !! "rightShoulder") as [rs|],
      (kp !! "leftHip") as [lh|], (kp !! "rightHip") as [rh|],
      (kp !! "leftKnee") as [lk|], (kp !! "rightKnee") as [rk|];
      try reflexivity.
    unfold backAngleOf, center_x, center_y.
    rewrite (Binary64Ops.float_add_comm (x rs) (x ls)).
    rewrite (Binary64Ops.float_add_comm (y rs) (y ls)).
    rewrite (Binary64Ops.float_add_comm (x rh) (x lh)).
    rewrite (Binary64Ops.float_add_comm (y rh) (y lh)).
    rewrite (Binary64Ops.float_add_comm (x rk) (x lk)).
    rewrite (Binary64Ops.float_add_comm (y rk) (y lk)).
    destruct (kp !! "leftAnkle") as [la|], (kp !! "rightAnkle") as [ra|];
      try reflexivity.
    rewrite (Binary64Ops.float_add_comm (x ra) (x la)).
    reflexivity.
Qed.

(** X8: a result depends on the frame only through the image positions
    of the landmarks its evaluator looks up.  The timestamp, the depth
    and the visibility of a landmark, and every other landmark of the
    frame have no influence. *)
Theorem analyze_reads_planar_landmarks_only
    (movement : string) (kp1 kp2 : gmap string KeyPoint) (ts1 ts2 : float)
    (g : Math.rng) :
  sameView movement kp1 kp2 ->
  FormAnalyzer.analyze Math_acos Math_atan2 movement
    (Some (frame kp1 ts1)) g
  = FormAnalyzer.analyze Math_acos Math_atan2 movement
      (Some (frame kp2 ts2)) g.
Proof.
  intros V. rewrite !analyze_by_rule. unfold analyzeByRule.
  destruct (String.eqb_spec movement "squat") as [->|_].
  { unfold squatByRule.
    same_at V "leftHip" lh lh'; [reflexivity|].
    same_at V "rightHip" rh rh'; [reflexivity|].
    same_at V "leftKnee" lk lk'; [reflexivity|].
    same_at V "rightKnee" rk rk'; [reflexivity|].
    same_at V "leftAnkle" la la'; [reflexivity|].
    same_at V "rightAnkle" ra ra'; [reflexivity|].
    same_at V "leftShoulder" ls ls'; [reflexivity|].
    same_at V "rightShoulder" rs rs'; reflexivity. }
  destruct (String.eqb_spec movement "bench") as [->|_].
  { unfold benchByRule.
    same_at V "leftShoulder" ls ls'; [reflexivity|].
    same_at V "rightShoulder" rs rs'; [reflexivity|].
    same_at V "leftElbow" el el'; [reflexivity|].
    same_at V "rightElbow" er er'; [reflexivity|].
    same_at V "leftWrist" lw lw'; [reflexivity|].
    same_at V "rightWrist" rw rw'; reflexivity. }
  destruct (String.eqb_spec movement "deadlift") as [->|_]; [|reflexivity].
  unfold deadliftByRule.
  same_at V "leftShoulder" ls ls'; [reflexivity|].
  same_at V "rightShoulder" rs rs'; [reflexivity|].
  same_at V "leftHip" lh lh'; [reflexivity|].
  same_at V "rightHip" rh rh'; [reflexivity|].
  same_at V "leftKnee" lk lk'; [reflexivity|].
  same_at V "rightKnee" rk rk'; [reflexivity|].
  same_at V "leftAnkle" la la'; [reflexivity|].
  same_at V "rightAnkle" ra ra'; reflexivity.
Qed.

(** X21: the squat evaluator treats the two sides alike except in the
    depth ratio, which reads the left ankle only.  When the two ankles
    are at one height, exchanging every left landmark with its right
    counterpart changes nothing in the result. *)
Theorem squat_ignores_side_labels_with_level_ankles
    (kp : gmap string KeyPoint) (ts : float) (g : Math.rng) :
  (forall la ra, kp !! "leftAnkle" = Some la ->
     kp !! "rightAnkle" = Some ra -> y la = y ra) ->
  FormAnalyzer.analyze Math_acos Math_atan2 "squat"
    (Some (frame (mirror kp) ts)) g
  = FormAnalyzer.analyze Math_acos Math_atan2 "squat"
      (Some (frame kp ts)) g.
Proof.
  intros Level. rewrite !analyze_by_rule. unfold analyzeByRule.
  cbn [String.eqb Ascii.eqb Bool.eqb].
  unfold squatByRule. rewrite !mirror_lookup.
  change (swapSide "leftHip") with "rightHip".
  change (swapSide "rightHip") with "leftHip".
  change (swapSide "leftKnee") with "rightKnee".
  change (swapSide "rightKnee") with "leftKnee".
  change (swapSide "leftAnkle") with "rightAnkle".
  change (swapSide "rightAnkle") with "leftAnkle".
  change (swapSide "leftShoulder") with "rightShoulder".
  change (swapSide "rightShoulder") with "leftShoulder".
  destruct (kp !! "leftHip") as [lh|], (kp !! "rightHip") as [rh|],
    (kp !! "leftKnee") as [lk|], (kp !! "rightKnee") as [rk|],
    (kp !! "leftAnkle") as [la|], (kp !! "rightAnkle") as [ra|];
    try reflexivity.
  unfold depthRatioOf, center_x, center_y.
  rewrite <- (Level la ra eq_refl eq_refl).
  rewrite (Binary64Ops.float_add_comm (y rk) (y lk)).
  rewrite (Binary64Ops.float_add_comm (y rh) (y lh)).
  rewrite (Binary64Ops.float_add_comm (x rh) (x lh)).
  rewrite (Binary64.abs_sub_comm (x lk) (x rk)).
  rewrite (Binary64.abs_sub_comm (x lh) (x rh)).
  rewrite (Binary64.asymmetryOf_comm (segmentLength rh rk)).
  destruct (kp !! "leftShoulder") as [ls|], (kp !! "rightShoulder") as [rs|];
    try reflexivity.
  rewrite (Binary64Ops.float_add_comm (x rs) (x ls)).
  reflexivity.
Qed.

End General.

Section Optional.

Variable Math_acos : float -> float.
Variable Math_atan2 : float -> float -> float.

(** X11: the conditional rule of the squat (forward lean) and of the
    deadlift (knee position) needs both landmarks of its pair.  A frame
    that shows only one of them is evaluated as if it showed neither. *)
Theorem lone_optional_landmark_is_ignored
    (movement : string) (kp : gmap string KeyPoint) (ts : float)
    (g : Math.rng) :
  In movement ["squat"; "deadlift"] ->
  kp !! fst (optionalPair movement) = None
  \/ kp !! snd (optionalPair movement) = None ->
  FormAnalyzer.analyze Math_acos Math_atan2 movement (Some (frame kp ts)) g
  = FormAnalyzer.analyze Math_acos Math_atan2 movement
      (Some (frame (delete (fst (optionalPair movement))
                      (delete (snd (optionalPair movement)) kp)) ts)) g.
Proof.
  intros M. rewrite !analyze_by_rule. unfold analyzeByRule.
  destruct M as [<-|[<-|[]]];
    cbn [String.eqb Ascii.eqb Bool.eqb optionalPair fst snd]; intros L.
  - unfold squatByRule.
    rewrite lookup_delete_eq.
    rewrite !(lookup_delete_ne _ "leftShoulder") by discriminate.
    rewrite !(lookup_delete_ne _ "rightShoulder") by discriminate.
    destruct L as [-> | ->]; [reflexivity|].
    destruct (kp !! "leftShoulder"); reflexivity.
  - unfold deadliftByRule.
    rewrite lookup_delete_eq.
    rewrite !(lookup_delete_ne _ "leftAnkle") by discriminate.
    rewrite !(lookup_delete_ne _ "rightAnkle") by discriminate.
    destruct L as [-> | ->]; [reflexivity|].
    destruct (kp !! "leftAnkle"); reflexivity.
Qed.

(** X7: when the elbow of an arm is detected at the position of its
    shoulder or of its wrist, the elbow angle of that arm is NaN.  The
    evaluator reports NaN as the elbow angle of the frame and gives the
    positive elbow feedback. *)
Theorem collapsed_arm_reports_nan
    (kp : gmap string KeyPoint) (ts : float) (g : Math.rng)
    (ls rs el er lw rw : KeyPoint) :
  acosConforms Math_acos ->
  kp !! "leftShoulder" = Some ls -> kp !! "rightShoulder" = Some rs ->
  kp !! "leftElbow" = Some el -> kp !! "rightElbow" = Some er ->
  kp !! "leftWrist" = Some lw -> kp !! "rightWrist" = Some rw ->
  (x ls = x el /\ y ls = y el) \/ (x lw = x el /\ y lw = y el)
  \/ (x rs = x er /\ y rs = y er) \/ (x rw = x er /\ y rw = y er) ->
  exists r g',
    FormAnalyzer.analyze Math_acos Math_atan2 "bench" (Some (frame kp ts)) g
      = (Some r, g')
    /\ metric "elbowAngle" r = Some nan
    /\ In "Good elbow position!" (feedback r)
    /\ ~ In "Elbows too flared - bring them closer to your body" (errors r)
    /\ ~ In "Slight elbow flare - try to keep elbows at 45-degree angle"
           (feedback r).
Proof.
  intros A Hls Hrs Hel Her Hlw Hrw D.
  rewrite analyze_by_rule. unfold analyzeByRule, benchByRule.
  cbn [String.eqb Ascii.eqb Bool.eqb].
  rewrite Hls, Hrs, Hel, Her, Hlw, Hrw.
  assert (E : (FormAnalyzer.calculateAngle Math_acos ls el lw
               + FormAnalyzer.calculateAngle Math_acos rs er rw) / 2 = nan).
  { destruct D as [D|[D|[D|D]]].
    - rewrite (calculateAngle_degenerate Math_acos ls el lw A (or_introl D)).
      rewrite Binary64Ops.add_nan_l. reflexivity.
    - rewrite (calculateAngle_degenerate Math_acos ls el lw A (or_intror D)).
      rewrite Binary64Ops.add_nan_l. reflexivity.
    - rewrite (calculateAngle_degenerate Math_acos rs er rw A (or_introl D)).
      rewrite Binary64Ops.add_nan_r. reflexivity.
    - rewrite (calculateAngle_degenerate Math_acos rs er rw A (or_intror D)).
      rewrite Binary64Ops.add_nan_r. reflexivity. }
  rewrite E.
  do 2 eexists. split; [reflexivity|].
  split; [unfold metric, assemble; cbn [details mbind option_bind];
          apply bench_details|].
  unfold tierMessages, singleTierMessages, crosses.
  change (100 <? nan) with false. change (85 <? nan) with false.
  cbv iota.
  split_branches; settle_result.
Qed.

End Optional.

Section Effects.

Variable Math_acos : float -> float.
Variable Math_atan2 : float -> float -> float.

Lemma squatByRule_total (kp : gmap string KeyPoint) :
  exists r, squatByRule kp = Some r.
Proof.
  unfold squatByRule.
  destruct (kp !! "leftHip"), (kp !! "rightHip"), (kp !! "leftKnee"),
    (kp !! "rightKnee"), (kp !! "leftAnkle"), (kp !! "rightAnkle");
    eexists; reflexivity.
Qed.

Lemma deadliftByRule_total (kp : gmap string KeyPoint) :
  exists r, deadliftByRule Math_atan2 kp = Some r.
Proof.
  unfold deadliftByRule.
  destruct (kp !! "leftShoulder"), (kp !! "rightShoulder"),
    (kp !! "leftHip"), (kp !! "rightHip"), (kp !! "leftKnee"),
    (kp !! "rightKnee"); eexists; reflexivity.
Qed.

(** The bench evaluator draws one random number on a frame with every
    required landmark and none otherwise. *)
Lemma benchByRule_draws (kp : gmap string KeyPoint) (g : Math.rng) :
  exists r,
    fst (benchByRule Math_acos kp g) = Some r
    /\ snd (benchByRule Math_acos kp g)
       = (if hasLandmarks kp (requiredLandmarks "bench")
          then snd (Math.random g) else g).
Proof.
  unfold benchByRule, hasLandmarks.
  cbn [requiredLandmarks String.eqb Ascii.eqb Bool.eqb forallb].
  destruct (kp !! "leftShoulder"), (kp !! "rightShoulder"),
    (kp !! "leftElbow"), (kp !! "rightElbow"), (kp !! "leftWrist"),
    (kp !! "rightWrist"); eexists; split; reflexivity.
Qed.

(** X17: [analyze] never throws.  For every movement identifier and every
    pose argument, missing, without keypoints, incomplete or complete,
    it returns a result: no landmark is read before its presence is
    checked. *)
Theorem analyze_never_throws
    (movement : string) (poseData : option PoseData) (g : Math.rng) :
  exists r,
    fst (FormAnalyzer.analyze Math_acos Math_atan2 movement poseData g)
    = Some r.
Proof.
  destruct poseData as [[[kp|] ts]|]; try (eexists; reflexivity).
  change {| keypoints := Some kp; timestamp := ts |} with (frame kp ts).
  rewrite analyze_by_rule. unfold analyzeByRule.
  destruct (String.eqb movement "squat"); [apply squatByRule_total|].
  destruct (String.eqb movement "bench").
  { destruct (benchByRule_draws kp g) as (r & E & _). eauto. }
  destruct (String.eqb movement "deadlift"); [apply deadliftByRule_total|].
  eexists; reflexivity.
Qed.

(** X18: [Math.random] is called once by an evaluation of a bench frame
    with every required landmark, and by no other evaluation: not for
    the squat or the deadlift, not for an unknown movement, not for a
    missing or incomplete pose. *)
Theorem random_is_drawn_for_complete_bench_frames_only
    (movement : string) (poseData : option PoseData) (g : Math.rng) :
  let drawn :=
    match poseData with
    | Some {| keypoints := Some kp |} =>
      String.eqb movement "bench"
      && hasLandmarks kp (requiredLandmarks "bench")
    | _ => false
    end in
  snd (FormAnalyzer.analyze Math_acos Math_atan2 movement poseData g)
  = (if drawn then snd (Math.random g) else g)
  /\ Math.cursor
       (snd (FormAnalyzer.analyze Math_acos Math_atan2 movement poseData g))
     = (if drawn then S (Math.cursor g) else Math.cursor g).
Proof.
  cbv zeta.
  assert (E : forall d : bool,
             Math.cursor (if d then snd (Math.random g) else g)
             = if d then S (Math.cursor g) else Math.cursor g)
    by (intros []; reflexivity).
  destruct poseData as [[[kp|] ts]|]; try (split; reflexivity).
  change {| keypoints := Some kp; timestamp := ts |} with (frame kp ts).
  rewrite analyze_by_rule. unfold analyzeByRule.
  destruct (String.eqb_spec movement "squat") as [->|_];
    [split; reflexivity|].
  destruct (String.eqb_spec movement "bench") as [->|_].
  { destruct (benchByRule_draws kp g) as (r & _ & ->).
    cbn [String.eqb Ascii.eqb Bool.eqb andb]. split; [reflexivity|apply E]. }
  destruct (String.eqb movement "deadlift"); split; reflexivity.
Qed.

End Effects.

(** ** The range of the back angle *)

Section BackAngle.

Lemma atan2_axes_in_range : atan2InRange atan2_axes.
Proof.
  intros v u. unfold atan2_axes.
  destruct (_ || _); [left; reflexivity|].
  destruct (_ <? _); [destruct (_ <? _); right; reflexivity|].
  destruct (_ || _); destruct (PrimFloat.get_sign v); right; reflexivity.
Qed.

Variable Math_acos : float -> float.
Variable Math_atan2 : float -> float -> float.

(** X19: the back angle a deadlift result reports is NaN or lies between
    0 and 180 degrees, for any [Math.atan2] with results from [-pi] to
    [pi]. *)
Theorem reported_back_angle_range
    (kp : gmap string KeyPoint) (ts : float) (g : Math.rng) :
  atan2InRange Math_atan2 ->
  hasLandmarks kp (requiredLandmarks "deadlift") = true ->
  exists r angle,
    FormAnalyzer.analyze Math_acos Math_atan2 "deadlift"
      (Some (frame kp ts)) g = (Some r, g)
    /\ metric "backAngle" r = Some angle
    /\ (PrimFloat.is_nan angle = true \/ inDegrees angle = true).
Proof.
  intros A H.
  landmark H "leftShoulder" ls Hls. landmark H "rightShoulder" rs Hrs.
  landmark H "leftHip" lh Hlh. landmark H "rightHip" rh Hrh.
  landmark H "leftKnee" lk Hlk. landmark H "rightKnee" rk Hrk.
  rewrite analyze_by_rule. unfold analyzeByRule, deadliftByRule.
  cbn [String.eqb Ascii.eqb Bool.eqb].
  rewrite Hls, Hrs, Hlh, Hrh, Hlk, Hrk.
  do 2 eexists. split; [reflexivity|].
  split; [unfold metric, assemble; cbn [details mbind option_bind];
          apply deadlift_details|].
  unfold backAngleOf.
  match goal with |- context [Math_atan2 ?v ?u] =>
    destruct (A v u) as [N|R]; [left|right]
  end.
  - rewrite (Binary64.is_nan_nan _ N). reflexivity.
  - apply andb_true_iff in R as [Lo Hi].
    apply Binary64Ops.abs_degrees_range; assumption.
Qed.

End BackAngle.

(** ** The reported metrics *)

Section Metrics.

Variable Math_acos : float -> float.
Variable Math_atan2 : float -> float -> float.

(** X24: the squat evaluator requires the right ankle and never reads
    its position: moving an observed right ankle anywhere changes
    nothing in the result. *)
Theorem squat_never_reads_right_ankle_position
    (kp : gmap string KeyPoint) (ts : float) (g : Math.rng)
    (rightAnkle moved : KeyPoint) :
  kp !! "rightAnkle" = Some rightAnkle ->
  FormAnalyzer.analyze Math_acos Math_atan2 "squat"
    (Some (frame (<["rightAnkle" := moved]> kp) ts)) g
  = FormAnalyzer.analyze Math_acos Math_atan2 "squat"
      (Some (frame kp ts)) g.
Proof.
  intros H. rewrite !analyze_by_rule. unfold analyzeByRule.
  cbn [String.eqb Ascii.eqb Bool.eqb]. unfold squatByRule.
  rewrite lookup_insert_eq, H.
  rewrite !(lookup_insert_ne _ "rightAnkle") by discriminate.
  reflexivity.
Qed.

(** The key of a reported metric that is present in a details mapping
    of four entries. *)
Lemma four_details (a b c d name : string) (va vb vc vd v : float) :
  (<[a := va]> (<[b := vb]> (<[c := vc]> (<[d := vd]>
     (∅ : gmap string float))))) !! name = Some v ->
  (name = a /\ v = va) \/ (name = b /\ v = vb)
  \/ (name = c /\ v = vc) \/ (name = d /\ v = vd).
Proof.
  intros H.
  destruct (decide (a = name)) as [<-|Na].
  { rewrite lookup_insert_eq in H. left. split; congruence. }
  rewrite lookup_insert_ne in H by exact Na.
  destruct (decide (b = name)) as [<-|Nb].
  { rewrite lookup_insert_eq in H. right; left. split; congruence. }
  rewrite lookup_insert_ne in H by exact Nb.
  destruct (decide (c = name)) as [<-|Nc].
  { rewrite lookup_insert_eq in H. right; right; left. split; congruence. }
  rewrite lookup_insert_ne in H by exact Nc.
  destruct (decide (d = name)) as [<-|Nd].
  { rewrite lookup_insert_eq in H. right; right; right. split; congruence. }
  rewrite lookup_insert_ne in H by exact Nd.
  rewrite lookup_empty in H. discriminate H.
Qed.

Lemma three_details (a b c name : string) (va vb vc v : float) :
  (<[a := va]> (<[b := vb]> (<[c := vc]>
     (∅ : gmap string float)))) !! name = Some v ->
  (name = a /\ v = va) \/ (name = b /\ v = vb) \/ (name = c /\ v = vc).
Proof.
  intros H.
  destruct (decide (a = name)) as [<-|Na].
  { rewrite lookup_insert_eq in H. left. split; congruence. }
  rewrite lookup_insert_ne in H by exact Na.
  destruct (decide (b = name)) as [<-|Nb].
  { rewrite lookup_insert_eq in H. right; left. split; congruence. }
  rewrite lookup_insert_ne in H by exact Nb.
  destruct (decide (c = name)) as [<-|Nc].
  { rewrite lookup_insert_eq in H. right; right. split; congruence. }
  rewrite lookup_insert_ne in H by exact Nc.
  rewrite lookup_empty in H. discriminate H.
Qed.

Lemma two_details (a b name : string) (va vb v : float) :
  (<[a := va]> (<[b := vb]> (∅ : gmap string float))) !! name = Some v ->
  (name = a /\ v = va) \/ (name = b /\ v = vb).
Proof.
  intros H.
  destruct (decide (a = name)) as [<-|Na].
  { rewrite lookup_insert_eq in H. left. split; congruence. }
  rewrite lookup_insert_ne in H by exact Na.
  destruct (decide (b = name)) as [<-|Nb].
  { rewrite lookup_insert_eq in H. right. split; congruence. }
  rewrite lookup_insert_ne in H by exact Nb.
  rewrite lookup_empty in H. discriminate H.
Qed.

(** Decides the rules of a result whose metric [v] is NaN. *)
Ltac pass_with_nan N :=
  apply Binary64.is_nan_nan in N;
  unfold hardMessage, goodMessage;
  cbn [String.eqb Ascii.eqb Bool.eqb];
  unfold assemble, tierMessages, singleTierMessages, skipped, crosses;
  cbn [errors feedback];
  rewrite ?N;
  change (nan <? 0.1) with false; change (nan <? 0.3) with false;
  change (nan <? 0.7) with false; change (nan <? 0.85) with false;
  change (0.1 <? nan) with false; change (0.05 <? nan) with false;
  change (0.15 <? nan) with false; change (nan <? 0.15) with false;
  change (100 <? nan) with false; change (85 <? nan) with false;
  change (0.08 <? nan) with false; change (0.04 <? nan) with false;
  change (30 <? nan) with false; change (15 <? nan) with false;
  cbv iota;
  split_branches;
  (split; [simpl; intuition discriminate
          |intros m I; simpl in I; simpl; intuition (subst; auto)]).

(** X23: a reported metric that is NaN passes its rule.  The error of
    the rule is not raised, and the positive feedback of the rule, where
    it has one, is given: geometry that cannot be measured is scored as
    good form. *)
Theorem nan_metric_passes_its_rule
    (movement : string) (kp : gmap string KeyPoint) (ts : float)
    (g : Math.rng) :
  In movement supported ->
  hasLandmarks kp (requiredLandmarks movement) = true ->
  exists r g',
    FormAnalyzer.analyze Math_acos Math_atan2 movement (Some (frame kp ts)) g
      = (Some r, g')
    /\ forall name v,
         metric name r = Some v -> PrimFloat.is_nan v = true ->
         ~ In (hardMessage movement name) (errors r)
         /\ (forall m, In m (goodMessage movement name) ->
               In m (feedback r)).
Proof.
  intros S H.
  rewrite analyze_by_rule. unfold analyzeByRule.
  destruct S as [<-|[<-|[<-|[]]]]; cbn [String.eqb Ascii.eqb Bool.eqb].
  - landmark H "leftHip" lh Hlh. landmark H "rightHip" rh Hrh.
    landmark H "leftKnee" lk Hlk. landmark H "rightKnee" rk Hrk.
    landmark H "leftAnkle" la Hla. landmark H "rightAnkle" ra Hra.
    unfold squatByRule. rewrite Hlh, Hrh, Hlk, Hrk, Hla, Hra.
    do 2 eexists. split; [reflexivity|]. intros name v M N.
    unfold metric, assemble in M. cbn [details mbind option_bind] in M.
    apply four_details in M as [[-> ->]|[[-> ->]|[[-> ->]|[-> ->]]]];
      destruct (kp !! "leftShoulder"), (kp !! "rightShoulder");
      cbn [default from_option id] in N;
      try (change (PrimFloat.is_nan 0) with false in N; discriminate N);
      pass_with_nan N.
  - landmark H "leftShoulder" ls Hls. landmark H "rightShoulder" rs Hrs.
    landmark H "leftElbow" el Hel. landmark H "rightElbow" er Her.
    landmark H "leftWrist" lw Hlw. landmark H "rightWrist" rw Hrw.
    unfold benchByRule. rewrite Hls, Hrs, Hel, Her, Hlw, Hrw.
    do 2 eexists. split; [reflexivity|]. intros name v M N.
    unfold metric, assemble in M. cbn [details mbind option_bind] in M.
    apply three_details in M as [[-> ->]|[[-> ->]|[-> ->]]];
      pass_with_nan N.
  - landmark H "leftShoulder" ls Hls. landmark H "rightShoulder" rs Hrs.
    landmark H "leftHip" lh Hlh. landmark H "rightHip" rh Hrh.
    landmark H "leftKnee" lk Hlk. landmark H "rightKnee" rk Hrk.
    unfold deadliftByRule. rewrite Hls, Hrs, Hlh, Hrh, Hlk, Hrk.
    do 2 eexists. split; [reflexivity|]. intros name v M N.
    unfold metric, assemble in M. cbn [details mbind option_bind] in M.
    apply two_details in M as [[-> ->]|[-> ->]];
      destruct (kp !! "leftAnkle"), (kp !! "rightAnkle");
      pass_with_nan N.
Qed.

End Metrics.

(** ** The signs of the reported metrics *)

Module Signs.

Lemma plus_notNegative (v : spec_float) : SFplus v -> SFnotNegative v.
Proof. destruct v as [[]|[]| |[] m e]; simpl; tauto. Qed.

Lemma notNegative_leb (v : float) :
  SFnotNegative (Prim2SF v) ->
  PrimFloat.is_nan v = true \/ (0 <=? v) = true.
Proof.
  intros H. destruct (PrimFloat.is_nan v) eqn:N; [left; reflexivity|right].
  apply Binary64.is_nan_false in N. rewrite leb_spec.
  change (Prim2SF 0) with (S754_zero false).
  destruct (Prim2SF v) as [[]|[]| |[] m e]; try contradiction;
    reflexivity.
Qed.

Lemma leb_notNegative (v : float) :
  (0 <=? v) = true -> SFnotNegative (Prim2SF v).
Proof.
  rewrite leb_spec. change (Prim2SF 0) with (S754_zero false).
  destruct (Prim2SF v) as [[]|[]| |[] m e]; try discriminate; intros _;
    exact I.
Qed.

Lemma binary_round_aux_plus (m e : Z) (l : location) :
  (0 <= m)%Z -> SFplus (binary_round_aux prec emax false m e l).
Proof.
  intros H. pose proof (Binary64.binary_round_aux_nonneg m e l H) as N.
  unfold binary_round_aux in *.
  destruct (shr_fexp prec emax m e l) as [r1 e1].
  destruct (shr_fexp prec emax _ e1 loc_Exact) as [r2 e2].
  destruct (shr_m r2); [exact I| |contradiction].
  destruct (Z.leb _ _); exact I.
Qed.

Lemma binary_round_plus (p : positive) (e : Z) :
  SFplus (binary_round prec emax false p e).
Proof.
  unfold binary_round.
  destruct (shl_align _ _ _) as [mz ez].
  apply binary_round_aux_plus. lia.
Qed.

Lemma abs_plus (v : float) : SFplus (Prim2SF (Math.abs v)).
Proof.
  unfold Math.abs. rewrite abs_spec.
  destruct (Prim2SF v) as [[]|[]| |[] m e]; exact I.
Qed.

Lemma pow2_plus (v : float) : SFplus (Prim2SF (Math.pow2 v)).
Proof.
  unfold Math.pow2. rewrite mul_spec.
  destruct (Prim2SF v) as [[]|[]| |[] m e]; try exact I;
    unfold SF64mul, SFmul; cbn [xorb]; apply binary_round_aux_plus; lia.
Qed.

Lemma add_plus (a b : float) :
  SFplus (Prim2SF a) -> SFplus (Prim2SF b) -> SFplus (Prim2SF (a + b)).
Proof.
  rewrite add_spec.
  destruct (Prim2SF a) as [[]|[]| |[] ma ea]; try contradiction; intros _;
    destruct (Prim2SF b) as [[]|[]| |[] mb eb]; try contradiction; intros _;
    try exact I.
  unfold SF64add, SFadd. cbn [cond_Zopp]. cbv zeta.
  destruct (shl_align ma ea _) as [ma' ea'].
  destruct (shl_align mb eb _) as [mb' eb']. cbn [fst].
  change (Zpos ma' + Zpos mb')%Z with (Zpos (ma' + mb')).
  apply binary_round_plus.
Qed.

Lemma sqrt_plus (a : float) :
  SFplus (Prim2SF a) -> SFplus (Prim2SF (Math.sqrt a)).
Proof.
  unfold Math.sqrt. rewrite sqrt_spec.
  destruct (Prim2SF a) as [[]|[]| |[] m e]; try contradiction; intros _;
    try exact I.
  unfold SF64sqrt, SFsqrt, SFsqrt_core_binary.
  set (s := (e - 2 * _)%Z).
  set (m' := match s with Zpos _ => _ | Z0 => _ | Zneg _ => _ end).
  assert (P : (0 <= m')%Z).
  { subst m'. destruct s; try lia. apply Z.shiftl_nonneg. lia. }
  pose proof (Z.sqrtrem_spec m' P) as Q.
  destruct (Z.sqrtrem m') as [q r].
  apply binary_round_aux_plus. nia.
Qed.

Lemma segmentLength_plus (p q : KeyPoint) :
  SFplus (Prim2SF (segmentLength p q)).
Proof.
  unfold segmentLength. apply sqrt_plus, add_plus; apply pow2_plus.
Qed.

Lemma max_plus (a b : float) :
  SFplus (Prim2SF a) -> SFplus (Prim2SF b) ->
  SFplus (Prim2SF (Math.max a b)).
Proof.
  intros A B. unfold Math.max.
  destruct (_ || _); [exact I|].
  destruct (a <? b); [exact B|].
  destruct (b <? a); [exact A|].
  destruct (PrimFloat.get_sign a); assumption.
Qed.

Lemma div_plus (a b : float) :
  SFplus (Prim2SF a) -> SFplus (Prim2SF b) -> SFplus (Prim2SF (a / b)).
Proof.
  rewrite div_spec.
  destruct (Prim2SF a) as [[]|[]| |[] ma ea]; try contradiction; intros _;
    destruct (Prim2SF b) as [[]|[]| |[] mb eb]; try contradiction; intros _;
    try exact I.
  unfold SF64div, SFdiv.
  pose proof (Binary64Ops.SFdiv_core_binary_nonneg ma mb ea eb) as N.
  destruct (SFdiv_core_binary prec emax (Zpos ma) ea (Zpos mb) eb)
    as [[q e'] l]. cbn [fst] in N. cbn [xorb].
  apply binary_round_aux_plus. exact N.
Qed.

Lemma asymmetryOf_plus (l r : float) :
  SFplus (Prim2SF l) -> SFplus (Prim2SF r) ->
  SFplus (Prim2SF (asymmetryOf l r)).
Proof.
  intros L R. unfold asymmetryOf.
  apply div_plus; [apply abs_plus|apply max_plus; assumption].
Qed.

Lemma add_notNegative (a b : float) :
  SFnotNegative (Prim2SF a) -> SFnotNegative (Prim2SF b) ->
  SFnotNegative (Prim2SF (a + b)).
Proof.
  rewrite add_spec.
  destruct (Prim2SF a) as [[]|[]| |[] ma ea]; try contradiction; intros _;
    destruct (Prim2SF b) as [[]|[]| |[] mb eb]; try contradiction; intros _;
    try exact I.
  unfold SF64add, SFadd. cbn [cond_Zopp]. cbv zeta.
  destruct (shl_align ma ea _) as [ma' ea'].
  destruct (shl_align mb eb _) as [mb' eb']. cbn [fst].
  change (Zpos ma' + Zpos mb')%Z with (Zpos (ma' + mb')).
  apply plus_notNegative, binary_round_plus.
Qed.

Lemma half_notNegative (a : float) :
  SFnotNegative (Prim2SF a) -> SFnotNegative (Prim2SF (a / 2)).
Proof.
  rewrite div_spec.
  change (Prim2SF 2) with (S754_finite false 4503599627370496 (-51)).
  destruct (Prim2SF a) as [[]|[]| |[] ma ea]; try contradiction; intros _;
    try exact I.
  unfold SF64div, SFdiv.
  pose proof (Binary64Ops.SFdiv_core_binary_nonneg ma 4503599627370496
                ea (-51)) as N.
  destruct (SFdiv_core_binary prec emax (Zpos ma) ea _ _) as [[q e'] l].
  cbn [fst] in N. cbn [xorb].
  apply plus_notNegative, binary_round_aux_plus. exact N.
Qed.

End Signs.

Section MetricSigns.

Variable Math_acos : float -> float.
Variable Math_atan2 : float -> float -> float.

(** An angle at a vertex is NaN or not negative. *)
Lemma calculateAngle_notNegative (p1 p2 p3 : KeyPoint) :
  acosConforms Math_acos ->
  SFnotNegative (Prim2SF (FormAnalyzer.calculateAngle Math_acos p1 p2 p3)).
Proof.
  intros A. unfold FormAnalyzer.calculateAngle. cbv zeta.
  match goal with |- context [Math_acos ?c] => generalize c end.
  intros c. destruct (acos_range _ A c) as [N|R].
  - rewrite (Binary64.is_nan_nan _ N). exact I.
  - apply andb_true_iff in R as [R0 R1].
    pose proof (Binary64.degrees_range _ R0 R1) as D.
    apply andb_true_iff in D as [D _].
    apply Signs.leb_notNegative. exact D.
Qed.

(** X25: of the metrics a result reports, only the depth ratio of the
    squat can be negative.  Every other one is NaN, a zero or positive:
    a ratio or a magnitude, or an average of elbow angles for any
    [Math.acos] with results from 0 to [Math.PI]. *)
Theorem reported_metrics_are_not_negative
    (movement : string) (kp : gmap string KeyPoint) (ts : float)
    (g : Math.rng) :
  acosConforms Math_acos ->
  In movement supported ->
  hasLandmarks kp (requiredLandmarks movement) = true ->
  exists r g',
    FormAnalyzer.analyze Math_acos Math_atan2 movement (Some (frame kp ts)) g
      = (Some r, g')
    /\ forall name v,
         metric name r = Some v -> name <> "depth" ->
         PrimFloat.is_nan v = true \/ (0 <=? v) = true.
Proof.
  intros A S H.
  rewrite analyze_by_rule. unfold analyzeByRule.
  destruct S as [<-|[<-|[<-|[]]]]; cbn [String.eqb Ascii.eqb Bool.eqb].
  - landmark H "leftHip" lh Hlh. landmark H "rightHip" rh Hrh.
    landmark H "leftKnee" lk Hlk. landmark H "rightKnee" rk Hrk.
    landmark H "leftAnkle" la Hla. landmark H "rightAnkle" ra Hra.
    unfold squatByRule. rewrite Hlh, Hrh, Hlk, Hrk, Hla, Hra.
    do 2 eexists. split; [reflexivity|]. intros name v M D.
    unfold metric, assemble in M. cbn [details mbind option_bind] in M.
    apply Signs.notNegative_leb, Signs.plus_notNegative.
    apply four_details in M as [[-> ->]|[[-> ->]|[[-> ->]|[-> ->]]]].
    + destruct D. reflexivity.
    + apply Signs.div_plus; apply Signs.abs_plus.
    + destruct (kp !! "leftShoulder"), (kp !! "rightShoulder");
        cbn [default from_option id]; try exact I; apply Signs.abs_plus.
    + apply Signs.asymmetryOf_plus; apply Signs.segmentLength_plus.
  - landmark H "leftShoulder" ls Hls. landmark H "rightShoulder" rs Hrs.
    landmark H "leftElbow" el Hel. landmark H "rightElbow" er Her.
    landmark H "leftWrist" lw Hlw. landmark H "rightWrist" rw Hrw.
    unfold benchByRule. rewrite Hls, Hrs, Hel, Her, Hlw, Hrw.
    do 2 eexists. split; [reflexivity|]. intros name v M D.
    unfold metric, assemble in M. cbn [details mbind option_bind] in M.
    apply Signs.notNegative_leb.
    apply three_details in M as [[-> ->]|[[-> ->]|[-> ->]]].
    + apply Signs.half_notNegative, Signs.add_notNegative;
        apply calculateAngle_notNegative; exact A.
    + apply Signs.plus_notNegative, Signs.abs_plus.
    + apply Signs.plus_notNegative, Signs.asymmetryOf_plus;
        apply Signs.segmentLength_plus.
  - landmark H "leftShoulder" ls Hls. landmark H "rightShoulder" rs Hrs.
    landmark H "leftHip" lh Hlh. landmark H "rightHip" rh Hrh.
    landmark H "leftKnee" lk Hlk. landmark H "rightKnee" rk Hrk.
    unfold deadliftByRule. rewrite Hls, Hrs, Hlh, Hrh, Hlk, Hrk.
    do 2 eexists. split; [reflexivity|]. intros name v M D.
    unfold metric, assemble in M. cbn [details mbind option_bind] in M.
    apply Signs.notNegative_leb, Signs.plus_notNegative.
    apply two_details in M as [[-> ->]|[-> ->]].
    + apply Signs.abs_plus.
    + apply Signs.sqrt_plus, Signs.add_plus; apply Signs.pow2_plus.
Qed.

End MetricSigns.

(** ** Bounds of the reported ratios and averages *)

Module Bounds.

Import Binary64.
Local Open Scope Z_scope.

(** The rank of a rounded result whose mantissa did not carry, up to
    the largest exponent. *)
Lemma final_rank_top (s : bool) (m' e1 : Z) :
  0 <= m' < 2 ^ 53 -> -1074 <= e1 <= 971 ->
  rank (let '(mrs'', e'') := shr_fexp prec emax m' e1 loc_Exact in
        match shr_m mrs'' with
        | Z0 => S754_zero s
        | Zpos m => if e'' <=? emax - prec then S754_finite s m e''
                    else S754_infinity s
        | Zneg _ => S754_nan
        end)
  = if m' =? 0 then 0 else (e1 + 1075) * 2 ^ 52 + m'.
Proof.
  intros Hm He.
  assert (D : Zdigits2 m' <= 53) by (apply Zdigits2_le_53; lia).
  rewrite shr_fexp_spec. cbv zeta. rewrite fexp_spec.
  destruct (Z.ltb_spec e1 (Z.max (Zdigits2 m' + e1 - 53) (-1074))) as [H|H];
    [lia|].
  rewrite shr_record_of_loc_m.
  destruct m' as [|p|p]; [reflexivity| |lia].
  destruct (Z.leb_spec e1 (emax - prec)) as [L|L];
    [|unfold emax, prec in L; lia].
  reflexivity.
Qed.

(** Shifting an exact multiple of a power of two loses nothing. *)
Lemma iter_shr_1_exact (k : positive) (c : Z) :
  0 <= c ->
  SpecFloat.iter_pos shr_1 k (shr_record_of_loc (c * 2 ^ Zpos k) loc_Exact)
  = shr_record_of_loc c loc_Exact.
Proof.
  rewrite iter_pos_iter. revert c.
  assert (One : forall c, 0 <= c ->
            shr_1 (shr_record_of_loc (c * 2) loc_Exact)
            = shr_record_of_loc c loc_Exact).
  { intros c H. rewrite shr_1_spec by (simpl; lia). simpl.
    rewrite Z.div2_div, Z.div_mul, Z.odd_mul by lia.
    simpl Z.odd. rewrite andb_false_r. reflexivity. }
  induction k as [|k IH] using Pos.peano_ind; intros c H.
  - simpl Pos.iter. change (2 ^ 1) with 2. apply One, H.
  - rewrite Pos.iter_succ.
    replace (c * 2 ^ Zpos (Pos.succ k)) with (c * 2 * 2 ^ Zpos k).
    + rewrite IH by lia. apply One, H.
    + rewrite Pos2Z.inj_succ, Z.pow_succ_r by lia. ring.
Qed.

(** A value that is at most a binary64 number rounds to a number that
    is at most that number. *)
Lemma round_below (m e : Z) (l : location) (c : positive) (d : Z) :
  0 <= m -> canonical (Zpos c) d -> d <= 971 -> e <= d ->
  code (shr_record_of_loc m l) <= 4 * (Zpos c * 2 ^ (d - e)) ->
  rank (binary_round_aux prec emax false m e l)
  <= (d + 1075) * 2 ^ 52 + Zpos c.
Proof.
  intros H0 C Hd He V.
  assert (P : 0 < 2 ^ (d - e)) by (apply Z.pow_pos_nonneg; lia).
  assert (Hm : m <= Zpos c * 2 ^ (d - e))
    by (rewrite code_of_loc in V; destruct l as [|[]]; lia).
  destruct (shr_fexp_bounds m e l H0) as (B & E1 & T1 & _).
  pose proof (round_nearest_even_bounds
    (shr_m (fst (shr_fexp prec emax m e l)))
    (loc_of_shr_record (fst (shr_fexp prec emax m e l)))) as R.
  assert (Td : fexp prec emax (Zdigits2 m + e) <= d).
  { rewrite fexp_spec. destruct C as ([c0 c1] & cd & _).
    destruct (Zdigits2_bounds m H0) as (D & U & L).
    apply Z.max_lub; [|lia].
    destruct (Z.eq_dec m 0) as [->|N]; [simpl; lia|].
    specialize (L ltac:(lia)).
    assert (m < 2 ^ (53 + (d - e))) by (rewrite Z.pow_add_r by lia; nia).
    destruct (Z.le_gt_cases (Zdigits2 m + e - 53) d) as [?|G];
      [assumption|exfalso].
    assert (2 ^ (53 + (d - e)) <= 2 ^ (Zdigits2 m - 1))
      by (apply Z.pow_le_mono_r; lia).
    lia. }
  assert (M : snd (shr_fexp prec emax m e l) = d ->
              round_nearest_even
                (shr_m (fst (shr_fexp prec emax m e l)))
                (loc_of_shr_record (fst (shr_fexp prec emax m e l)))
              <= Zpos c).
  { intros Ed.
    change (Zpos c) with
      (round_nearest_even
         (shr_m (shr_record_of_loc (Zpos c) loc_Exact))
         (loc_of_shr_record (shr_record_of_loc (Zpos c) loc_Exact))).
    apply round_nearest_even_mono.
    revert Ed. rewrite shr_fexp_spec. cbv zeta.
    destruct (Z.ltb_spec e (fexp prec emax (Zdigits2 m + e))) as [S|S];
      cbn [fst snd]; intros Ed.
    - rewrite Ed.
      rewrite <- (iter_shr_1_exact (Z.to_pos (d - e)) (Zpos c)) by lia.
      apply iter_shr_1_mono; [rewrite shr_record_of_loc_m; exact H0|].
      rewrite Z2Pos.id by lia. rewrite (code_of_loc _ loc_Exact). lia.
    - subst d. rewrite Z.sub_diag, Z.mul_1_r in V.
      rewrite (code_of_loc _ loc_Exact). lia. }
  unfold binary_round_aux.
  destruct (shr_fexp prec emax m e l) as [r1 e1]. cbn [fst snd] in *.
  change (2 ^ 53) with 9007199254740992 in *.
  destruct (Z.eq_dec e1 d) as [E|E].
  - specialize (M E).
    rewrite final_rank_top
      by (change (2 ^ 53) with 9007199254740992;
          destruct C as ([? ?] & _); lia).
    destruct (Z.eqb_spec
                (round_nearest_even (shr_m r1) (loc_of_shr_record r1)) 0);
      [destruct C as ([? ?] & ? & _)|]; lia.
  - rewrite final_rank by (change (2 ^ 53) with 9007199254740992; lia).
    pose proof (canonical_normal _ _ C ltac:(lia)) as Nc.
    change (2 ^ 52) with 4503599627370496 in *.
    destruct (Z.eqb_spec
                (round_nearest_even (shr_m r1) (loc_of_shr_record r1)) 0);
      lia.
Qed.

(** The quotient of a positive number and one that is no smaller is at
    most one. *)
Lemma SFdiv_le_one (ma mb : positive) (ea eb : Z) :
  valid_binary (S754_finite false ma ea) = true ->
  valid_binary (S754_finite false mb eb) = true ->
  ea < eb \/ (ea = eb /\ Zpos ma <= Zpos mb) ->
  rank (SF64div (S754_finite false ma ea) (S754_finite false mb eb))
  <= (-52 + 1075) * 2 ^ 52 + Zpos 4503599627370496.
Proof.
  intros Va Vb L.
  pose proof (valid_finite _ _ _ Va) as (Ea & Da & Na).
  pose proof (valid_finite _ _ _ Vb) as (Eb & Db & Nb).
  pose proof (digits2_bounds ma) as [La Ua].
  pose proof (digits2_bounds mb) as [Lb Ub].
  assert (Ua' : Zpos ma < 2 ^ 53).
  { apply Z.lt_le_trans with (1 := Ua). apply Z.pow_le_mono_r; lia. }
  unfold SF64div, SFdiv, SFdiv_core_binary. cbn [xorb Zdigits2].
  set (e' := Z.min _ (ea - eb)).
  assert (E' : e' <= -53 /\ e' <= ea - eb).
  { subst e'. rewrite fexp_spec. split; [|lia].
    destruct L as [L|[-> L]].
    - specialize (Nb ltac:(lia)). lia.
    - pose proof (Zdigits2_mono (Zpos ma) (Zpos mb) ltac:(lia)) as D.
      cbn [Zdigits2] in D. lia. }
  destruct E' as [E53 Es].
  set (s := ea - eb - e').
  assert (S0 : 0 <= s) by (subst s; lia).
  set (m' := match s with Z0 => _ | Zpos _ => _ | Zneg _ => _ end).
  assert (EN : m' = Zpos ma * 2 ^ s).
  { subst m'. destruct s as [|p|p] eqn:E; try lia.
    rewrite Z.shiftl_mul_pow2 by lia. reflexivity. }
  assert (Ps : 0 < 2 ^ s) by (apply Z.pow_pos_nonneg; lia).
  assert (W : 2 ^ 52 * 2 ^ (-52 - e') = 2 ^ (- e')).
  { rewrite <- Z.pow_add_r by lia. f_equal. lia. }
  assert (Pw : 0 < 2 ^ (- e')) by (apply Z.pow_pos_nonneg; lia).
  assert (Q : m' <= Zpos mb * 2 ^ (- e')).
  { rewrite EN. destruct L as [L|[-> L]].
    - replace (- e') with (s + (eb - ea)) by (subst s; lia).
      rewrite Z.pow_add_r by lia.
      assert (2 ^ 1 <= 2 ^ (eb - ea)) by (apply Z.pow_le_mono_r; lia).
      specialize (Nb ltac:(lia)). rewrite Nb in Lb.
      change (2 ^ (53 - 1)) with 4503599627370496 in Lb.
      change (2 ^ 53) with 9007199254740992 in Ua'.
      change (2 ^ 1) with 2 in *.
      transitivity (Zpos mb * (2 ^ s * 2)).
      + assert (Zpos ma <= Zpos mb * 2) by lia.
        rewrite (Z.mul_comm (2 ^ s) 2), Z.mul_assoc.
        apply Z.mul_le_mono_nonneg_r; lia.
      + apply Z.mul_le_mono_nonneg_l; [lia|].
        apply Z.mul_le_mono_nonneg_l; lia.
    - replace s with (- e') by (subst s; lia).
      apply Z.mul_le_mono_nonneg_r; lia. }
  pose proof (Z.div_eucl_eq m' (Zpos mb) ltac:(lia)) as E.
  pose proof (Z.mod_pos_bound m' (Zpos mb) ltac:(lia)) as B.
  unfold Z.modulo in B.
  destruct (Z.div_eucl m' (Zpos mb)) as [q r].
  apply round_below; try lia.
  - nia.
  - apply (canonical_bottom (-52)). lia.
  - change (Zpos 4503599627370496) with (2 ^ 52). rewrite W.
    rewrite code_of_loc.
    assert (Qw : q <= 2 ^ (- e')) by nia.
    destruct (Z.eq_dec q (2 ^ (- e'))) as [Eq|Nq].
    + assert (r = 0) by nia. subst r.
      unfold new_location, new_location_even, new_location_odd.
      destruct (Z.even _); simpl; lia.
    + destruct (new_location _ _) as [|[]]; lia.
Qed.

Lemma SFdiv_nonneg (ma mb : positive) (ea eb : Z) :
  SFnonneg (SF64div (S754_finite false ma ea) (S754_finite false mb eb)).
Proof.
  unfold SF64div, SFdiv.
  pose proof (Binary64Ops.SFdiv_core_binary_nonneg ma mb ea eb) as N.
  destruct (SFdiv_core_binary prec emax (Zpos ma) ea (Zpos mb) eb)
    as [[q e'] l]. cbn [fst] in N. cbn [xorb].
  apply binary_round_aux_nonneg. exact N.
Qed.

Lemma shl_align_fst_min (m : positive) (e e' : Z) :
  Zpos (fst (shl_align m e e')) = Zpos m * 2 ^ (e - Z.min e e').
Proof.
  destruct (Z.le_gt_cases e' e) as [H|H].
  - rewrite shl_align_fst by lia. rewrite Z.min_r by lia. reflexivity.
  - unfold shl_align. destruct (e' - e) as [|d|d] eqn:E; try lia.
    cbn [fst]. rewrite Z.min_l, Z.sub_diag by lia. lia.
Qed.

(** The difference of a positive number and one that is no larger is
    not negative and at most the former. *)
Lemma SFsub_le_left (ml mr : positive) (el er : Z) :
  valid_binary (S754_finite false ml el) = true ->
  valid_binary (S754_finite false mr er) = true ->
  er < el \/ (er = el /\ Zpos mr <= Zpos ml) ->
  SFnonneg (SF64sub (S754_finite false ml el) (S754_finite false mr er))
  /\ rank (SF64sub (S754_finite false ml el) (S754_finite false mr er))
     <= (el + 1075) * 2 ^ 52 + Zpos ml.
Proof.
  intros Vl Vr L.
  pose proof (aligned_compare false false ml mr el er Vl Vr)
    as (_ & Hgt & Heq).
  cbv zeta in Hgt, Heq.
  pose proof (valid_canonical _ _ _ Vl) as C.
  pose proof (valid_finite _ _ _ Vl) as (El & _).
  unfold SF64sub, SFsub. cbn [cond_Zopp].
  pose proof (shl_align_fst ml el (Z.min el er) ltac:(lia)) as A.
  set (ez := Z.min el er) in *.
  set (va := Zpos (fst (shl_align ml el ez))) in *.
  set (vb := Zpos (fst (shl_align mr er ez))) in *.
  assert (D : 0 <= va - vb <= va).
  { assert (0 < vb) by (subst vb; lia).
    destruct L as [L|[E L]]; [specialize (Hgt L); lia|].
    destruct (Heq (eq_sym E)). lia. }
  destruct (va - vb) as [|p|p] eqn:Ep; [| |lia].
  - split; [exact I|]. simpl. destruct C as ([? ?] & ? & _). lia.
  - unfold binary_normalize, binary_round.
    pose proof (shl_align_fst_min p ez
                  (fexp prec emax (Zpos (digits2_pos p) + ez))) as F.
    pose proof (shl_align_snd p ez
                  (fexp prec emax (Zpos (digits2_pos p) + ez))) as S.
    destruct (shl_align p ez _) as [mz ez']. cbn [fst snd] in F, S.
    rewrite <- S in F.
    split; [apply binary_round_aux_nonneg; lia|].
    assert (Ez : ez' <= ez) by lia.
    apply round_below; try lia; [exact C|].
    rewrite (code_of_loc _ loc_Exact), F.
    replace (el - ez') with ((el - ez) + (ez - ez')) by lia.
    rewrite Z.pow_add_r by lia.
    assert (0 < 2 ^ (ez - ez')) by (apply Z.pow_pos_nonneg; lia).
    assert (Zpos p * 2 ^ (ez - ez')
            <= Zpos ml * 2 ^ (el - ez) * 2 ^ (ez - ez'))
      by (apply Z.mul_le_mono_nonneg_r; lia).
    lia.
Qed.

(** Two canonical numbers in order, aligned to a common exponent. *)
Lemma aligned_le (m1 e1 m2 e2 z : Z) :
  canonical m1 e1 -> canonical m2 e2 ->
  e1 < e2 \/ (e1 = e2 /\ m1 <= m2) -> z <= e1 ->
  m1 * 2 ^ (e1 - z) <= m2 * 2 ^ (e2 - z).
Proof.
  intros C1 C2 L Hz.
  assert (P : 0 < 2 ^ (e1 - z)) by (apply Z.pow_pos_nonneg; lia).
  destruct L as [L|[<- L]].
  - pose proof (canonical_normal _ _ C2) as N2.
    destruct C1 as ([_ U1] & E1 & _). specialize (N2 ltac:(lia)).
    replace (e2 - z) with ((e2 - e1) + (e1 - z)) by lia.
    rewrite Z.pow_add_r, Z.mul_assoc by lia.
    apply Z.mul_le_mono_nonneg_r; [lia|].
    assert (2 ^ 1 <= 2 ^ (e2 - e1)) by (apply Z.pow_le_mono_r; lia).
    change (2 ^ 1) with 2 in *.
    change (2 ^ 52) with 4503599627370496 in *.
    change (2 ^ 53) with 9007199254740992 in *. nia.
  - apply Z.mul_le_mono_nonneg_r; lia.
Qed.

(** The sum of two positive numbers that are at most a third one is at
    most twice the third. *)
Lemma SFadd_le_double (ma mb mc : positive) (ea eb ec : Z) :
  valid_binary (S754_finite false ma ea) = true ->
  valid_binary (S754_finite false mb eb) = true ->
  canonical (Zpos mc) ec -> canonical (Zpos mc) (ec + 1) -> ec <= 970 ->
  ea < ec \/ (ea = ec /\ Zpos ma <= Zpos mc) ->
  eb < ec \/ (eb = ec /\ Zpos mb <= Zpos mc) ->
  SFnonneg (SF64add (S754_finite false ma ea) (S754_finite false mb eb))
  /\ rank (SF64add (S754_finite false ma ea) (S754_finite false mb eb))
     <= (ec + 1 + 1075) * 2 ^ 52 + Zpos mc.
Proof.
  intros Va Vb C C' Hc La Lb.
  apply valid_canonical in Va, Vb.
  unfold SF64add, SFadd. cbn [cond_Zopp].
  set (ez := Z.min ea eb).
  pose proof (aligned_le _ _ _ _ ez Va C La ltac:(lia)) as A.
  pose proof (aligned_le _ _ _ _ ez Vb C Lb ltac:(lia)) as B.
  rewrite <- shl_align_fst in A, B by lia.
  destruct (shl_align ma ea ez) as [va ea'].
  destruct (shl_align mb eb ez) as [vb eb']. cbn [fst] in *.
  change (Zpos va + Zpos vb) with (Zpos (va + vb)).
  unfold binary_normalize, binary_round.
  pose proof (shl_align_fst_min (va + vb) ez
                (fexp prec emax (Zpos (digits2_pos (va + vb)) + ez))) as F.
  pose proof (shl_align_snd (va + vb) ez
                (fexp prec emax (Zpos (digits2_pos (va + vb)) + ez))) as S.
  destruct (shl_align (va + vb) ez _) as [mz ez']. cbn [fst snd] in F, S.
  rewrite <- S in F.
  split; [apply binary_round_aux_nonneg; lia|].
  assert (Ez : ez' <= ez) by lia.
  apply round_below; try lia; [exact C'|].
  rewrite (code_of_loc _ loc_Exact), F.
  replace (ec + 1 - ez') with (1 + (ec - ez) + (ez - ez')) by lia.
  rewrite !Z.pow_add_r by lia. change (2 ^ 1) with 2.
  assert (0 < 2 ^ (ez - ez')) by (apply Z.pow_pos_nonneg; lia).
  assert (Zpos (va + vb) * 2 ^ (ez - ez')
          <= 2 * (Zpos mc * 2 ^ (ec - ez)) * 2 ^ (ez - ez'))
    by (apply Z.mul_le_mono_nonneg_r; lia).
  lia.
Qed.

(** Half of a positive number that is at most twice a second one is at
    most the second. *)
Lemma SFhalf_le (mx mc : positive) (ex ec : Z) :
  valid_binary (S754_finite false mx ex) = true ->
  canonical (Zpos mc) ec -> canonical (Zpos mc) (ec + 1) -> ec <= 970 ->
  ex < ec + 1 \/ (ex = ec + 1 /\ Zpos mx <= Zpos mc) ->
  rank (SF64div (S754_finite false mx ex)
          (S754_finite false 4503599627370496 (-51)))
  <= (ec + 1075) * 2 ^ 52 + Zpos mc.
Proof.
  intros Vx C C' Hc L.
  pose proof (valid_finite _ _ _ Vx) as (Ex & Dx & _).
  apply valid_canonical in Vx.
  unfold SF64div, SFdiv, SFdiv_core_binary. cbn [xorb].
  change (Zdigits2 (Zpos 4503599627370496)) with 53. cbn [Zdigits2].
  set (e' := Z.min _ (ex - -51)).
  assert (E' : e' <= ec /\ e' <= ex + 51).
  { subst e'. rewrite fexp_spec. destruct C as (_ & ? & _). lia. }
  destruct E' as [Ec Es].
  set (s := ex - -51 - e').
  assert (S0 : 0 <= s) by (subst s; lia).
  set (m' := match s with Z0 => _ | Zpos _ => _ | Zneg _ => _ end).
  assert (EN : m' = Zpos mx * 2 ^ s).
  { subst m'. destruct s as [|p|p] eqn:E; try lia.
    rewrite Z.shiftl_mul_pow2 by lia. reflexivity. }
  assert (Q : m' <= Zpos mc * 2 ^ (ec - e') * 2 ^ 52).
  { rewrite EN.
    pose proof (aligned_le _ _ _ _ (e' - 51) Vx C' L ltac:(lia)) as A.
    replace (ex - (e' - 51)) with s in A by (subst s; lia).
    replace (ec + 1 - (e' - 51)) with ((ec - e') + 52) in A by lia.
    rewrite Z.pow_add_r, Z.mul_assoc in A by lia. exact A. }
  assert (Pk : 0 < 2 ^ (ec - e')) by (apply Z.pow_pos_nonneg; lia).
  pose proof (Z.div_eucl_eq m' (Zpos 4503599627370496) ltac:(lia)) as E.
  pose proof (Z.mod_pos_bound m' (Zpos 4503599627370496) ltac:(lia)) as B.
  unfold Z.modulo in B.
  destruct (Z.div_eucl m' (Zpos 4503599627370496)) as [q r].
  change (2 ^ 52) with 4503599627370496 in Q.
  assert (M0 : 0 <= m').
  { rewrite EN. apply Z.mul_nonneg_nonneg; [lia|].
    apply Z.pow_nonneg. lia. }
  apply round_below; try lia; [exact C|].
  rewrite code_of_loc.
  set (K := Zpos mc * 2 ^ (ec - e')) in *.
  assert (Qk : q <= K) by lia.
  destruct (Z.eq_dec q K) as [Eq|Nq].
  - assert (r = 0) by lia. subst r.
    unfold new_location, new_location_even, new_location_odd.
    destruct (Z.even _); simpl; lia.
  - destruct (new_location _ _) as [|[]]; lia.
Qed.

Local Close Scope Z_scope.
Local Open Scope float_scope.

Lemma ltb_leb (a b : float) : (a <? b) = true -> (a <=? b) = true.
Proof.
  rewrite ltb_spec, leb_spec. unfold SFltb, SFleb.
  destruct (SFcompare _ _) as [[]|]; congruence.
Qed.

(** Of two numbers with a clear sign bit, the larger is the maximum. *)
Lemma max_of_le (l r : float) :
  (r <=? l) = true -> SFplus (Prim2SF l) -> SFplus (Prim2SF r) ->
  Math.max l r = l.
Proof.
  intros L Pl Pr. destruct (Binary64Ops.leb_not_nan _ _ L) as [Nr Nl].
  unfold Math.max. rewrite Nl, Nr. cbn [orb].
  rewrite leb_spec in L. unfold SFleb in L.
  destruct (l <? r) eqn:L1.
  { exfalso. rewrite ltb_spec in L1. unfold SFltb in L1.
    rewrite (SFcompare_antisym (Prim2SF r) (Prim2SF l)) in L1.
    destruct (SFcompare (Prim2SF r) (Prim2SF l)) as [[]|]; simpl in *;
      congruence. }
  destruct (r <? l) eqn:L2; [reflexivity|].
  rewrite ltb_spec in L2. unfold SFltb in L2.
  destruct (SFcompare (Prim2SF r) (Prim2SF l)) as [[]|] eqn:C;
    try discriminate.
  apply SFcompare_Eq in C as [C|(s & t & Er & El)].
  - apply Prim2SF_inj in C. subst. destruct (PrimFloat.get_sign l); reflexivity.
  - rewrite (get_sign_zero _ _ El). rewrite El in Pl.
    destruct t; [contradiction|reflexivity].
Qed.

Lemma asymmetryOf_nan (l r : float) :
  PrimFloat.is_nan l = true \/ PrimFloat.is_nan r = true ->
  PrimFloat.is_nan (asymmetryOf l r) = true.
Proof.
  intros H. apply is_nan_spec. unfold asymmetryOf, Math.abs.
  rewrite div_spec, abs_spec, sub_spec.
  destruct H as [H|H]; apply is_nan_spec in H; rewrite H.
  - reflexivity.
  - destruct (Prim2SF l) as [[]|[]| |[] m e]; reflexivity.
Qed.

(** The relative difference of two numbers with a clear sign bit, the
    second no larger than the first, is NaN or at most one. *)
Lemma asymmetryOf_le_one (l r : float) :
  SFplus (Prim2SF l) -> SFplus (Prim2SF r) -> (r <=? l) = true ->
  PrimFloat.is_nan (asymmetryOf l r) = true \/ (asymmetryOf l r <=? 1) = true.
Proof.
  intros Pl Pr L.
  destruct (PrimFloat.is_nan (asymmetryOf l r)) eqn:N;
    [left; reflexivity|right].
  apply is_nan_false in N. revert N.
  unfold asymmetryOf, Math.abs. rewrite (max_of_le l r L Pl Pr).
  pose proof (Prim2SF_valid l) as Vl.
  pose proof (Prim2SF_valid r) as Vr.
  pose proof (Prim2SF_valid (l - r)) as Vs.
  pose proof (Prim2SF_valid (PrimFloat.abs (l - r) / l)) as Vq.
  revert Vq. rewrite leb_spec, div_spec, abs_spec.
  revert Vs. rewrite sub_spec.
  rewrite leb_spec in L.
  change (Prim2SF 1) with (S754_finite false 4503599627370496 (-52)).
  destruct (Prim2SF l) as [[]|[]| |[] ml el]; try contradiction;
    destruct (Prim2SF r) as [[]|[]| |[] mr er]; try contradiction;
    try discriminate L; intros Vs Vq N;
    try (exfalso; apply N; reflexivity).
  - (* a positive number and a zero *)
    cbn [SF64sub SFsub SFabs] in *.
    apply rank_leb; [exact Vq|reflexivity|apply SFdiv_nonneg|exact I|].
    apply SFdiv_le_one; [exact Vl|exact Vl|]. right. split; reflexivity || lia.
  - (* two positive numbers *)
    apply SFleb_finite_inv in L.
    destruct (SFsub_le_left ml mr el er Vl Vr L) as [Sn Sr].
    destruct (SF64sub _ _) as [s|[]| |[] ms es]; try contradiction.
    + reflexivity.
    + exfalso. apply valid_finite in Vl as (El & Dl & _).
      unfold rank in Sr.
      change (2 ^ 63)%Z with 9223372036854775808%Z in Sr.
      change (2 ^ 52)%Z with 4503599627370496%Z in Sr.
      assert (Zpos ml < 9007199254740992)%Z; [|lia].
      pose proof (digits2_bounds ml) as [_ U].
      apply Z.lt_le_trans with (1 := U).
      change 9007199254740992%Z with (2 ^ 53)%Z.
      apply Z.pow_le_mono_r; lia.
    + cbn [SFabs] in *.
      apply rank_leb; [exact Vq|reflexivity|apply SFdiv_nonneg|exact I|].
      apply SFdiv_le_one; [exact Vs|exact Vl|].
      apply rank_lex; [apply valid_canonical with (s := false); exact Vs
                      |apply valid_canonical with (s := false); exact Vl
                      |exact Sr].
Qed.

(** The relative difference of two lengths is NaN or a fraction of the
    larger one. *)
Lemma asymmetryOf_range (l r : float) :
  SFplus (Prim2SF l) -> SFplus (Prim2SF r) ->
  PrimFloat.is_nan (asymmetryOf l r) = true
  \/ (0 <=? asymmetryOf l r) && (asymmetryOf l r <=? 1) = true.
Proof.
  intros Pl Pr.
  destruct (PrimFloat.is_nan (asymmetryOf l r)) eqn:N;
    [left; reflexivity|right].
  apply andb_true_iff. split.
  - destruct (Signs.notNegative_leb (asymmetryOf l r)) as [H|H];
      [apply Signs.plus_notNegative, Signs.asymmetryOf_plus; assumption
      |congruence|exact H].
  - destruct (PrimFloat.is_nan l) eqn:Nl;
      [rewrite asymmetryOf_nan in N by (left; exact Nl); discriminate|].
    destruct (PrimFloat.is_nan r) eqn:Nr;
      [rewrite asymmetryOf_nan in N by (right; exact Nr); discriminate|].
    destruct (r <=? l) eqn:L.
    + destruct (asymmetryOf_le_one l r Pl Pr L) as [H|H]; congruence.
    + apply Binary64Ops.leb_false_ltb in L; [|assumption|assumption].
      apply ltb_leb in L. rewrite asymmetryOf_comm in N |- *.
      destruct (asymmetryOf_le_one r l Pr Pl L) as [H|H]; congruence.
Qed.

(** The average of two angles between 0 and 180 is between 0 and 180. *)
Lemma average_inDegrees (a b : float) :
  inDegrees a = true -> inDegrees b = true -> inDegrees ((a + b) / 2) = true.
Proof.
  unfold inDegrees. rewrite !andb_true_iff, !leb_spec.
  pose proof (Prim2SF_valid a) as Va.
  pose proof (Prim2SF_valid b) as Vb.
  pose proof (Prim2SF_valid (a + b)) as Vs.
  pose proof (Prim2SF_valid ((a + b) / 2)) as Vq.
  revert Vq. rewrite div_spec. revert Vs. rewrite add_spec.
  change (Prim2SF 0) with (S754_zero false).
  change (Prim2SF 2) with (S754_finite false 4503599627370496 (-51)).
  rewrite Prim2SF_180.
  pose proof (valid_canonical _ _ _ valid_180) as C.
  assert (C' : canonical (Zpos 6333186975989760) (-45 + 1))
    by (repeat split; try lia; left; reflexivity).
  assert (W : forall m e,
            (e < -45 \/ (e = -45 /\ Zpos m <= Zpos 6333186975989760))%Z ->
            (e < -45 + 1
             \/ (e = -45 + 1 /\ Zpos m <= Zpos 6333186975989760))%Z)
    by (intros; lia).
  destruct (Prim2SF a) as [sa|[]| |[] ma ea];
    try (intros Vs Vq [A0 A1]; discriminate A0 || discriminate A1);
    destruct (Prim2SF b) as [sb|[]| |[] mb eb];
    try (intros Vs Vq _ [B0 B1]; discriminate B0 || discriminate B1);
    intros Vs Vq [_ A1] [_ B1].
  - destruct sa, sb; split; reflexivity.
  - apply SFleb_finite_inv in B1. cbn [SF64add SFadd] in *.
    split; [apply SFleb_zero_nonneg, SFdiv_nonneg|].
    apply rank_leb; [exact Vq|exact valid_180|apply SFdiv_nonneg|exact I|].
    apply SFhalf_le; [exact Vb|exact C|exact C'|lia|apply W, B1].
  - apply SFleb_finite_inv in A1. cbn [SF64add SFadd] in *.
    split; [apply SFleb_zero_nonneg, SFdiv_nonneg|].
    apply rank_leb; [exact Vq|exact valid_180|apply SFdiv_nonneg|exact I|].
    apply SFhalf_le; [exact Va|exact C|exact C'|lia|apply W, A1].
  - apply SFleb_finite_inv in A1, B1.
    destruct (SFadd_le_double ma mb _ ea eb (-45) Va Vb C C' ltac:(lia) A1 B1)
      as [Sn Sr].
    destruct (SF64add _ _) as [s|[]| |[] ms es]; try contradiction.
    + destruct s; split; reflexivity.
    + split; [apply SFleb_zero_nonneg, SFdiv_nonneg|].
      apply rank_leb; [exact Vq|exact valid_180|apply SFdiv_nonneg|exact I|].
      apply SFhalf_le; [exact Vs|exact C|exact C'|lia|].
      apply rank_lex; [apply valid_canonical with (s := false); exact Vs
                      |exact C'|exact Sr].
Qed.

End Bounds.

Section MetricRanges.

Variable Math_acos : float -> float.
Variable Math_atan2 : float -> float -> float.

(** X26: the symmetry a result reports is NaN or a number from 0 to 1:
    the difference of two limb lengths as a fraction of the longer
    one.  It is reported for the squat and the bench press, and
    compared with 0.15 and 0.1. *)
Theorem reported_symmetry_is_a_fraction
    (movement : string) (kp : gmap string KeyPoint) (ts : float)
    (g : Math.rng) :
  In movement supported ->
  hasLandmarks kp (requiredLandmarks movement) = true ->
  exists r g',
    FormAnalyzer.analyze Math_acos Math_atan2 movement (Some (frame kp ts)) g
      = (Some r, g')
    /\ forall v,
         metric "symmetry" r = Some v ->
         PrimFloat.is_nan v = true \/ (0 <=? v) && (v <=? 1) = true.
Proof.
  intros S H.
  rewrite analyze_by_rule. unfold analyzeByRule.
  destruct S as [<-|[<-|[<-|[]]]]; cbn [String.eqb Ascii.eqb Bool.eqb].
  - landmark H "leftHip" lh Hlh. landmark H "rightHip" rh Hrh.
    landmark H "leftKnee" lk Hlk. landmark H "rightKnee" rk Hrk.
    landmark H "leftAnkle" la Hla. landmark H "rightAnkle" ra Hra.
    unfold squatByRule. rewrite Hlh, Hrh, Hlk, Hrk, Hla, Hra.
    do 2 eexists. split; [reflexivity|]. intros v M.
    unfold metric, assemble in M. cbn [details mbind option_bind] in M.
    apply four_details in M as [[E _]|[[E _]|[[E _]|[_ ->]]]];
      try discriminate E.
    apply Bounds.asymmetryOf_range; apply Signs.segmentLength_plus.
  - landmark H "leftShoulder" ls Hls. landmark H "rightShoulder" rs Hrs.
    landmark H "leftElbow" el Hel. landmark H "rightElbow" er Her.
    landmark H "leftWrist" lw Hlw. landmark H "rightWrist" rw Hrw.
    unfold benchByRule. rewrite Hls, Hrs, Hel, Her, Hlw, Hrw.
    do 2 eexists. split; [reflexivity|]. intros v M.
    unfold metric, assemble in M. cbn [details mbind option_bind] in M.
    apply three_details in M as [[E _]|[[E _]|[_ ->]]];
      try discriminate E.
    apply Bounds.asymmetryOf_range; apply Signs.segmentLength_plus.
  - landmark H "leftShoulder" ls Hls. landmark H "rightShoulder" rs Hrs.
    landmark H "leftHip" lh Hlh. landmark H "rightHip" rh Hrh.
    landmark H "leftKnee" lk Hlk. landmark H "rightKnee" rk Hrk.
    unfold deadliftByRule. rewrite Hls, Hrs, Hlh, Hrh, Hlk, Hrk.
    do 2 eexists. split; [reflexivity|]. intros v M.
    unfold metric, assemble in M. cbn [details mbind option_bind] in M.
    apply two_details in M as [[E _]|[E _]]; discriminate E.
Qed.

(** An angle at a vertex is NaN or between 0 and 180. *)
Lemma calculateAngle_nan_or_inDegrees (p1 p2 p3 : KeyPoint) :
  acosConforms Math_acos ->
  PrimFloat.is_nan (FormAnalyzer.calculateAngle Math_acos p1 p2 p3) = true
  \/ inDegrees (FormAnalyzer.calculateAngle Math_acos p1 p2 p3) = true.
Proof.
  intros A. unfold FormAnalyzer.calculateAngle. cbv zeta.
  match goal with |- context [Math_acos ?c] => generalize c end.
  intros c. destruct (acos_range _ A c) as [N|R].
  - left. rewrite (Binary64.is_nan_nan _ N). reflexivity.
  - right. apply andb_true_iff in R as [R0 R1].
    apply Binary64.degrees_range; assumption.
Qed.

(** X27: the elbow angle a result reports for the bench press, the
    average of the two elbow angles, is NaN or between 0 and 180, for
    any [Math.acos] with results from 0 to [Math.PI]. *)
Theorem reported_elbow_angle_range
    (kp : gmap string KeyPoint) (ts : float) (g : Math.rng) :
  acosConforms Math_acos ->
  hasLandmarks kp (requiredLandmarks "bench") = true ->
  exists r g',
    FormAnalyzer.analyze Math_acos Math_atan2 "bench" (Some (frame kp ts)) g
      = (Some r, g')
    /\ forall v,
         metric "elbowAngle" r = Some v ->
         PrimFloat.is_nan v = true \/ (0 <=? v) && (v <=? 180) = true.
Proof.
  intros A H.
  rewrite analyze_by_rule. unfold analyzeByRule.
  cbn [String.eqb Ascii.eqb Bool.eqb].
  landmark H "leftShoulder" ls Hls. landmark H "rightShoulder" rs Hrs.
  landmark H "leftElbow" el Hel. landmark H "rightElbow" er Her.
  landmark H "leftWrist" lw Hlw. landmark H "rightWrist" rw Hrw.
  unfold benchByRule. rewrite Hls, Hrs, Hel, Her, Hlw, Hrw.
  do 2 eexists. split; [reflexivity|]. intros v M.
  unfold metric, assemble in M. cbn [details mbind option_bind] in M.
  apply three_details in M as [[_ ->]|[[E _]|[E _]]];
    try discriminate E.
  destruct (calculateAngle_nan_or_inDegrees ls el lw A) as [N1|R1].
  { left. rewrite (Binary64.is_nan_nan _ N1), Binary64Ops.add_nan_l.
    reflexivity. }
  destruct (calculateAngle_nan_or_inDegrees rs er rw A) as [N2|R2].
  { left. rewrite (Binary64.is_nan_nan _ N2), Binary64Ops.add_nan_r.
    reflexivity. }
  right. apply (Bounds.average_inDegrees _ _ R1 R2).
Qed.

End MetricRanges.

(** ** The angle at a vertex is a number unless its cosine is not *)

Module Within.

Import Binary64.
Local Open Scope Z_scope.

Lemma pow2_scale (m a b : Z) :
  0 <= a -> 0 <= b -> 0 <= m < 2 ^ b -> m * 2 ^ a < 2 ^ (b + a).
Proof.
  intros Ha Hb [H0 H]. rewrite Z.pow_add_r by lia.
  apply Z.mul_lt_mono_pos_r; [apply Z.pow_pos_nonneg; lia|exact H].
Qed.

(** A rounded value below [2 ^ (K + 53)] has an exponent of at most
    [K + 1]. *)
Lemma binary_round_aux_within (s : bool) (m e K : Z) (l : location) :
  0 <= m -> m < 2 ^ (K + 53 - e) -> e <= K -> -1074 <= K <= 970 ->
  SFwithin (K + 1) (binary_round_aux prec emax s m e l).
Proof.
  intros H0 Hm He HK.
  destruct (shr_fexp_bounds m e l H0) as (B & E1 & T1 & _).
  pose proof (round_nearest_even_bounds
    (shr_m (fst (shr_fexp prec emax m e l)))
    (loc_of_shr_record (fst (shr_fexp prec emax m e l)))) as R.
  assert (D : Zdigits2 m <= K + 53 - e) by (apply Zdigits2_le; lia).
  rewrite fexp_spec in E1, T1.
  unfold binary_round_aux.
  destruct (shr_fexp prec emax m e l) as [r1 e1]. cbn [fst snd] in *.
  set (m' := round_nearest_even (shr_m r1) (loc_of_shr_record r1)) in *.
  change (2 ^ 53) with 9007199254740992 in B.
  assert (H' : 0 <= m') by lia.
  destruct (shr_fexp_bounds m' e1 loc_Exact H') as (B2 & E2 & T2 & _).
  assert (D' : Zdigits2 m' <= 54).
  { apply Zdigits2_le; [lia|].
    change (2 ^ 54) with 18014398509481984. lia. }
  rewrite fexp_spec in E2, T2.
  destruct (shr_fexp prec emax m' e1 loc_Exact) as [r2 e2].
  cbn [fst snd] in *.
  destruct (shr_m r2) as [|p|p]; [exact I| |lia].
  destruct (Z.leb_spec e2 (emax - prec)) as [L|L];
    [|unfold emax, prec in L; lia].
  simpl. lia.
Qed.

Lemma valid_mantissa (s : bool) (m : positive) (e : Z) :
  valid_binary (S754_finite s m e) = true -> Zpos m < 2 ^ 53.
Proof.
  intros V. apply valid_canonical in V as ([_ H] & _). exact H.
Qed.

(** The product of two numbers that are within reach. *)
Lemma SFmul_within (K L : Z) (a b : spec_float) :
  valid_binary a = true -> valid_binary b = true ->
  SFwithin K a -> SFwithin L b -> -1074 <= K + L + 53 <= 970 ->
  SFwithin (K + L + 54) (SF64mul a b).
Proof.
  intros Va Vb Wa Wb HK.
  destruct a as [sa|sa| |sa ma ea]; try contradiction;
    destruct b as [sb|sb| |sb mb eb]; try contradiction; try exact I.
  unfold SF64mul, SFmul. cbn [SFwithin] in Wa, Wb.
  apply valid_mantissa in Va, Vb.
  replace (K + L + 54) with (K + L + 53 + 1) by lia.
  apply binary_round_aux_within; try lia.
  rewrite Pos2Z.inj_mul.
  apply Z.lt_le_trans with (2 ^ 53 * 2 ^ 53).
  - apply Z.mul_lt_mono_nonneg; lia.
  - rewrite <- Z.pow_add_r by lia. apply Z.pow_le_mono_r; lia.
Qed.

(** A signed sum of two aligned mantissas, normalized. *)
Lemma binary_normalize_within (K ez v : Z) :
  Z.abs v < 2 ^ (K + 54 - ez) -> ez <= K -> -1074 <= K <= 969 ->
  SFwithin (K + 2) (binary_normalize prec emax v ez false).
Proof.
  intros Hv He HK.
  assert (G : forall s p, Zpos p < 2 ^ (K + 54 - ez) ->
            SFwithin (K + 2) (binary_round prec emax s p ez)).
  { intros s p Hp. unfold binary_round.
    pose proof (Bounds.shl_align_fst_min p ez
                  (fexp prec emax (Zpos (digits2_pos p) + ez))) as F.
    pose proof (shl_align_snd p ez
                  (fexp prec emax (Zpos (digits2_pos p) + ez))) as S.
    destruct (shl_align p ez _) as [mz ez']. cbn [fst snd] in F, S.
    rewrite <- S in F.
    assert (Ez : ez' <= ez) by lia.
    replace (K + 2) with (K + 1 + 1) by lia.
    apply binary_round_aux_within; try lia.
    rewrite F.
    replace (K + 1 + 53 - ez') with ((K + 54 - ez) + (ez - ez')) by lia.
    apply pow2_scale; lia. }
  destruct v as [|p|p]; [exact I|apply G|apply G]; exact Hv.
Qed.

Lemma aligned_within (K ez : Z) (s : bool) (m : positive) (e : Z) :
  valid_binary (S754_finite s m e) = true -> e <= K -> ez <= e ->
  Zpos (fst (shl_align m e ez)) < 2 ^ (K + 53 - ez).
Proof.
  intros V He Hz. apply valid_mantissa in V.
  rewrite shl_align_fst by lia.
  apply Z.lt_le_trans with (2 ^ (53 + (e - ez))).
  - apply pow2_scale; lia.
  - apply Z.pow_le_mono_r; lia.
Qed.

Lemma double_pow2 (k : Z) : 0 <= k -> 2 ^ k + 2 ^ k = 2 ^ (k + 1).
Proof. intros H. rewrite Z.pow_add_r by lia. change (2 ^ 1) with 2. lia. Qed.

(** The difference and the sum of two numbers that are within reach. *)
Lemma SFsub_within (K : Z) (a b : spec_float) :
  valid_binary a = true -> valid_binary b = true ->
  SFwithin K a -> SFwithin K b -> -1074 <= K <= 969 ->
  SFwithin (K + 2) (SF64sub a b).
Proof.
  intros Va Vb Wa Wb HK.
  destruct a as [sa|sa| |sa ma ea]; try contradiction;
    destruct b as [sb|sb| |sb mb eb]; try contradiction;
    cbn [SFwithin] in Wa, Wb.
  - destruct sa, sb; exact I.
  - simpl. lia.
  - simpl. lia.
  - unfold SF64sub, SFsub.
    pose proof (valid_finite _ _ _ Va) as (Ea & _).
    pose proof (valid_finite _ _ _ Vb) as (Eb & _).
    pose proof (aligned_within K (Z.min ea eb) sa ma ea Va Wa ltac:(lia)) as A.
    pose proof (aligned_within K (Z.min ea eb) sb mb eb Vb Wb ltac:(lia)) as B.
    apply binary_normalize_within; try lia.
    replace (K + 54 - Z.min ea eb) with (K + 53 - Z.min ea eb + 1) by lia.
    rewrite <- double_pow2 by lia.
    revert A B. generalize (2 ^ (K + 53 - Z.min ea eb)).
    generalize (fst (shl_align ma ea (Z.min ea eb))).
    generalize (fst (shl_align mb eb (Z.min ea eb))).
    intros vb va P A B. destruct sa, sb; cbn [cond_Zopp]; lia.
Qed.

Lemma SFadd_within (K : Z) (a b : spec_float) :
  valid_binary a = true -> valid_binary b = true ->
  SFwithin K a -> SFwithin K b -> -1074 <= K <= 969 ->
  SFwithin (K + 2) (SF64add a b).
Proof.
  intros Va Vb Wa Wb HK.
  destruct a as [sa|sa| |sa ma ea]; try contradiction;
    destruct b as [sb|sb| |sb mb eb]; try contradiction;
    cbn [SFwithin] in Wa, Wb.
  - destruct sa, sb; exact I.
  - simpl. lia.
  - simpl. lia.
  - unfold SF64add, SFadd.
    pose proof (valid_finite _ _ _ Va) as (Ea & _).
    pose proof (valid_finite _ _ _ Vb) as (Eb & _).
    pose proof (aligned_within K (Z.min ea eb) sa ma ea Va Wa ltac:(lia)) as A.
    pose proof (aligned_within K (Z.min ea eb) sb mb eb Vb Wb ltac:(lia)) as B.
    apply binary_normalize_within; try lia.
    replace (K + 54 - Z.min ea eb) with (K + 53 - Z.min ea eb + 1) by lia.
    rewrite <- double_pow2 by lia.
    revert A B. generalize (2 ^ (K + 53 - Z.min ea eb)).
    generalize (fst (shl_align ma ea (Z.min ea eb))).
    generalize (fst (shl_align mb eb (Z.min ea eb))).
    intros vb va P A B. destruct sa, sb; cbn [cond_Zopp]; lia.
Qed.

Lemma SFwithin_le (K L : Z) (v : spec_float) :
  K <= L -> SFwithin K v -> SFwithin L v.
Proof. destruct v; simpl; try tauto. lia. Qed.

Local Close Scope Z_scope.
Local Open Scope float_scope.

(** A coordinate from 0 to 1 has an exponent of at most -52. *)
Lemma inUnit_within (v : float) :
  inUnit v = true -> SFwithin (-52) (Prim2SF v).
Proof.
  unfold inUnit. rewrite andb_true_iff, !leb_spec.
  change (Prim2SF 0) with (S754_zero false).
  change (Prim2SF 1) with (S754_finite false 4503599627370496 (-52)).
  intros [H0 H1].
  destruct (Prim2SF v) as [s|[]| |[] m e]; try discriminate; [exact I|].
  apply SFleb_finite_inv in H1. simpl. lia.
Qed.

Lemma sub_within (a b : float) (K : Z) :
  SFwithin K (Prim2SF a) -> SFwithin K (Prim2SF b) ->
  (-1074 <= K <= 969)%Z -> SFwithin (K + 2) (Prim2SF (a - b)).
Proof.
  intros. rewrite sub_spec.
  apply SFsub_within; try assumption; apply Prim2SF_valid.
Qed.

Lemma add_within (a b : float) (K : Z) :
  SFwithin K (Prim2SF a) -> SFwithin K (Prim2SF b) ->
  (-1074 <= K <= 969)%Z -> SFwithin (K + 2) (Prim2SF (a + b)).
Proof.
  intros. rewrite add_spec.
  apply SFadd_within; try assumption; apply Prim2SF_valid.
Qed.

Lemma mul_within (a b : float) (K L : Z) :
  SFwithin K (Prim2SF a) -> SFwithin L (Prim2SF b) ->
  (-1074 <= K + L + 53 <= 970)%Z ->
  SFwithin (K + L + 54) (Prim2SF (a * b)).
Proof.
  intros. rewrite mul_spec.
  apply SFmul_within; try assumption; apply Prim2SF_valid.
Qed.

(** The dot product of the rays between normalized landmarks is
    finite. *)
Lemma dotOf_within (point1 point2 point3 : KeyPoint) :
  normalized point1 = true -> normalized point2 = true ->
  normalized point3 = true ->
  SFwithin (-44) (Prim2SF (dotOf point1 point2 point3)).
Proof.
  unfold normalized. rewrite !andb_true_iff.
  intros [X1 Y1] [X2 Y2] [X3 Y3].
  apply inUnit_within in X1, Y1, X2, Y2, X3, Y3.
  unfold dotOf.
  apply (add_within _ _ (-46)); [| |lia];
    apply (mul_within _ _ (-50) (-50)); try lia;
    apply (sub_within _ _ (-52)); try lia; assumption.
Qed.

(** A finite number over a positive one is a number. *)
Lemma div_within_pos (a b : float) (K : Z) :
  SFwithin K (Prim2SF a) -> (0 <? b) = true ->
  PrimFloat.is_nan (a / b) = false.
Proof.
  intros W P. apply is_nan_false. rewrite div_spec.
  rewrite ltb_spec in P. change (Prim2SF 0) with (S754_zero false) in P.
  destruct (Prim2SF a) as [sa|sa| |sa ma ea]; try contradiction;
    destruct (Prim2SF b) as [sb|[]| |[] mb eb]; try discriminate P;
    try discriminate.
  unfold SF64div, SFdiv.
  pose proof (Binary64Ops.SFdiv_core_binary_nonneg ma mb ea eb) as N.
  destruct (SFdiv_core_binary prec emax (Zpos ma) ea (Zpos mb) eb)
    as [[q e'] l]. cbn [fst] in N.
  pose proof (binary_round_aux_nonneg q e' l N) as Q.
  pose proof (SFabs_binary_round_aux (xorb sa false) false q e' l) as A.
  intros E. rewrite E in A. simpl in A.
  destruct (binary_round_aux prec emax false q e' l); try contradiction;
    discriminate A.
Qed.

Lemma leb_ltb_false (a b : float) : (a <=? b) = true -> (b <? a) = false.
Proof.
  rewrite leb_spec, ltb_spec. unfold SFleb, SFltb.
  rewrite (SFcompare_antisym (Prim2SF a) (Prim2SF b)).
  destruct (SFcompare (Prim2SF a) (Prim2SF b)) as [[]|]; simpl; congruence.
Qed.

Lemma ltb_false_leb (a b : float) :
  (a <? b) = false -> PrimFloat.is_nan a = false ->
  PrimFloat.is_nan b = false -> (b <=? a) = true.
Proof.
  intros L Na Nb. destruct (b <=? a) eqn:E; [reflexivity|].
  rewrite (Binary64Ops.leb_false_ltb _ _ E Nb Na) in L. discriminate L.
Qed.

(** The clamp of a number lies between -1 and 1. *)
Lemma clamp_range (c : float) :
  PrimFloat.is_nan c = false ->
  (-1 <=? Math.max (-1) (Math.min 1 c)) && (Math.max (-1) (Math.min 1 c) <=? 1)
  = true.
Proof.
  intros N.
  assert (M : exists r, Math.min 1 c = r /\ PrimFloat.is_nan r = false
                        /\ (r <=? 1) = true).
  { unfold Math.min. rewrite N.
    change (PrimFloat.is_nan 1) with false. cbn [orb].
    destruct (1 <? c) eqn:L1; [exists 1; repeat split|].
    assert (C1 : (c <=? 1) = true) by (apply ltb_false_leb; auto).
    destruct (c <? 1); [exists c; auto|].
    change (PrimFloat.get_sign 1) with false. cbv iota. exists c; auto. }
  destruct M as (r & -> & Nr & R1).
  unfold Math.max. rewrite Nr.
  change (PrimFloat.is_nan (-1)) with false. cbn [orb].
  destruct (-1 <? r) eqn:L1.
  { rewrite (Bounds.ltb_leb _ _ L1), R1. reflexivity. }
  destruct (r <? -1) eqn:L2; [reflexivity|].
  change (PrimFloat.get_sign (-1)) with true. cbv iota.
  rewrite R1, andb_true_r. apply ltb_false_leb; auto.
Qed.

Lemma acos_steps_numeric : acosNumeric acos_steps.
Proof.
  intros v H. apply andb_true_iff in H as [H0 H1].
  unfold acos_steps.
  destruct (Binary64Ops.leb_not_nan _ _ H1) as [N _].
  rewrite N, (leb_ltb_false _ _ H0), (leb_ltb_false _ _ H1). cbn [orb].
  destruct (0.5 <? v); [reflexivity|].
  destruct (v <? -0.5); reflexivity.
Qed.

End Within.

Section AngleRange.

Variable Math_acos : float -> float.

Lemma calculateAngle_cosineOf (point1 point2 point3 : KeyPoint) :
  FormAnalyzer.calculateAngle Math_acos point1 point2 point3
  = Math_acos (Math.max (-1) (Math.min 1 (cosineOf point1 point2 point3)))
    * 180 / Math.PI.
Proof. reflexivity. Qed.

(** C3: [calculateAngle] is a total function: it never raises.  Its
    result is NaN exactly when the cosine it computes is NaN, and a
    number between 0 and 180 degrees otherwise: the clamp keeps the
    argument of [Math.acos] between -1 and 1.  It is a number for
    landmarks in normalized coordinates whose two ray lengths have a
    product that is not zero, and NaN, not a default number, when one
    of the two rays from the vertex has zero length. *)
Theorem calculateAngle_range (point1 point2 point3 : KeyPoint) :
  acosConforms Math_acos -> acosNumeric Math_acos ->
  let angle := FormAnalyzer.calculateAngle Math_acos point1 point2 point3 in
  (PrimFloat.is_nan (cosineOf point1 point2 point3) = false ->
   inDegrees angle = true)
  /\ (PrimFloat.is_nan (cosineOf point1 point2 point3) = true ->
      angle = nan)
  /\ (normalized point1 = true -> normalized point2 = true ->
      normalized point3 = true ->
      (0 <? lengthsOf point1 point2 point3) = true ->
      inDegrees angle = true)
  /\ ((x point1 = x point2 /\ y point1 = y point2)
      \/ (x point3 = x point2 /\ y point3 = y point2) ->
      angle = nan).
Proof.
  intros A T angle. subst angle.
  assert (Number : PrimFloat.is_nan (cosineOf point1 point2 point3) = false ->
                   inDegrees (FormAnalyzer.calculateAngle Math_acos
                                point1 point2 point3) = true).
  { intros N. rewrite calculateAngle_cosineOf.
    pose proof (Within.clamp_range _ N) as C.
    specialize (T _ C).
    destruct (acos_range _ A
                (Math.max (-1) (Math.min 1 (cosineOf point1 point2 point3))))
      as [N'|R]; [congruence|].
    apply andb_true_iff in R as [R0 R1].
    apply Binary64.degrees_range; assumption. }
  split; [exact Number|]. split; [|split].
  - intros N. rewrite calculateAngle_cosineOf.
    rewrite (Binary64.is_nan_nan _ N).
    change (Math.max (-1) (Math.min 1 nan)) with nan.
    rewrite (acos_nan _ A). reflexivity.
  - intros N1 N2 N3 P. apply Number. unfold cosineOf.
    apply (Within.div_within_pos _ _ (-44)); [|exact P].
    apply Within.dotOf_within; assumption.
  - apply calculateAngle_degenerate. exact A.
Qed.

End AngleRange.

(** C3, as stated, fails: with the vertex on the first point the angle is
    NaN, which is not a number between 0 and 180. *)
Lemma angle_of_a_zero_length_ray_is_not_a_number :
  ~ (forall (acos : float -> float) (point1 point2 point3 : KeyPoint),
       acosConforms acos -> acosNumeric acos ->
       inDegrees (FormAnalyzer.calculateAngle acos point1 point2 point3)
       = true).
Proof.
  intros H.
  specialize (H acos_steps (point 0.5 0.5) (point 0.5 0.5) (point 0.7 0.5)
                acos_steps_conforms Within.acos_steps_numeric).
  vm_compute in H. discriminate H.
Qed.

Lemma calculateAngle_range_witness :
  (0 <? lengthsOf (point 0.3 0.3) (point 0.3 0.5) (point 0.5 0.5)) = true
  /\ inDegrees
       (FormAnalyzer.calculateAngle acos_steps
          (point 0.3 0.3) (point 0.3 0.5) (point 0.5 0.5)) = true.
Proof.
  split; [reflexivity|].
  destruct (calculateAngle_range acos_steps
              (point 0.3 0.3) (point 0.3 0.5) (point 0.5 0.5)
              acos_steps_conforms Within.acos_steps_numeric)
    as (_ & _ & Number & _).
  apply Number; reflexivity.
Defined.

(** ** The minutes of a recording time in binary64

    [Math.floor (seconds / 60)] on the binary64 number of a recording
    time is the binary64 number of the quotient. *)

Module Minutes.

Import Binary64.
Local Open Scope Z_scope.

(** A canonical number rounds to itself. *)
Lemma binary_round_aux_canonical (s : bool) (m : positive) (e : Z) :
  canonical (Zpos m) e -> e <= 971 ->
  binary_round_aux prec emax s (Zpos m) e loc_Exact = S754_finite s m e.
Proof.
  intros ([H0 H1] & He & D) Hx.
  assert (D53 : Zdigits2 (Zpos m) <= 53) by (apply Zdigits2_le_53; lia).
  assert (T : fexp prec emax (Zdigits2 (Zpos m) + e) = e)
    by (rewrite fexp_spec; lia).
  unfold binary_round_aux.
  rewrite shr_fexp_spec. cbv zeta. rewrite T, Z.ltb_irrefl.
  cbn [shr_record_of_loc shr_m loc_of_shr_record round_nearest_even].
  rewrite shr_fexp_spec. cbv zeta. rewrite T, Z.ltb_irrefl.
  cbn [shr_record_of_loc shr_m].
  destruct (Z.leb_spec e (emax - prec)) as [L|L];
    [reflexivity|unfold emax, prec in L; lia].
Qed.

(** The number of binary digits of a number between two powers of
    two. *)
Lemma Zdigits2_eq (k m : Z) :
  0 < k -> 2 ^ (k - 1) <= m < 2 ^ k -> Zdigits2 m = k.
Proof.
  intros Hk [L U].
  assert (P : 0 < 2 ^ (k - 1)) by (apply Z.pow_pos_nonneg; lia).
  pose proof (Zdigits2_le k m ltac:(lia) ltac:(lia)) as A.
  destruct (Zdigits2_bounds m ltac:(lia)) as (D0 & B & _).
  destruct (Z.le_gt_cases k (Zdigits2 m)) as [?|G]; [lia|exfalso].
  assert (2 ^ Zdigits2 m <= 2 ^ (k - 1)) by (apply Z.pow_le_mono_r; lia).
  lia.
Qed.

(** The binary64 number of a positive whole number below [2 ^ 53]: its
    mantissa is the number, shifted up to 53 digits. *)
Lemma Prim2SF_numberOfZ (s : Z) :
  0 < s < 2 ^ 53 ->
  exists m e,
    Prim2SF (numberOfZ s) = S754_finite false m e
    /\ -52 <= e <= 0 /\ Zpos m = s * 2 ^ (- e)
    /\ 2 ^ 52 <= Zpos m < 2 ^ 53.
Proof.
  intros [H0 H1]. unfold numberOfZ.
  rewrite of_uint63_spec, Uint63.of_Z_spec.
  rewrite Z.mod_small
    by (split; [lia|]; apply Z.lt_trans with (1 := H1); reflexivity).
  destruct s as [|p|p]; try lia.
  pose proof (digits2_bounds p) as [L U].
  assert (D : Zpos (digits2_pos p) <= 53)
    by (apply (Zdigits2_le_53 (Zpos p)); lia).
  unfold binary_normalize, binary_round.
  assert (F : fexp prec emax (Zpos (digits2_pos p) + 0)
              = Zpos (digits2_pos p) - 53) by (rewrite fexp_spec; lia).
  rewrite F.
  pose proof (shl_align_fst p 0 (Zpos (digits2_pos p) - 53) ltac:(lia)) as A.
  pose proof (shl_align_snd p 0 (Zpos (digits2_pos p) - 53)) as S.
  destruct (shl_align p 0 _) as [mz ez]. cbn [fst snd] in A, S.
  rewrite Z.min_r in S by lia. subst ez.
  set (d := Zpos (digits2_pos p)) in *.
  replace (0 - (d - 53)) with (53 - d) in A by lia.
  assert (B : 2 ^ 52 <= Zpos mz < 2 ^ 53).
  { rewrite A. split.
    - replace 52 with ((d - 1) + (53 - d)) by lia.
      rewrite Z.pow_add_r by lia.
      apply Z.mul_le_mono_nonneg_r; [apply Z.pow_nonneg; lia|exact L].
    - replace 53 with (d + (53 - d)) at 2 by lia.
      apply Within.pow2_scale; lia. }
  exists mz, (d - 53).
  split; [|split; [lia|split; [|exact B]]].
  - apply binary_round_aux_canonical; [|lia].
    repeat split; try lia. left. apply Zdigits2_eq; [lia|exact B].
  - rewrite A. f_equal. f_equal. lia.
Qed.

(** The quotient and the location that the division by 60 hands to
    the rounding. *)
Lemma SFdiv_core_binary_60 (m : positive) (e : Z) :
  2 ^ 52 <= Zpos m < 2 ^ 53 -> -52 <= e <= 0 ->
  SFdiv_core_binary prec emax (Zpos m) e 8444249301319680 (-47)
  = (Zpos m * 2 ^ 53 / 8444249301319680, e - 6,
     new_location 8444249301319680
       ((Zpos m * 2 ^ 53) mod 8444249301319680)).
Proof.
  intros B He. unfold SFdiv_core_binary.
  rewrite (Zdigits2_eq 53 (Zpos m)) by first [exact B|lia].
  change (Zdigits2 8444249301319680) with 53.
  rewrite fexp_spec.
  replace (Z.min (Z.max (53 + e - (53 + -47) - 53) (-1074)) (e - -47))
    with (e - 6) by lia.
  replace (e - -47 - (e - 6)) with 53 by lia.
  cbv iota. rewrite Z.shiftl_mul_pow2 by lia.
  unfold Z.div, Z.modulo.
  destruct (Z.div_eucl (Zpos m * 2 ^ 53) 8444249301319680) as [q r].
  reflexivity.
Qed.

(** The whole part of a positive number with a negative exponent. *)
Lemma floor_of_finite (y : float) (m : positive) (e k : Z) :
  Prim2SF y = S754_finite false m e -> e < 0 -> 0 <= k < 2 ^ 53 ->
  k * 2 ^ (- e) <= Zpos m < (k + 1) * 2 ^ (- e) ->
  Math_floor y = numberOfZ k.
Proof.
  intros E He Hk B. unfold Math_floor. rewrite E.
  destruct (Z.leb_spec 0 e) as [?|_]; [lia|].
  cbn [andb]. cbv zeta.
  rewrite <- (SF2Prim_Prim2SF (numberOfZ k)). unfold numberOfZ.
  rewrite of_uint63_spec, Uint63.of_Z_spec.
  rewrite Z.mod_small
    by (split; [lia|]; apply Z.lt_trans with (2 ^ 53); [lia|reflexivity]).
  do 2 f_equal. rewrite Z.shiftr_div_pow2 by lia.
  symmetry. apply (Z.div_unique _ _ _ (Zpos m - k * 2 ^ (- e))); lia.
Qed.

(** The quotient of the mantissas: the whole minutes, shifted up, and
    a rest that stays two units below the next whole minute. *)
Lemma quotient_split (s P q r : Z) :
  0 <= s -> 64 <= P ->
  q * 8444249301319680 + r = s * P * 140737488355328 ->
  0 <= r < 8444249301319680 ->
  0 <= q - s / 60 * P <= P - 2.
Proof.
  intros Hs HP E R.
  pose proof (Z.div_mod s 60 ltac:(lia)) as D.
  pose proof (Z.mod_pos_bound s 60 ltac:(lia)) as T.
  set (k := s / 60) in *. set (t := s mod 60) in *.
  assert (X : 0 <= t * P <= 59 * P).
  { split; [apply Z.mul_nonneg_nonneg; lia|].
    apply Z.mul_le_mono_nonneg_r; lia. }
  rewrite D in E.
  replace ((60 * k + t) * P * 140737488355328)
    with ((60 * (k * P) + t * P) * 140737488355328) in E by ring.
  revert E X. generalize (k * P), (t * P). intros W V E X. lia.
Qed.

(** The rounded mantissa of that quotient stays within the whole minute
    [k]. *)
Lemma rounded_quotient (q e' k : Z) (l : location) :
  2 ^ 52 <= q < 2 ^ 54 -> -58 <= e' <= -6 ->
  0 <= q - k * 2 ^ (- e') <= 2 ^ (- e') - 2 ->
  let r1 := fst (shr_fexp prec emax q e' l) in
  let e1 := snd (shr_fexp prec emax q e' l) in
  let m' := round_nearest_even (shr_m r1) (loc_of_shr_record r1) in
  2 ^ 52 <= m' <= 2 ^ 53 /\ e' <= e1 <= e' + 1
  /\ k * 2 ^ (- e1) <= m' < (k + 1) * 2 ^ (- e1).
Proof.
  intros Bq He F r1 e1 m'. subst r1 e1 m'.
  rewrite shr_fexp_spec. cbv zeta. rewrite fexp_spec.
  change (2 ^ 52) with 4503599627370496 in *.
  change (2 ^ 54) with 18014398509481984 in *.
  change (2 ^ 53) with 9007199254740992.
  destruct (Z.lt_ge_cases q 9007199254740992) as [S|S].
  - rewrite (Zdigits2_eq 53 q)
      by first [lia|change (2 ^ (53 - 1)) with 4503599627370496;
                change (2 ^ 53) with 9007199254740992; lia].
    destruct (Z.ltb_spec e' (Z.max (53 + e' - 53) (-1074))); [lia|].
    cbn [fst snd].
    rewrite loc_of_shr_record_of_loc, shr_record_of_loc_m.
    pose proof (round_nearest_even_bounds q l) as R.
    revert F. generalize (2 ^ (- e')). intros P F.
    repeat split; lia.
  - rewrite (Zdigits2_eq 54 q)
      by first [lia|change (2 ^ (54 - 1)) with 9007199254740992;
                change (2 ^ 54) with 18014398509481984; lia].
    destruct (Z.ltb_spec e' (Z.max (54 + e' - 53) (-1074))); [|lia].
    replace (Z.max (54 + e' - 53) (-1074)) with (e' + 1) by lia.
    replace (e' + 1 - e') with 1 by lia.
    cbn [fst snd]. change (Z.to_pos 1) with 1%positive.
    change (SpecFloat.iter_pos shr_1 1 (shr_record_of_loc q l))
      with (shr_1 (shr_record_of_loc q l)).
    rewrite shr_1_spec by (rewrite shr_record_of_loc_m; lia).
    rewrite shr_record_of_loc_m. cbn [shr_m].
    assert (PH : 2 ^ (- e') = 2 * 2 ^ (- (e' + 1))).
    { replace (- e') with (Z.succ (- (e' + 1))) by lia.
      apply Z.pow_succ_r. lia. }
    rewrite PH in F. revert F. generalize (2 ^ (- (e' + 1))). intros h F.
    rewrite Z.div2_div.
    match goal with
    | |- context [round_nearest_even _ ?loc] =>
      pose proof (round_nearest_even_bounds (q / 2) loc) as R
    end.
    replace (k * (2 * h)) with (2 * (k * h)) in F by ring.
    rewrite Z.mul_add_distr_r, Z.mul_1_l.
    destruct (Z.eq_dec (q - 2 * (k * h)) (2 * h - 2)) as [Top|Low].
    + assert (O : Z.odd q = false).
      { replace q with (2 * (k * h + h - 1)) by lia.
        rewrite Z.odd_mul. reflexivity. }
      rewrite O in *. unfold loc_of_shr_record. cbn [shr_r shr_s].
      clear R. revert F Top. generalize (k * h). intros w F Top.
      pose proof (Z.div_mod q 2 ltac:(lia)) as D.
      pose proof (Z.mod_pos_bound q 2 ltac:(lia)) as M.
      revert D M. generalize (q / 2), (q mod 2). intros d t D M.
      destruct (_ || _); cbn [round_nearest_even]; repeat split; lia.
    + revert F R Low. generalize (k * h). intros w F R Low.
      pose proof (Z.div_mod q 2 ltac:(lia)) as D.
      pose proof (Z.mod_pos_bound q 2 ltac:(lia)) as M.
      revert R D M.
      generalize (round_nearest_even (q / 2)
                    (loc_of_shr_record
                       {| shr_m := q / 2; shr_r := Z.odd q;
                          shr_s := shr_r (shr_record_of_loc q l)
                                   || shr_s (shr_record_of_loc q l) |})).
      generalize (q / 2), (q mod 2). intros d t m' R D M.
      repeat split; lia.
Qed.

(** [Math.floor (s / 60)] of a whole number below [2 ^ 53] is the
    quotient of the division with remainder: the binary64 quotient is
    rounded, but never up to the next whole number. *)
Lemma floor_of_quotient_Z (s : Z) :
  0 <= s < 2 ^ 53 ->
  Math_floor (numberOfZ s / 60)%float = numberOfZ (s / 60).
Proof.
  intros [H0 H1].
  destruct (Z.eq_dec s 0) as [->|N0]; [reflexivity|].
  destruct (Prim2SF_numberOfZ s ltac:(lia)) as (m & e & Es & He & Em & Bm).
  pose proof (Prim2SF_valid (numberOfZ s / 60)%float) as V.
  assert (K : 0 <= s / 60 < 2 ^ 53).
  { split; [apply Z.div_pos; lia|].
    apply Z.div_lt_upper_bound; [lia|].
    change (2 ^ 53) with 9007199254740992 in *. lia. }
  set (N := Zpos m * 2 ^ 53).
  pose proof (Z.div_mod N 8444249301319680 ltac:(lia)) as D.
  pose proof (Z.mod_pos_bound N 8444249301319680 ltac:(lia)) as R.
  assert (Ey : Prim2SF (numberOfZ s / 60)%float
               = binary_round_aux prec emax false
                   (N / 8444249301319680) (e - 6)
                   (new_location 8444249301319680
                      (N mod 8444249301319680))).
  { rewrite div_spec, Es.
    change (Prim2SF 60) with (S754_finite false 8444249301319680 (-47)).
    unfold SF64div, SFdiv. rewrite (SFdiv_core_binary_60 m e Bm He).
    reflexivity. }
  set (q := N / 8444249301319680) in *.
  set (r := N mod 8444249301319680) in *.
  set (l := new_location 8444249301319680 r) in *.
  assert (Bq : 2 ^ 52 <= q < 2 ^ 54).
  { subst N. change (2 ^ 52) with 4503599627370496 in *.
    change (2 ^ 53) with 9007199254740992 in *.
    change (2 ^ 54) with 18014398509481984. lia. }
  assert (F : 0 <= q - s / 60 * 2 ^ (- (e - 6)) <= 2 ^ (- (e - 6)) - 2).
  { apply (quotient_split s _ q r); try lia.
    - change 64 with (2 ^ 6). apply Z.pow_le_mono_r; lia.
    - rewrite Z.mul_comm, <- D. subst N. rewrite Em.
      replace (- (e - 6)) with (- e + 6) by lia.
      rewrite Z.pow_add_r by lia.
      change (2 ^ 6) with 64. change (2 ^ 53) with 9007199254740992.
      ring. }
  assert (Dq : Zdigits2 q <= 54).
  { apply Zdigits2_le; [lia|]. lia. }
  pose proof (binary_round_aux_rank false q (e - 6) l
                ltac:(lia) ltac:(lia) ltac:(lia)) as Rk.
  pose proof (binary_round_aux_nonneg q (e - 6) l ltac:(lia)) as Nn.
  destruct (rounded_quotient q (e - 6) (s / 60) l Bq ltac:(lia) F)
    as (Bm' & Be1 & Bk).
  cbv zeta in Rk.
  set (e1 := snd (shr_fexp prec emax q (e - 6) l)) in *.
  set (m' := round_nearest_even
               (shr_m (fst (shr_fexp prec emax q (e - 6) l)))
               (loc_of_shr_record (fst (shr_fexp prec emax q (e - 6) l))))
    in *.
  rewrite Ey in V.
  change (2 ^ 52) with 4503599627370496 in *.
  change (2 ^ 53) with 9007199254740992 in *.
  destruct (Z.eqb_spec m' 0) as [?|_]; [lia|].
  destruct (binary_round_aux prec emax false q (e - 6) l)
    as [sy|[]| |[] my ey]; try contradiction; unfold rank in Rk;
    try (change (2 ^ 63) with 9223372036854775808 in Rk); try lia.
  apply valid_canonical in V.
  pose proof (canonical_normal _ _ V) as Nm.
  destruct V as ([V0 V1] & V2 & _).
  change (2 ^ 52) with 4503599627370496 in *.
  change (2 ^ 53) with 9007199254740992 in *.
  apply (floor_of_finite _ my ey); [exact Ey|lia|lia|].
  assert (ey = e1 \/ (ey = e1 + 1 /\ Zpos my = 4503599627370496
                      /\ m' = 9007199254740992)) as [->|(-> & -> & M)]
    by lia.
  - assert (Zpos my = m') as -> by lia. exact Bk.
  - rewrite M in Bk.
    assert (PH : 2 ^ (- e1) = 2 * 2 ^ (- (e1 + 1))).
    { replace (- e1) with (Z.succ (- (e1 + 1))) by lia.
      apply Z.pow_succ_r. lia. }
    rewrite PH in Bk. revert Bk. generalize (2 ^ (- (e1 + 1))).
    intros h Bk. lia.
Qed.

End Minutes.

Section RecordingTime.

Import CameraComponent.

(** X28: for a recording time below [2 ^ 53] seconds, the minutes that
    [formatTime] computes in binary64, [Math.floor (seconds / 60)], are
    the quotient of the division with remainder: the rounded quotient
    never reaches the next whole minute. *)
Theorem floor_of_quotient (seconds : N) :
  wholeSeconds seconds ->
  Math_floor (numberOfZ (Z.of_N seconds) / 60)
  = numberOfZ (Z.of_N (seconds / 60)).
Proof.
  unfold wholeSeconds. intros H.
  rewrite N2Z.inj_div. apply Minutes.floor_of_quotient_Z.
  split; [apply N2Z.is_nonneg|].
  change (2 ^ 53)%Z with (Z.of_N (2 ^ 53)). apply N2Z.inj_lt. exact H.
Qed.

End RecordingTime.

(** ** The recording screen *)

Section Screen.

Import CameraComponent.

Local Open Scope N_scope.

Lemma toString_digit (n : N) :
  n < 10 -> toString n = String (pretty_N_char n) EmptyString.
Proof.
  intros H. unfold toString, pretty, pretty_N.
  destruct (decide (n = 0)) as [->|N0]; [reflexivity|].
  rewrite pretty_N_go_step by lia.
  rewrite (N.div_small n 10), (N.mod_small n 10) by lia.
  reflexivity.
Qed.

Lemma toString_two_digits (n : N) :
  10 <= n < 100 ->
  toString n
  = String (pretty_N_char (n / 10))
      (String (pretty_N_char (n mod 10)) EmptyString).
Proof.
  intros H. unfold toString, pretty, pretty_N.
  destruct (decide (n = 0)) as [->|N0]; [lia|].
  rewrite pretty_N_go_step by lia.
  assert (0 < n / 10 < 10) as D.
  { split; [apply N.div_str_pos; lia|apply N.Div0.div_lt_upper_bound; lia]. }
  rewrite pretty_N_go_step by lia.
  rewrite (N.div_small (n / 10) 10), (N.mod_small (n / 10) 10) by lia.
  reflexivity.
Qed.

Lemma pretty_N_go_length (n : N) (s : string) :
  (String.length s <= String.length (pretty_N_go n s))%nat.
Proof.
  revert s. induction (N.lt_wf_0 n) as [n _ IH]. intros s.
  destruct (N.eq_dec n 0) as [->|N0]; [reflexivity|].
  rewrite pretty_N_go_step by lia.
  etransitivity; [|apply IH; apply N.div_lt; lia].
  simpl. lia.
Qed.

Lemma toString_long (n : N) :
  100 <= n -> (3 <= String.length (toString n))%nat.
Proof.
  intros H. unfold toString, pretty, pretty_N.
  destruct (decide (n = 0)) as [->|N0]; [lia|].
  assert (10 <= n / 10) by (apply N.div_le_lower_bound; lia).
  assert (0 < n / 10 / 10) by (apply N.div_str_pos; lia).
  rewrite 3!pretty_N_go_step by lia.
  etransitivity; [|apply pretty_N_go_length]. simpl. lia.
Qed.

(** Two digits for a number below 100, the decimal digits otherwise. *)
Lemma padStart_toString (n : N) :
  (n < 100 ->
   padStart 2 "0" (toString n)
   = String (pretty_N_char (n / 10))
       (String (pretty_N_char (n mod 10)) EmptyString))
  /\ (100 <= n -> padStart 2 "0" (toString n) = toString n).
Proof.
  split; intros H.
  - destruct (N.lt_ge_cases n 10) as [L|G].
    + rewrite (toString_digit n L), (N.div_small n 10), (N.mod_small n 10)
        by lia.
      reflexivity.
    + rewrite (toString_two_digits n) by lia. reflexivity.
  - pose proof (toString_long n H) as L. unfold padStart.
    destruct (Nat.leb_spec 2 (String.length (toString n))); [reflexivity|lia].
Qed.

Lemma padStart_toString_inj (a b : N) :
  padStart 2 "0" (toString a) = padStart 2 "0" (toString b) -> a = b.
Proof.
  destruct (padStart_toString a) as [Sa La], (padStart_toString b) as [Sb Lb].
  destruct (N.lt_ge_cases a 100) as [Ha|Ha], (N.lt_ge_cases b 100) as [Hb|Hb].
  - rewrite Sa, Sb by assumption. intros E.
    injection E as E1 E0.
    apply pretty_N_char_inj in E1, E0;
      try (apply N.Div0.div_lt_upper_bound; lia);
      try (apply N.mod_lt; lia).
    rewrite (N.div_mod a 10), (N.div_mod b 10) by lia. congruence.
  - rewrite Sa, Lb by assumption. intros E.
    pose proof (toString_long b Hb) as L. rewrite <- E in L. simpl in L. lia.
  - rewrite La, Sb by assumption. intros E.
    pose proof (toString_long a Ha) as L. rewrite E in L. simpl in L. lia.
  - rewrite La, Lb by assumption. apply pretty_N_inj.
Qed.

Lemma padStart_toString_length (n : N) :
  (2 <= String.length (padStart 2 "0" (toString n)))%nat.
Proof.
  destruct (padStart_toString n) as [S L].
  destruct (N.lt_ge_cases n 100) as [H|H].
  - rewrite S by assumption. simpl. lia.
  - rewrite L by assumption. pose proof (toString_long n H). lia.
Qed.

Lemma length_append (s t : string) :
  String.length (String.append s t)
  = (String.length s + String.length t)%nat.
Proof.
  induction s as [|c s IH]; simpl; [reflexivity|]. rewrite IH. reflexivity.
Qed.

(** Two concatenations with suffixes of one length are equal only part
    by part. *)
Lemma append_inj_suffix (p q s t : string) :
  String.append p s = String.append q t ->
  String.length s = String.length t ->
  p = q /\ s = t.
Proof.
  revert q. induction p as [|c p IH]; intros [|d q] E L.
  - split; [reflexivity|exact E].
  - apply (f_equal String.length) in E.
    rewrite !length_append in E. simpl in E. lia.
  - apply (f_equal String.length) in E.
    rewrite !length_append in E. simpl in E. lia.
  - simpl in E. injection E as -> E. destruct (IH q E L) as [-> ->].
    split; reflexivity.
Qed.

(** X12: a recording time below 100 minutes is shown as two digits of
    minutes, a colon and two digits of seconds: five characters. *)
Theorem formatTime_below_100_minutes (seconds : N) :
  seconds < 6000 ->
  formatTime seconds
  = String.append (twoDigits (seconds / 60))
      (String.append ":" (twoDigits (seconds mod 60)))
  /\ String.length (formatTime seconds) = 5%nat.
Proof.
  intros H. unfold formatTime. cbv zeta.
  rewrite (proj1 (padStart_toString (seconds / 60)))
    by (apply N.Div0.div_lt_upper_bound; lia).
  rewrite (proj1 (padStart_toString (seconds mod 60)))
    by (pose proof (N.mod_lt seconds 60 ltac:(lia)); lia).
  split; reflexivity.
Qed.

(** X13: two different recording times are never shown alike, also
    beyond 100 minutes, where the minutes take more than two digits.
    The recording times are the whole numbers of seconds below
    [2 ^ 53], on which the model is the code. *)
Theorem formatTime_inj (a b : N) :
  wholeSeconds a -> wholeSeconds b -> a <> b ->
  formatTime a <> formatTime b.
Proof.
  intros _ _ D E. apply D. revert E.
  unfold formatTime. cbv zeta. intros E.
  assert (Sa : a mod 60 < 100) by (pose proof (N.mod_lt a 60 ltac:(lia)); lia).
  assert (Sb : b mod 60 < 100) by (pose proof (N.mod_lt b 60 ltac:(lia)); lia).
  destruct (padStart_toString (a mod 60)) as [Ea _].
  destruct (padStart_toString (b mod 60)) as [Eb _].
  rewrite (Ea Sa), (Eb Sb) in E.
  apply append_inj_suffix in E as [Em Es]; [|reflexivity].
  apply padStart_toString_inj in Em.
  rewrite <- (Ea Sa), <- (Eb Sb) in Es.
  injection Es as Es. apply padStart_toString_inj in Es.
  rewrite (N.div_mod a 60), (N.div_mod b 60) by lia. congruence.
Qed.

(** The recording time after [n] ticks of the mock timer. *)
Lemma afterTicks_from_zero (n : nat) :
  afterTicks n 0 = N.min (N.of_nat n) 5.
Proof.
  induction n as [|n IH]; [reflexivity|].
  cbn [afterTicks]. rewrite IH. unfold tick.
  destruct (N.leb_spec 5 (N.min (N.of_nat n) 5)); cbn [fst]; lia.
Qed.

(** X14: the mock recording counts the seconds up to 5 and no further.
    The timer tick that finds the time at 5 calls [stopMockRecording]:
    this is the sixth tick, not the fifth, and every tick before it
    leaves the recording running. *)
Theorem mock_recording_stops_on_the_sixth_tick (n : nat) :
  afterTicks n 0 = N.min (N.of_nat n) 5
  /\ (snd (tick (afterTicks n 0)) = true <-> (5 <= n)%nat).
Proof.
  split; [apply afterTicks_from_zero|].
  rewrite afterTicks_from_zero. unfold tick.
  destruct (N.leb_spec 5 (N.min (N.of_nat n) 5)); cbn [snd];
    split; intros; try discriminate; try reflexivity; lia.
Qed.

End Screen.

(** ** The application shell *)

Section Shell.

(** X15: the label and the colour of a score always belong to one band:
    "Excellent" in green from 80, "Good" in orange from 60 to below 80,
    "Needs Work" in red otherwise, which includes a score that is not a
    number. *)
Theorem score_label_and_colour_agree (score : float) :
  (App.getScoreLabel score = "Excellent"
   /\ App.getScoreColor score = "#22c55e"
   /\ (80 <=? score) = true)
  \/ (App.getScoreLabel score = "Good"
      /\ App.getScoreColor score = "#f59e0b"
      /\ (60 <=? score) = true /\ (score <? 80) = true)
  \/ (App.getScoreLabel score = "Needs Work"
      /\ App.getScoreColor score = "#ef4444"
      /\ (PrimFloat.is_nan score = true \/ (score <? 60) = true)).
Proof.
  unfold App.getScoreLabel, App.getScoreColor.
  destruct (80 <=? score) eqn:E80; [left; auto|].
  destruct (60 <=? score) eqn:E60.
  - right; left. repeat split.
    apply Binary64Ops.leb_false_ltb; [exact E80|reflexivity|].
    apply (Binary64Ops.leb_not_nan _ _ E60).
  - right; right. repeat split.
    destruct (PrimFloat.is_nan score) eqn:N; [left; reflexivity|right].
    apply Binary64Ops.leb_false_ltb; [exact E60|reflexivity|exact N].
Qed.

(** X16: the menu of the application offers exactly the movements the
    analyzer supports, and the recording screen has guidance of its own
    for exactly these.  The selected movement is the menu entry with the
    selected identifier, and the squat for any identifier off the
    menu. *)
Theorem selected_movement_is_on_the_menu (selectedMovement : string) :
  map App.id App.movements = supported
  /\ (In selectedMovement supported
      <-> CameraComponent.getCameraGuidance selectedMovement
          <> "Position camera to capture your full movement range.")
  /\ exists m,
       App.getSelectedMovement selectedMovement = Some m
       /\ In m App.movements
       /\ (App.id m = selectedMovement
           \/ (~ In selectedMovement supported /\ App.id m = "squat")).
Proof.
  split; [reflexivity|].
  unfold App.getSelectedMovement, App.movements,
    CameraComponent.getCameraGuidance.
  cbn [find App.id].
  rewrite !(String.eqb_sym selectedMovement).
  destruct (String.eqb_spec "squat" selectedMovement) as [<-|N1].
  { split; [split; [discriminate|simpl; auto]|].
    eexists; repeat split; simpl; auto. }
  destruct (String.eqb_spec "bench" selectedMovement) as [<-|N2].
  { split; [split; [discriminate|simpl; auto]|].
    eexists; repeat split; simpl; auto. }
  destruct (String.eqb_spec "deadlift" selectedMovement) as [<-|N3].
  { split; [split; [discriminate|simpl; auto]|].
    eexists; repeat split; simpl; auto. }
  assert (N : ~ In selectedMovement supported) by (simpl; intuition).
  split; [split; [contradiction|intros E; destruct E; reflexivity]|].
  eexists. split; [reflexivity|]. split; [simpl; auto|].
  right. split; [exact N|reflexivity].
Qed.

End Shell.

(** ** The score of a mock recording *)

Module MockScore.

Local Open Scope Z_scope.

Lemma rankTimes30_same (m m' e : Z) :
  canonical m e -> canonical m' e -> m <= m' -> e <= -53 ->
  rankTimes30 m e <= rankTimes30 m' e.
Proof.
  intros ([H0 _] & _) ([_ H1] & _) L He. unfold rankTimes30.
  apply Binary64.binary_round_aux_mono; try lia.
  - rewrite !Binary64.code_of_loc. lia.
  - assert (Zdigits2 (m' * 8444249301319680) <= 106); [|lia].
    apply Binary64.Zdigits2_le; [lia|].
    change (2 ^ 53) with 9007199254740992 in H1.
    change (2 ^ 106) with (9007199254740992 * 9007199254740992). nia.
Qed.

Lemma rankTimes30_step (e : Z) :
  -1074 <= e < -53 ->
  rankTimes30 (2 ^ 53 - 1) e <= rankTimes30 (2 ^ 52) (e + 1).
Proof.
  intros He. unfold rankTimes30.
  transitivity (rank (binary_round_aux prec emax false
                        (2 ^ 53 * 8444249301319680) (e + -48) loc_Exact)).
  - apply Binary64.binary_round_aux_mono; try lia.
    + rewrite !Binary64.code_of_loc. lia.
    + change (Zdigits2 (2 ^ 53 * 8444249301319680)) with 106. lia.
  - apply Z.eq_le_incl. f_equal.
    replace (e + 1 + -48) with (e + -48 + 1) by lia.
    apply (Binary64.binary_round_aux_double false
             (Z.to_pos (2 ^ 52 * 8444249301319680)) (e + -48)).
    change (Zdigits2 _) with 106. rewrite Binary64.fexp_spec. lia.
Qed.

Lemma rankTimes30_mono (m1 e1 m2 e2 : Z) :
  canonical m1 e1 -> canonical m2 e2 -> e2 <= -53 ->
  e1 < e2 \/ (e1 = e2 /\ m1 <= m2) ->
  rankTimes30 m1 e1 <= rankTimes30 m2 e2.
Proof.
  apply Binary64.chain_mono.
  - exact rankTimes30_same.
  - exact rankTimes30_step.
Qed.

Lemma rankTimes30_top :
  rankTimes30 (2 ^ 53 - 1) (-53)
  = (-48 + 1075) * 2 ^ 52 + 8444249301319679.
Proof. vm_compute. reflexivity. Qed.

Lemma Prim2SF_30 : Prim2SF 30 = S754_finite false 8444249301319680 (-48).
Proof. vm_compute. reflexivity. Qed.

Lemma Prim2SF_1 : Prim2SF 1 = S754_finite false 4503599627370496 (-52).
Proof. vm_compute. reflexivity. Qed.

Lemma SFltb_finite_inv (m c : positive) (e d : Z) :
  SFltb (S754_finite false m e) (S754_finite false c d) = true ->
  e < d \/ (e = d /\ Zpos m < Zpos c).
Proof.
  unfold SFltb, SFcompare. intros H.
  destruct (Z.compare_spec e d) as [E|L|G]; try discriminate H; [|left; exact L].
  right. split; [exact E|].
  rewrite Pos.compare_cont_spec in H. unfold Pos.switch_Eq in H.
  destruct (Pos.compare_spec m c) as [C|C|C];
    [discriminate H|exact C|discriminate H].
Qed.

(** A number from 0 to below 1 is a zero or has an exponent below that
    of 1. *)
Lemma unit_interval (u : float) :
  (0 <=? u)%float = true -> (u <? 1)%float = true ->
  (exists s, Prim2SF u = S754_zero s)
  \/ (exists m e, Prim2SF u = S754_finite false m e
        /\ canonical (Zpos m) e /\ e <= -53).
Proof.
  pose proof (Prim2SF_valid u) as V.
  rewrite leb_spec, ltb_spec, Prim2SF_1.
  change (Prim2SF 0) with (S754_zero false).
  destruct (Prim2SF u) as [s|[]| |[] m e]; try discriminate; intros _ H.
  - left. eauto.
  - right. exists m, e. split; [reflexivity|].
    pose proof (Binary64.valid_canonical _ _ _ V) as C.
    split; [exact C|].
    apply SFltb_finite_inv in H.
    destruct (Z.le_gt_cases e (-53)) as [L|G]; [exact L|exfalso].
    pose proof (Binary64.canonical_normal _ _ C ltac:(clear - G; lia)) as N.
    change (2 ^ 52) with 4503599627370496 in N. clear - H G N. lia.
Qed.

(** Thirty times a number from 0 to below 1 is a zero, or a positive
    number below 30 with a negative exponent. *)
Lemma below_thirty (u : float) :
  (0 <=? u)%float = true -> (u <? 1)%float = true ->
  (exists s, Prim2SF (u * 30) = S754_zero s)
  \/ (exists m e, Prim2SF (u * 30) = S754_finite false m e
        /\ Zpos m < 2 ^ 53
        /\ (e < -48 \/ (e = -48 /\ Zpos m <= 8444249301319679))).
Proof.
  intros H0 H1.
  pose proof (Prim2SF_valid (u * 30)) as V.
  rewrite mul_spec, Prim2SF_30 in *.
  destruct (unit_interval u H0 H1) as [[s E]|(m & e & E & C & L)];
    rewrite E in *.
  { left. destruct s; eexists; reflexivity. }
  assert (R : rankTimes30 (Zpos m) e <= rankTimes30 (2 ^ 53 - 1) (-53)).
  { apply rankTimes30_mono;
      [exact C|apply Binary64.canonical_top; clear; lia|clear; lia|].
    destruct C as ([_ U] & _).
    change (2 ^ 53) with 9007199254740992 in U. clear - U L. lia. }
  rewrite rankTimes30_top in R.
  change (rankTimes30 (Zpos m) e)
    with (rank (SF64mul (S754_finite false m e)
                  (S754_finite false 8444249301319680 (-48)))) in R.
  assert (N : SFnonneg (SF64mul (S754_finite false m e)
                          (S754_finite false 8444249301319680 (-48)))).
  { apply Binary64.binary_round_aux_nonneg. clear. lia. }
  destruct (SF64mul (S754_finite false m e)
              (S754_finite false 8444249301319680 (-48)))
    as [s|[]| |[] mt et]; try contradiction.
  - left. eauto.
  - right. exists mt, et. split; [reflexivity|].
    pose proof (Binary64.valid_canonical _ _ _ V) as Ct.
    split; [destruct Ct as ([_ U] & _); exact U|].
    apply (Binary64.rank_lex _ _ 8444249301319679 (-48) Ct).
    + repeat split; try (clear; lia). left. reflexivity.
    + exact R.
Qed.

(** The whole part of a positive number below 30. *)
Lemma floor_below_thirty (v : float) (m : positive) (e : Z) :
  Prim2SF v = S754_finite false m e ->
  Zpos m < 2 ^ 53 ->
  e < -48 \/ (e = -48 /\ Zpos m <= 8444249301319679) ->
  exists q, 0 <= q <= 29
    /\ Math_floor v = SF2Prim (binary_normalize prec emax q 0 false).
Proof.
  intros E U L. unfold Math_floor. rewrite E.
  destruct (Z.leb_spec 0 e) as [P|_]; [lia|].
  cbn [andb]. cbv zeta.
  exists (Z.shiftr (Zpos m) (- e)). split; [|reflexivity].
  rewrite Z.shiftr_div_pow2 by lia.
  split; [apply Z.div_pos; [lia|apply Z.pow_pos_nonneg; lia]|].
  destruct L as [L|[-> L]].
  - assert (Zpos m / 2 ^ (- e) <= Zpos m / 2 ^ 49).
    { apply Z.div_le_compat_l; [lia|].
      split; [reflexivity|apply Z.pow_le_mono_r; lia]. }
    assert (Zpos m / 2 ^ 49 < 16).
    { apply Z.div_lt_upper_bound; [reflexivity|].
      change (2 ^ 49 * 16) with (2 ^ 53). exact U. }
    lia.
  - change (- -48) with 48.
    assert (Zpos m / 2 ^ 48 < 30); [|lia].
    apply Z.div_lt_upper_bound; [reflexivity|].
    change (2 ^ 48 * 30) with 8444249301319680. lia.
Qed.

Local Close Scope Z_scope.

(** The scores of the whole numbers from 0 to 29, and their labels. *)
Lemma score_of_whole (q : Z) :
  (0 <= q <= 29)%Z ->
  SF2Prim (binary_normalize prec emax q 0 false) + 70
  = numberOfZ (q + 70)
  /\ (App.getScoreLabel (numberOfZ (q + 70)) = "Good"
      \/ App.getScoreLabel (numberOfZ (q + 70)) = "Excellent")
  /\ App.getScoreColor (numberOfZ (q + 70)) <> "#ef4444".
Proof.
  intros H.
  assert (B : (Z.to_nat q < 30)%nat) by lia.
  rewrite <- (Z2Nat.id q) by lia. clear H.
  revert B. generalize (Z.to_nat q). clear q. intros n B.
  do 10 (destruct n as [|n];
         [split; [vm_compute; reflexivity|];
          split; [left; vm_compute; reflexivity|vm_compute; discriminate]|]).
  do 20 (destruct n as [|n];
         [split; [vm_compute; reflexivity|];
          split; [right; vm_compute; reflexivity|vm_compute; discriminate]|]).
  lia.
Qed.

End MockScore.

Section Mock.

(** X20: a mock recording is scored with a whole number from 70 to 99,
    for every value from 0 to below 1 that [Math.random] can draw: the
    product with 30 stays below 30 after rounding.  The results screen
    therefore labels a mock recording "Good" or "Excellent", never
    "Needs Work". *)
Theorem mock_score_is_between_70_and_99
    (selectedMovement : string) (recordingTime : N) (g : Math.rng) :
  (0 <=? fst (Math.random g)) = true ->
  (fst (Math.random g) <? 1) = true ->
  exists k : Z,
    (70 <= k <= 99)%Z
    /\ App.score (fst (CameraComponent.mockAnalysis selectedMovement
                        recordingTime g))
       = numberOfZ k
    /\ (App.getScoreLabel (numberOfZ k) = "Good"
        \/ App.getScoreLabel (numberOfZ k) = "Excellent")
    /\ App.getScoreColor (numberOfZ k) <> "#ef4444".
Proof.
  intros H0 H1. unfold CameraComponent.mockAnalysis.
  destruct (Math.random g) as [u g'] eqn:R. cbn [fst App.score] in *.
  assert (Q : exists q, (0 <= q <= 29)%Z
                /\ Math_floor (u * 30) + 70
                   = SF2Prim (binary_normalize prec emax q 0 false) + 70).
  { destruct (MockScore.below_thirty u H0 H1)
      as [[s E]|(m & e & E & U & L)].
    - exists 0%Z. split; [lia|]. unfold Math_floor. rewrite E.
      apply Prim2SF_inj. rewrite !add_spec, E.
      destruct s; reflexivity.
    - destruct (MockScore.floor_below_thirty _ m e E U L) as (q & B & ->).
      exists q. split; [exact B|reflexivity]. }
  destruct Q as (q & B & ->).
  destruct (MockScore.score_of_whole q B) as (S & L & C).
  exists (q + 70)%Z. split; [lia|]. split; [exact S|]. split; assumption.
Qed.

End Mock.

(** ** Instances of the further properties *)

Lemma errors_bound_the_score_witness :
  exists r g',
    FormAnalyzer.analyze acos_steps atan2_axes "squat"
      (Some (frame worstSquat 0)) twoDraws = (Some r, g')
    /\ (errors r = [] -> (80 <=? score r) = true)
    /\ (errors r <> [] -> (score r <=? 85) = true).
Proof.
  apply (errors_bound_the_score acos_steps atan2_axes "squat" worstSquat 0
           twoDraws); [simpl; auto|reflexivity].
Defined.

Lemma squat_rep_needs_ankle_above_hip_witness :
  (center_y (point 0.4 0.6) (point 0.6 0.6) <? y (point 0.4 1.0)) = true
  /\ exists r,
       FormAnalyzer.analyze acos_steps atan2_axes "squat"
         (Some (frame scenarioA 0)) twoDraws = (Some r, twoDraws)
       /\ repCompleted r = Some false.
Proof.
  split; [reflexivity|].
  apply (squat_rep_needs_ankle_above_hip acos_steps atan2_axes scenarioA 0
           twoDraws (point 0.4 0.6) (point 0.6 0.6) (point 0.4 1.0));
    reflexivity.
Defined.

Lemma squat_below_parallel_reads_as_shallow_witness :
  exists r,
    FormAnalyzer.analyze acos_steps atan2_axes "squat"
      (Some (frame deepSquat 0)) twoDraws = (Some r, twoDraws)
    /\ In "Squat deeper - hips need to go below knee level" (errors r)
    /\ ~ In "Excellent depth!" (feedback r)
    /\ ~ In "Good depth! Try to go slightly deeper" (feedback r)
    /\ (score r <=? 75) = true
    /\ repCompleted r = Some false.
Proof.
  apply (squat_below_parallel_reads_as_shallow acos_steps atan2_axes
           deepSquat 0 twoDraws
           (point 0.375 0.75) (point 0.625 0.75)
           (point 0.375 0.625) (point 0.625 0.625) (point 0.375 1.0));
    reflexivity.
Defined.

Lemma level_hips_pass_knee_tracking_witness :
  exists r v,
    FormAnalyzer.analyze acos_steps atan2_axes "squat"
      (Some (frame sideSquat 0)) twoDraws = (Some r, twoDraws)
    /\ metric "kneeTracking" r = Some v
    /\ (forall c, (v <? c) = false)
    /\ In "Great knee tracking!" (feedback r)
    /\ ~ In "Knees caving in - push knees out over toes" (errors r)
    /\ ~ In "Watch knee alignment - keep them tracking over toes"
           (feedback r).
Proof.
  apply (level_hips_pass_knee_tracking acos_steps atan2_axes sideSquat 0
           twoDraws (point 0.5 0.5) (point 0.5 0.5)); reflexivity.
Defined.

Lemma collapsed_arm_reports_nan_witness :
  exists r g',
    FormAnalyzer.analyze acos_steps atan2_axes "bench"
      (Some (frame collapsedElbow 0)) twoDraws = (Some r, g')
    /\ metric "elbowAngle" r = Some nan
    /\ In "Good elbow position!" (feedback r)
    /\ ~ In "Elbows too flared - bring them closer to your body" (errors r)
    /\ ~ In "Slight elbow flare - try to keep elbows at 45-degree angle"
           (feedback r).
Proof.
  apply (collapsed_arm_reports_nan acos_steps atan2_axes collapsedElbow 0
           twoDraws
           (point 0.3 0.3) (point 0.7 0.3) (point 0.3 0.3) (point 0.7 0.5)
           (point 0.5 0.5) (point 0.5 0.5) acos_steps_conforms);
    try reflexivity.
  left. split; reflexivity.
Defined.

Lemma scenarioA_annotated_view : sameView "squat" scenarioA_annotated scenarioA.
Proof.
  intros name I. simpl in I.
  destruct I as [<-|[<-|[<-|[<-|[<-|[<-|[<-|[<-|[]]]]]]]]];
    vm_compute; reflexivity.
Defined.

Lemma analyze_reads_planar_landmarks_only_witness :
  FormAnalyzer.analyze acos_steps atan2_axes "squat"
    (Some (frame scenarioA_annotated 1)) twoDraws
  = FormAnalyzer.analyze acos_steps atan2_axes "squat"
      (Some (frame scenarioA 2)) twoDraws.
Proof.
  apply (analyze_reads_planar_landmarks_only acos_steps atan2_axes "squat"
           scenarioA_annotated scenarioA 1 2 twoDraws).
  exact scenarioA_annotated_view.
Defined.

Lemma bench_and_deadlift_ignore_side_labels_witness :
  FormAnalyzer.analyze acos_steps atan2_axes "deadlift"
    (Some (frame (mirror (horizontalLifter 0.25)) 0)) twoDraws
  = FormAnalyzer.analyze acos_steps atan2_axes "deadlift"
      (Some (frame (horizontalLifter 0.25) 0)) twoDraws.
Proof.
  apply (bench_and_deadlift_ignore_side_labels acos_steps atan2_axes
           "deadlift" (horizontalLifter 0.25) 0 twoDraws).
  simpl. auto.
Defined.

Lemma lone_optional_landmark_is_ignored_witness :
  loneShoulder !! "rightShoulder" = None
  /\ FormAnalyzer.analyze acos_steps atan2_axes "squat"
       (Some (frame loneShoulder 0)) twoDraws
     = FormAnalyzer.analyze acos_steps atan2_axes "squat"
         (Some (frame (delete "leftShoulder"
                         (delete "rightShoulder" loneShoulder)) 0))
         twoDraws.
Proof.
  split; [reflexivity|].
  apply (lone_optional_landmark_is_ignored acos_steps atan2_axes "squat"
           loneShoulder 0 twoDraws); [simpl; auto|].
  right. reflexivity.
Defined.

Lemma formatTime_below_100_minutes_witness :
  CameraComponent.formatTime 75 = "01:15"
  /\ String.length (CameraComponent.formatTime 75) = 5%nat.
Proof.
  apply (formatTime_below_100_minutes 75). reflexivity.
Defined.

Lemma formatTime_inj_witness :
  CameraComponent.formatTime 5999 = "99:59"
  /\ CameraComponent.formatTime 6000 = "100:00"
  /\ CameraComponent.formatTime 5999 <> CameraComponent.formatTime 6000.
Proof.
  split; [reflexivity|]. split; [reflexivity|].
  apply (formatTime_inj 5999 6000); [reflexivity|reflexivity|discriminate].
Defined.

Lemma reported_back_angle_range_witness :
  exists r angle,
    FormAnalyzer.analyze acos_steps atan2_axes "deadlift"
      (Some (frame uprightLifter 0)) twoDraws = (Some r, twoDraws)
    /\ metric "backAngle" r = Some angle
    /\ (PrimFloat.is_nan angle = true \/ inDegrees angle = true).
Proof.
  apply (reported_back_angle_range acos_steps atan2_axes uprightLifter 0
           twoDraws atan2_axes_in_range).
  reflexivity.
Defined.

Lemma mock_score_is_between_70_and_99_witness :
  App.score (fst (CameraComponent.mockAnalysis "squat" 5 twoDraws)) = 97
  /\ exists k : Z,
       (70 <= k <= 99)%Z
       /\ App.score (fst (CameraComponent.mockAnalysis "squat" 5 twoDraws))
          = numberOfZ k
       /\ (App.getScoreLabel (numberOfZ k) = "Good"
           \/ App.getScoreLabel (numberOfZ k) = "Excellent")
       /\ App.getScoreColor (numberOfZ k) <> "#ef4444".
Proof.
  split; [reflexivity|].
  apply (mock_score_is_between_70_and_99 "squat" 5 twoDraws); reflexivity.
Defined.

Lemma scenarioA_level_ankles (la ra : KeyPoint) :
  scenarioA !! "leftAnkle" = Some la -> scenarioA !! "rightAnkle" = Some ra ->
  y la = y ra.
Proof.
  intros E1 E2.
  change (Some (point 0.4 1.0) = Some la) in E1.
  change (Some (point 0.6 1.0) = Some ra) in E2.
  replace la with (point 0.4 1.0) by congruence.
  replace ra with (point 0.6 1.0) by congruence.
  reflexivity.
Defined.

Lemma squat_ignores_side_labels_with_level_ankles_witness :
  FormAnalyzer.analyze acos_steps atan2_axes "squat"
    (Some (frame (mirror scenarioA) 0)) twoDraws
  = FormAnalyzer.analyze acos_steps atan2_axes "squat"
      (Some (frame scenarioA 0)) twoDraws.
Proof.
  apply (squat_ignores_side_labels_with_level_ankles acos_steps atan2_axes
           scenarioA 0 twoDraws).
  exact scenarioA_level_ankles.
Defined.

Lemma nan_metric_passes_its_rule_witness :
  exists r g',
    FormAnalyzer.analyze acos_steps atan2_axes "bench"
      (Some (frame collapsedElbow 0)) twoDraws = (Some r, g')
    /\ metric "elbowAngle" r = Some nan
    /\ ~ In (hardMessage "bench" "elbowAngle") (errors r)
    /\ (forall m, In m (goodMessage "bench" "elbowAngle") ->
          In m (feedback r)).
Proof.
  destruct (nan_metric_passes_its_rule acos_steps atan2_axes "bench"
              collapsedElbow 0 twoDraws (or_intror (or_introl eq_refl))
              eq_refl) as (r & g' & E & P).
  exists r, g'. split; [exact E|].
  assert (M : metric "elbowAngle" r = Some nan).
  { apply (f_equal (fun p => r' ← fst p; metric "elbowAngle" r')) in E.
    cbn [fst mbind option_bind] in E. rewrite <- E.
    vm_compute. reflexivity. }
  split; [exact M|]. exact (P "elbowAngle" nan M eq_refl).
Defined.

Lemma squat_never_reads_right_ankle_position_witness :
  FormAnalyzer.analyze acos_steps atan2_axes "squat"
    (Some (frame (<["rightAnkle" := point 0 0]> unevenAnkles) 0)) twoDraws
  = FormAnalyzer.analyze acos_steps atan2_axes "squat"
      (Some (frame unevenAnkles 0)) twoDraws.
Proof.
  apply (squat_never_reads_right_ankle_position acos_steps atan2_axes
           unevenAnkles 0 twoDraws (point 0.625 0.75) (point 0 0)).
  reflexivity.
Defined.

Lemma reported_metrics_are_not_negative_witness :
  exists r g',
    FormAnalyzer.analyze acos_steps atan2_axes "bench"
      (Some (frame scenarioC 0)) twoDraws = (Some r, g')
    /\ forall name v,
         metric name r = Some v -> name <> "depth" ->
         PrimFloat.is_nan v = true \/ (0 <=? v) = true.
Proof.
  apply (reported_metrics_are_not_negative acos_steps atan2_axes "bench"
           scenarioC 0 twoDraws acos_steps_conforms);
    [simpl; auto|reflexivity].
Defined.

Lemma reported_symmetry_is_a_fraction_witness :
  exists r g',
    FormAnalyzer.analyze acos_steps atan2_axes "squat"
      (Some (frame scenarioA 0)) twoDraws = (Some r, g')
    /\ forall v,
         metric "symmetry" r = Some v ->
         PrimFloat.is_nan v = true \/ (0 <=? v) && (v <=? 1) = true.
Proof.
  apply (reported_symmetry_is_a_fraction acos_steps atan2_axes "squat"
           scenarioA 0 twoDraws);
    [simpl; auto|reflexivity].
Defined.

Lemma reported_elbow_angle_range_witness :
  exists r g',
    FormAnalyzer.analyze acos_steps atan2_axes "bench"
      (Some (frame scenarioC 0)) twoDraws = (Some r, g')
    /\ forall v,
         metric "elbowAngle" r = Some v ->
         PrimFloat.is_nan v = true \/ (0 <=? v) && (v <=? 180) = true.
Proof.
  apply (reported_elbow_angle_range acos_steps atan2_axes scenarioC 0
           twoDraws acos_steps_conforms).
  reflexivity.
Defined.

Lemma floor_of_quotient_witness :
  Math_floor (9007199254740991 / 60) = 150119987579016.
Proof.
  apply (floor_of_quotient 9007199254740991). reflexivity.
Defined.
